(** * Headache diary (app.py and its older copy): model and properties

    The application is a Streamlit script over a pandas table persisted as
    [headache_data.csv].  This development embeds

    - the Python built-ins the script relies on ([str.split], [str.replace],
      [int], [divmod], [round], [datetime] arithmetic),
    - the fragment of pandas it calls ([read_csv], [to_csv], [concat],
      [drop], [reset_index], [cut], [value_counts], [explode]),
    - the script's own functions and handlers, once for [app.py]
      (module [App]) and once for the older copy (module [AppCopy]),
    - the charts by month, weekday and severity, the select box of the
      delete section and the download (modules [Series] and [Page]), and the
      page of the older copy, which draws all charts on one table (module
      [PageCopy]),

    and then states the properties of the record store, the duration
    calculator and the reports.

    Conventions.  A Python [str] is modelled by the byte string of its UTF-8
    encoding; substring search on valid UTF-8 agrees with substring search on
    code points because UTF-8 is self-synchronising.  A Python [float] is
    modelled by the reduced fraction of its value, computed exactly: the forms
    only produce minute-granular times, for which every binary64 operation of
    the script is exact.  Where the persisted table would need the decimal
    text of a float that is not a whole number below 2^53, the model stops
    with [NotModelled] instead of guessing. *)

From Stdlib Require Import ZArith QArith Qround Lia List Ascii String.
From Stdlib Require Import DecimalString DecimalPos DecimalZ.
From stdpp Require Import base option list strings gmap.

Local Open Scope Z_scope.

(** ** Exceptions and results *)

Inductive exn : Type :=
| ValueError
| IndexError
| KeyError
| AttributeError
| FileNotFoundError
| EmptyDataError
| ParserError
| NotModelled.

Definition result (A : Type) : Type := exn + A.

Definition ok {A} (a : A) : result A := inr a.
Definition raise {A} (e : exn) : result A := inl e.

Definition bind {A B} (m : result A) (k : A -> result B) : result B :=
  match m with
  | inl e => inl e
  | inr a => k a
  end.

Notation "'try!' x := m 'in' k" := (bind m (fun x => k))
  (at level 10, x name, m at level 100, k at level 200, only parsing).

(** ** Python strings *)

Module Py.

(** [s.split(sep)] for a non-empty separator: the pieces between the
    non-overlapping occurrences of [sep], found left to right.  [skip] counts
    the bytes of a separator that are still to be passed over. *)
Fixpoint split_go (sep : string) (skip : nat) (s : string) : string * list string :=
  match s with
  | EmptyString => (EmptyString, [])
  | String c s' =>
      match skip with
      | S k => split_go sep k s'
      | O =>
          if String.prefix sep s
          then (EmptyString,
                let '(h, t) := split_go sep (String.length sep - 1) s' in h :: t)
          else let '(h, t) := split_go sep 0 s' in (String c h, t)
      end
  end.

Definition split (sep s : string) : result (list string) :=
  match sep with
  | EmptyString => raise ValueError
  | _ => let '(h, t) := split_go sep 0 s in ok (h :: t)
  end.

(** [s.replace(old, new)]. *)
Fixpoint replace_go (old new : string) (skip : nat) (s : string) : string :=
  match s with
  | EmptyString => EmptyString
  | String c s' =>
      match skip with
      | S k => replace_go old new k s'
      | O =>
          if String.prefix old s
          then new +:+ replace_go old new (String.length old - 1) s'
          else String c (replace_go old new 0 s')
      end
  end.

Fixpoint interleave (new s : string) : string :=
  match s with
  | EmptyString => new
  | String c s' => new +:+ String c (interleave new s')
  end.

Definition replace (old new s : string) : string :=
  match old with
  | EmptyString => interleave new s
  | _ => replace_go old new 0 s
  end.

(** [sep.join(parts)]. *)
Fixpoint join (sep : string) (parts : list string) : string :=
  match parts with
  | [] => EmptyString
  | [p] => p
  | p :: ps => p +:+ sep +:+ join sep ps
  end.

(** [list[i]] for a non-negative constant index. *)
Definition getitem {A} (l : list A) (i : nat) : result A :=
  match l !! i with
  | Some a => ok a
  | None => raise IndexError
  end.

(** ASCII white space as [str.strip] and [int] see it. *)
Definition is_space (c : ascii) : bool :=
  let n := nat_of_ascii c in
  ((9 <=? n) && (n <=? 13) || (28 <=? n) && (n <=? 32))%nat.

Fixpoint lstrip (s : string) : string :=
  match s with
  | EmptyString => EmptyString
  | String c s' => if is_space c then lstrip s' else s
  end.

Fixpoint rstrip (s : string) : string :=
  match s with
  | EmptyString => EmptyString
  | String c s' =>
      match rstrip s' with
      | EmptyString => if is_space c then EmptyString else String c EmptyString
      | r => String c r
      end
  end.

Definition strip (s : string) : string := rstrip (lstrip s).

Definition digit_val (c : ascii) : option Z :=
  let n := nat_of_ascii c in
  if ((48 <=? n) && (n <=? 57))%nat then Some (Z.of_nat n - 48) else None.

(** The digits of an integer literal: decimal digits, with single underscores
    allowed between two digits. *)
Fixpoint int_digits (acc : Z) (after_digit : bool) (s : string) : option Z :=
  match s with
  | EmptyString => if after_digit then Some acc else None
  | String c s' =>
      match digit_val c with
      | Some d => int_digits (10 * acc + d) true s'
      | None =>
          if Ascii.eqb c "_" && after_digit then int_digits acc false s' else None
      end
  end.

(** [int(s)] in base ten: surrounding white space, an optional sign, digits.
    Digits and spaces outside ASCII, which Python also accepts, are not
    modelled and are answered with [ValueError]. *)
Definition int (s : string) : result Z :=
  let body := strip s in
  let parsed :=
    match body with
    | String "-" ds => Z.opp <$> int_digits 0 false ds
    | String "+" ds => int_digits 0 false ds
    | _ => int_digits 0 false body
    end in
  match parsed with
  | Some z => ok z
  | None => raise ValueError
  end.

(** [str(z)], also what [f"{z}"] prints for an [int]. *)
Definition str (z : Z) : string := NilZero.string_of_int (Z.to_int z).

(** [int(x)] for a float: truncation towards zero. *)
Definition int_of_float (x : Q) : Z :=
  if Qle_bool 0 x then Qfloor x else Qceiling x.

(** [divmod(x, y)] on floats with [y > 0]: the quotient is the floor of
    [x / y] (still a float) and the remainder has the sign of [y]. *)
Definition divmod (x y : Q) : Q * Q :=
  let q := inject_Z (Qfloor (x / y)) in
  (q, Qred (x - y * q))%Q.

(** [x / y] on floats. *)
Definition truediv (x y : Q) : Q := Qred (x / y).

(** [round(x)]: to the nearest integer, ties to the even one. *)
Definition round (x : Q) : Z :=
  let f := Qfloor x in
  match ((x - inject_Z f) ?= (1 # 2))%Q with
  | Lt => f
  | Gt => f + 1
  | Eq => if Z.even f then f else f + 1
  end.

End Py.

(** ** Dates and times (module [datetime]) *)

Record date : Type := Date { year : Z; month : Z; day : Z }.
Record time : Type := Time { hour : Z; minute : Z; second : Z; microsecond : Z }.
Record datetime : Type := Datetime { dt_date : date; dt_time : time }.

(** The normalised representation of [timedelta]. *)
Record timedelta : Type :=
  Timedelta { td_days : Z; td_seconds : Z; td_microseconds : Z }.

Module DT.

Definition is_leap (y : Z) : bool :=
  (y mod 4 =? 0) && (negb (y mod 100 =? 0) || (y mod 400 =? 0)).

Definition days_before_year (y : Z) : Z :=
  let y1 := y - 1 in y1 * 365 + y1 / 4 - y1 / 100 + y1 / 400.

Definition days_in_month (y m : Z) : Z :=
  if (m =? 2) && is_leap y then 29
  else nth (Z.to_nat m) [-1; 31; 28; 31; 30; 31; 30; 31; 31; 30; 31; 30; 31] 0.

Definition days_before_month (y m : Z) : Z :=
  nth (Z.to_nat m) [-1; 0; 31; 59; 90; 120; 151; 181; 212; 243; 273; 304; 334] 0
  + (if (2 <? m) && is_leap y then 1 else 0).

Definition ymd2ord (y m d : Z) : Z :=
  days_before_year y + days_before_month y m + d.

Definition toordinal (d : date) : Z := ymd2ord (year d) (month d) (day d).

(** What the constructors [date(...)] and [time(...)] accept. *)
Definition valid_date (d : date) : bool :=
  (1 <=? year d) && (year d <=? 9999) && (1 <=? month d) && (month d <=? 12)
  && (1 <=? day d) && (day d <=? days_in_month (year d) (month d)).

Definition valid_time (t : time) : bool :=
  (0 <=? hour t) && (hour t <? 24) && (0 <=? minute t) && (minute t <? 60)
  && (0 <=? second t) && (second t <? 60)
  && (0 <=? microsecond t) && (microsecond t <? 1000000).

Definition valid (x : datetime) : bool :=
  valid_date (dt_date x) && valid_time (dt_time x).

(** [datetime.combine(date, time)]. *)
Definition combine (d : date) (t : time) : datetime := Datetime d t.

(** Comparison of two datetimes: lexicographic on the seven fields. *)
Definition fields (x : datetime) : list Z :=
  [year (dt_date x); month (dt_date x); day (dt_date x);
   hour (dt_time x); minute (dt_time x); second (dt_time x);
   microsecond (dt_time x)].

Fixpoint cmp (a b : list Z) : comparison :=
  match a, b with
  | x :: a', y :: b' =>
      match x ?= y with
      | Eq => cmp a' b'
      | c => c
      end
  | [], [] => Eq
  | [], _ :: _ => Lt
  | _ :: _, [] => Gt
  end.

Definition gt (x y : datetime) : bool :=
  match cmp (fields x) (fields y) with Gt => true | _ => false end.

Definition lt (x y : datetime) : bool := gt y x.
Definition ge (x y : datetime) : bool := negb (lt x y).

(** [timedelta(days, seconds, microseconds)] normalises its arguments so that
    [0 <= seconds < 86400] and [0 <= microseconds < 1000000]. *)
Definition timedelta_new (days seconds microseconds : Z) : timedelta :=
  let us := (days * 86400 + seconds) * 1000000 + microseconds in
  Timedelta (us / 86400000000) ((us / 1000000) mod 86400) (us mod 1000000).

(** [x - y] on datetimes. *)
Definition sub (x y : datetime) : timedelta :=
  let secs (t : time) := second t + minute t * 60 + hour t * 3600 in
  timedelta_new
    (toordinal (dt_date x) - toordinal (dt_date y))
    (secs (dt_time x) - secs (dt_time y))
    (microsecond (dt_time x) - microsecond (dt_time y)).

(** [td.total_seconds()]. *)
Definition total_seconds (td : timedelta) : Q :=
  Py.truediv
    (inject_Z ((td_days td * 86400 + td_seconds td) * 1000000 + td_microseconds td))
    (inject_Z 1000000).

(** Zero-padded decimal fields of [strftime] and [isoformat]. *)
Definition repeat0 (n : nat) : string :=
  String.concat EmptyString (List.repeat "0"%string n).

Definition zfill (width : nat) (s : string) : string :=
  repeat0 (width - String.length s) +:+ s.

(** [str(d)] and [d.isoformat()]: [YYYY-MM-DD]. *)
Definition isoformat (d : date) : string :=
  zfill 4 (Py.str (year d)) +:+ "-" +:+ zfill 2 (Py.str (month d)) +:+ "-"
  +:+ zfill 2 (Py.str (day d)).

(** [x.strftime('%Y-%m-%d %H:%M')] (years from 1000 on, where [%Y] has four
    digits on every platform). *)
Definition strftime_minutes (x : datetime) : string :=
  isoformat (dt_date x) +:+ " " +:+ zfill 2 (Py.str (hour (dt_time x))) +:+ ":"
  +:+ zfill 2 (Py.str (minute (dt_time x))).

(** The position of a datetime on the time line, in microseconds. *)
Definition timestamp (x : datetime) : Z :=
  (toordinal (dt_date x) * 86400
   + (second (dt_time x) + minute (dt_time x) * 60 + hour (dt_time x) * 3600)) * 1000000
  + microsecond (dt_time x).

(** Times as the widgets deliver them: whole minutes. *)
Definition minute_granular (x : datetime) : Prop :=
  second (dt_time x) = 0 /\ microsecond (dt_time x) = 0.

End DT.

(** ** The duration calculator (identical in both files)

    [calculate_duration] of app.py, lines 19-23. *)
Definition calculate_duration (start_time end_time : datetime) : string * Q :=
  let duration := DT.sub end_time start_time in
  let total_minutes := Py.truediv (DT.total_seconds duration) 60 in
  let '(hours, minutes) := Py.divmod total_minutes 60 in
  (Py.str (Py.int_of_float hours) +:+ "小时"
   +:+ Py.str (Py.int_of_float minutes) +:+ "分钟",
   total_minutes).

(** The aggregator's inverse parse (app.py line 150):
    [int(x.split('小时')[0]) * 60 + int(x.split('小时')[1].replace('分钟', ''))]. *)
Definition duration_minutes (x : string) : result Z :=
  try! parts0 := Py.split "小时" x in
  try! h := Py.getitem parts0 0 in
  try! hours := Py.int h in
  try! parts1 := Py.split "小时" x in
  try! m := Py.getitem parts1 1 in
  try! minutes := Py.int (Py.replace "分钟" EmptyString m) in
  ok (hours * 60 + minutes).

(** ** The pandas fragment *)

(** The values a cell of the table can hold: a missing value, a Python or
    numpy number, a boolean, a text, a [datetime.date] (as the create form
    puts it in the [Date] column) or a timestamp (after [pd.to_datetime]). *)
Inductive cell : Type :=
| NaN
| CInt (z : Z)
| CFloat (q : Q)
| CBool (b : bool)
| CStr (s : string)
| CDate (d : date)
| CTimestamp (x : datetime).

(** A [DataFrame]: column names, row labels and the rows themselves. *)
Record DataFrame : Type :=
  Frame { columns : list string; index : list Z; rows : list (list cell) }.

Fixpoint map_result {A B} (f : A -> result B) (l : list A) : result (list B) :=
  match l with
  | [] => ok []
  | a :: l' =>
      try! b := f a in
      try! bs := map_result f l' in
      ok (b :: bs)
  end.

Module Pd.

(** [RangeIndex(n)]. *)
Definition range (n : nat) : list Z := map Z.of_nat (seq 0 n).

(** [pd.DataFrame(columns=cols)]. *)
Definition empty_frame (cols : list string) : DataFrame := Frame cols [] [].

(** [pd.DataFrame(rows, columns=cols)]. *)
Definition frame_of_rows (cols : list string) (rs : list (list cell)) : DataFrame :=
  Frame cols (range (length rs)) rs.

(** [df.empty]. *)
Definition empty (df : DataFrame) : bool :=
  (length (rows df) =? 0)%nat || (length (columns df) =? 0)%nat.

Fixpoint position (c : string) (cols : list string) : option nat :=
  match cols with
  | [] => None
  | c' :: cols' => if String.eqb c c' then Some O else S <$> position c cols'
  end.

(** [row[c]] in a frame with columns [cols]; a column the frame does not have
    is missing. *)
Definition at_column (cols : list string) (row : list cell) (c : string) : cell :=
  match position c cols with
  | Some k => nth k row NaN
  | None => NaN
  end.

Definition reindex_row (from to : list string) (row : list cell) : list cell :=
  map (at_column from row) to.

(** [pd.concat([a, b], ignore_index=True)]: the columns of [a] followed by
    the new columns of [b]; rows aligned by column name; fresh row labels. *)
Definition concat (a b : DataFrame) : DataFrame :=
  let cols :=
    columns a ++ List.filter (fun c => negb (existsb (String.eqb c) (columns a))) (columns b) in
  frame_of_rows cols
    (map (reindex_row (columns a) cols) (rows a)
     ++ map (reindex_row (columns b) cols) (rows b)).

(** [df.drop(label)]: removes the rows labelled [label]; [KeyError] when the
    label is not in the index. *)
Definition drop (label : Z) (df : DataFrame) : result DataFrame :=
  if existsb (Z.eqb label) (index df) then
    let keep := List.filter (fun p => negb (Z.eqb label (fst p))) (zip (index df) (rows df)) in
    ok (Frame (columns df) (map fst keep) (map snd keep))
  else raise KeyError.

(** [df.reset_index(drop=True)]. *)
Definition reset_index (df : DataFrame) : DataFrame :=
  Frame (columns df) (range (length (rows df))) (rows df).

(** [df[c]] as the list of the column's cells; [KeyError] for a missing
    column. *)
Definition column (c : string) (df : DataFrame) : result (list cell) :=
  match position c (columns df) with
  | Some k => ok (map (fun row => nth k row NaN) (rows df))
  | None => raise KeyError
  end.

(** *** Writing: [to_csv(index=False, encoding='utf-8-sig')] *)

Definition bom : string :=
  String (ascii_of_nat 239) (String (ascii_of_nat 187) (String (ascii_of_nat 191) EmptyString)).

Definition comma : ascii := ","%char.
Definition dquote : ascii := "034"%char.
Definition lf : ascii := "010"%char.
Definition cr : ascii := "013"%char.
Definition space : ascii := " "%char.
Definition tab : ascii := "009"%char.

(** The text of a float: only whole numbers below 2^53 are modelled, which
    numpy prints with a trailing [.0]. *)
Definition float_repr (q : Q) : result string :=
  let r := Qred q in
  if (Pos.eqb (Qden r) 1) && (Z.abs (Qnum r) <? 2 ^ 53)
  then ok (Py.str (Qnum r) +:+ ".0")
  else raise NotModelled.

(** The text of a cell, with the default [na_rep=''].  A timestamp column is
    written as dates when every time of day is midnight. *)
Definition render (c : cell) : result string :=
  match c with
  | NaN => ok EmptyString
  | CInt z => ok (Py.str z)
  | CFloat q => float_repr q
  | CBool true => ok "True"%string
  | CBool false => ok "False"%string
  | CStr s => ok s
  | CDate d => ok (DT.isoformat d)
  | CTimestamp x =>
      match dt_time x with
      | Time 0 0 0 0 => ok (DT.isoformat (dt_date x))
      | _ => raise NotModelled
      end
  end.

(** [csv.QUOTE_MINIMAL] with the line terminator of a POSIX system: a field
    is quoted when it holds the delimiter, the quote character or a line
    feed; quotes inside are doubled. *)
Definition special (c : ascii) : bool :=
  Ascii.eqb c comma || Ascii.eqb c dquote || Ascii.eqb c lf.

Fixpoint needs_quote (s : string) : bool :=
  match s with
  | EmptyString => false
  | String c s' => special c || needs_quote s'
  end.

Fixpoint double_quotes (s : string) : string :=
  match s with
  | EmptyString => EmptyString
  | String c s' =>
      if Ascii.eqb c dquote then String dquote (String dquote (double_quotes s'))
      else String c (double_quotes s')
  end.

Definition quote_field (s : string) : string :=
  if needs_quote s
  then String dquote (double_quotes s +:+ String dquote EmptyString)
  else s.

(** One record; a record made of a single empty field is written as a pair
    of quotes so that it is not taken for a blank line. *)
Definition write_row (fields : list string) : string :=
  match fields with
  | [EmptyString] => String dquote (String dquote (String lf EmptyString))
  | _ => Py.join (String comma EmptyString) (map quote_field fields) +:+ String lf EmptyString
  end.

Definition to_csv (df : DataFrame) : result string :=
  try! body := map_result (map_result render) (rows df) in
  ok (bom +:+ write_row (columns df) +:+ String.concat EmptyString (map write_row body)).

(** *** Reading: [read_csv] with its defaults

    The tokenizer follows the state machine of the C parser for the default
    dialect: comma delimiter, double quote with doubling, records ended by
    LF, CR or CR LF, blank lines skipped. *)

Inductive mode : Type :=
| StartRecord
| WhitespaceLine
| StartField
| InField
| InQuotedField
| QuoteInQuotedField
| EatCRNL
| EatCRNLNop.

Record tok : Type :=
  Tok { t_mode : mode; t_field : string; t_row : list string; t_rows : list (list string) }.

Definition set_mode (m : mode) (t : tok) : tok :=
  Tok m (t_field t) (t_row t) (t_rows t).

Definition push (c : ascii) (t : tok) : tok :=
  Tok (t_mode t) (t_field t +:+ String c EmptyString) (t_row t) (t_rows t).

Definition end_field (t : tok) : tok :=
  Tok (t_mode t) EmptyString (t_row t ++ [t_field t]) (t_rows t).

Definition end_line (t : tok) : tok :=
  Tok StartRecord (t_field t) [] (t_rows t ++ [t_row t]).

Definition step_start_field (t : tok) (c : ascii) : tok :=
  if Ascii.eqb c lf then end_line (end_field t)
  else if Ascii.eqb c cr then set_mode EatCRNL (end_field t)
  else if Ascii.eqb c dquote then set_mode InQuotedField t
  else if Ascii.eqb c comma then set_mode StartField (end_field t)
  else set_mode InField (push c t).

Definition step_in_field (t : tok) (c : ascii) : tok :=
  if Ascii.eqb c lf then end_line (end_field t)
  else if Ascii.eqb c cr then set_mode EatCRNL (end_field t)
  else if Ascii.eqb c comma then set_mode StartField (end_field t)
  else set_mode InField (push c t).

Definition step_start_record (t : tok) (c : ascii) : tok :=
  if Ascii.eqb c lf then set_mode StartRecord t
  else if Ascii.eqb c cr then set_mode EatCRNLNop t
  else if Ascii.eqb c space || Ascii.eqb c tab then set_mode WhitespaceLine (push c t)
  else step_start_field t c.

(** In [WhitespaceLine] the blanks read so far wait in [t_field]: a line of
    blanks only is dropped, any other byte makes them the start of a field. *)
Definition step (t : tok) (c : ascii) : tok :=
  match t_mode t with
  | StartRecord => step_start_record t c
  | WhitespaceLine =>
      if Ascii.eqb c lf then Tok StartRecord EmptyString (t_row t) (t_rows t)
      else if Ascii.eqb c cr then Tok EatCRNLNop EmptyString (t_row t) (t_rows t)
      else if Ascii.eqb c space || Ascii.eqb c tab then push c t
      else step_in_field t c
  | StartField => step_start_field t c
  | InField => step_in_field t c
  | InQuotedField =>
      if Ascii.eqb c dquote then set_mode QuoteInQuotedField t else push c t
  | QuoteInQuotedField =>
      if Ascii.eqb c dquote then set_mode InQuotedField (push c t)
      else if Ascii.eqb c comma then set_mode StartField (end_field t)
      else if Ascii.eqb c lf then end_line (end_field t)
      else if Ascii.eqb c cr then set_mode EatCRNL (end_field t)
      else set_mode InField (push c t)
  | EatCRNL =>
      if Ascii.eqb c lf then end_line t
      else if Ascii.eqb c comma then set_mode StartField (end_field (end_line t))
      else step_start_record (end_line t) c
  | EatCRNLNop =>
      if Ascii.eqb c lf then set_mode StartRecord t
      else step_start_record (set_mode StartRecord t) c
  end.

Fixpoint run (t : tok) (s : string) : tok :=
  match s with
  | EmptyString => t
  | String c s' => run (step t c) s'
  end.

(** End of input. *)
Definition finish (t : tok) : result (list (list string)) :=
  match t_mode t with
  | StartRecord | WhitespaceLine | EatCRNLNop => ok (t_rows t)
  | InQuotedField => raise ParserError
  | StartField | InField | QuoteInQuotedField => ok (t_rows (end_line (end_field t)))
  | EatCRNL => ok (t_rows (end_line t))
  end.

Definition tokenize (s : string) : result (list (list string)) :=
  finish (run (Tok StartRecord EmptyString [] []) s).

Fixpoint skipn_string (n : nat) (s : string) : string :=
  match n, s with
  | S n', String _ s' => skipn_string n' s'
  | _, _ => s
  end.

Definition skip_bom (s : string) : string :=
  if String.prefix bom s then skipn_string 3 s else s.

(** The texts read as a missing value ([na_values] with [keep_default_na]). *)
Definition na_values : list string :=
  [EmptyString; "#N/A"; "#N/A N/A"; "#NA"; "-1.#IND"; "-1.#QNAN"; "-NaN"; "-nan";
   "1.#IND"; "1.#QNAN"; "<NA>"; "N/A"; "NA"; "NULL"; "NaN"; "None"; "n/a";
   "nan"; "null"]%string.

Definition is_na (s : string) : bool := existsb (String.eqb s) na_values.

(** White space for the number converters: space, TAB, LF, VT, FF, CR. *)
Definition is_space_ascii (c : ascii) : bool :=
  let n := nat_of_ascii c in ((n =? 32) || (9 <=? n) && (n <=? 13))%nat.

Fixpoint skip_spaces (s : string) : string :=
  match s with
  | String c s' => if is_space_ascii c then skip_spaces s' else s
  | EmptyString => EmptyString
  end.

Fixpoint all_spaces (s : string) : bool :=
  match s with
  | String c s' => is_space_ascii c && all_spaces s'
  | EmptyString => true
  end.

(** A run of decimal digits: its value, its length and what follows. *)
Fixpoint take_digits (acc : Z) (n : nat) (s : string) : Z * nat * string :=
  match s with
  | String c s' =>
      match Py.digit_val c with
      | Some d => take_digits (10 * acc + d) (S n) s'
      | None => (acc, n, s)
      end
  | EmptyString => (acc, n, EmptyString)
  end.

Definition take_sign (s : string) : bool * string :=
  match s with
  | String "-" s' => (true, s')
  | String "+" s' => (false, s')
  | _ => (false, s)
  end.

(** An integer literal: blanks, sign, digits, blanks. *)
Definition int_literal (s : string) : option Z :=
  let '(neg, s1) := take_sign (skip_spaces s) in
  let '(v, n, rest) := take_digits 0 0 s1 in
  if (n =? 0)%nat then None
  else if all_spaces rest then Some (if neg then - v else v) else None.

Definition lower (c : ascii) : ascii :=
  let n := nat_of_ascii c in
  if ((65 <=? n) && (n <=? 90))%nat then ascii_of_nat (n + 32) else c.

Fixpoint lower_string (s : string) : string :=
  match s with
  | EmptyString => EmptyString
  | String c s' => String (lower c) (lower_string s')
  end.

Definition is_infinity (s : string) : bool :=
  existsb (String.eqb (lower_string s))
    ["inf"; "-inf"; "+inf"; "infinity"; "-infinity"; "+infinity"]%string.

(** A decimal literal: blanks, sign, digits with an optional fraction (one
    digit at least), an optional exponent with one digit at least, blanks.
    The answer is the value as mantissa and power of ten. *)
Definition decimal_literal (s : string) : option (Z * Z) :=
  let '(neg, s1) := take_sign (skip_spaces s) in
  let '(ip, n1, s2) := take_digits 0 0 s1 in
  let '(m, n2, s3) :=
    match s2 with
    | String c r => if Ascii.eqb c "." then take_digits ip 0 r else (ip, O, s2)
    | EmptyString => (ip, O, s2)
    end in
  if (n1 + n2 =? 0)%nat then None
  else
    let '(e, s4) :=
      match s3 with
      | String c r =>
          if Ascii.eqb (lower c) "e" then
            let '(eneg, r1) := take_sign r in
            let '(ev, n3, r2) := take_digits 0 0 r1 in
            if (n3 =? 0)%nat then (0, s3) else (if eneg then - ev else ev, r2)
          else (0, s3)
      | EmptyString => (0, s3)
      end in
    if all_spaces s4 then Some (if neg then - m else m, e - Z.of_nat n2) else None.

Definition is_double (s : string) : bool :=
  is_infinity s || match decimal_literal s with Some _ => true | None => false end.

(** The float a literal stands for, where the model has one. *)
Definition double_value (s : string) : result Q :=
  match decimal_literal s with
  | Some (m, e) =>
      let q := Qred (if 0 <=? e then inject_Z (m * 10 ^ e) else m # Z.to_pos (10 ^ (- e))) in
      if (Pos.eqb (Qden q) 1) && (Z.abs (Qnum q) <? 2 ^ 53) then ok q else raise NotModelled
  | None => raise NotModelled
  end.

Definition is_bool (s : string) : bool :=
  existsb (String.eqb s) ["True"; "TRUE"; "true"; "False"; "FALSE"; "false"]%string.

Definition bool_value (s : string) : bool :=
  existsb (String.eqb s) ["True"; "TRUE"; "true"]%string.

(** Type inference, column by column, in the order of the C parser: int64
    (no missing value allowed), float64, bool (no missing value allowed),
    and text otherwise. *)
Inductive kind : Type := KInt | KFloat | KBool | KObject.

Definition is_int (s : string) : bool :=
  negb (is_na s) && match int_literal s with Some _ => true | None => false end.

Definition infer_kind (fields : list string) : kind :=
  if forallb is_int fields then KInt
  else if forallb (fun f => is_na f || is_double f) fields then KFloat
  else if forallb (fun f => negb (is_na f) && is_bool f) fields then KBool
  else KObject.

Definition convert (k : kind) (f : string) : result cell :=
  match k with
  | KInt =>
      match int_literal f with
      | Some z =>
          if (- 2 ^ 63 <=? z) && (z <? 2 ^ 63) then ok (CInt z) else raise NotModelled
      | None => raise NotModelled
      end
  | KFloat =>
      if is_na f then ok NaN
      else try! q := double_value f in ok (CFloat q)
  | KBool => ok (CBool (bool_value f))
  | KObject => ok (if is_na f then NaN else CStr f)
  end.

Fixpoint convert_row (ks : list kind) (fs : list string) : result (list cell) :=
  match ks, fs with
  | k :: ks', f :: fs' =>
      try! c := convert k f in
      try! cs := convert_row ks' fs' in
      ok (c :: cs)
  | _, _ => ok []
  end.

(** Header names: an empty name becomes [Unnamed: k]; repeated names, which
    pandas renames, are outside the model. *)
Fixpoint header_names (k : nat) (header : list string) : list string :=
  match header with
  | [] => []
  | EmptyString :: rest => ("Unnamed: " +:+ Py.str (Z.of_nat k)) :: header_names (S k) rest
  | name :: rest => name :: header_names (S k) rest
  end.

Fixpoint has_dup (l : list string) : bool :=
  match l with
  | [] => false
  | x :: l' => existsb (String.eqb x) l' || has_dup l'
  end.

(** A short record is completed with empty fields. *)
Definition pad (width : nat) (fs : list string) : list string :=
  fs ++ List.repeat EmptyString (width - length fs).

(** The first record after the header is longer than the header: pandas
    then takes the leading fields for row labels, which is outside the
    model. *)
Definition implicit_index (width : nat) (body : list (list string)) : bool :=
  match body with
  | fs :: _ => (width <? length fs)%nat
  | [] => false
  end.

(** [read_csv] on the bytes of the file.  A later record that is longer than
    the header is a [ParserError]. *)
Definition read_csv_bytes (content : string) : result DataFrame :=
  try! table := tokenize (skip_bom content) in
  match table with
  | [] => raise EmptyDataError
  | header :: body =>
      let names := header_names 0 header in
      let width := length header in
      if has_dup names then raise NotModelled
      else if implicit_index width body then raise NotModelled
      else if existsb (fun fs => (width <? length fs)%nat) body then raise ParserError
      else
        let body' := map (pad width) body in
        let kinds := map (fun k => infer_kind (map (fun fs => nth k fs EmptyString) body'))
                         (seq 0 width) in
        try! rs := map_result (convert_row kinds) body' in
        ok (frame_of_rows names rs)
  end.

(** *** Dates, bins and counts *)

(** The text [YYYY-MM-DD] of a valid date. *)
Definition parse_iso_date (s : string) : option date :=
  let '(y, n1, s1) := take_digits 0 0 s in
  match s1 with
  | String "-" s2 =>
      let '(m, n2, s3) := take_digits 0 0 s2 in
      match s3 with
      | String "-" s4 =>
          let '(d, n3, s5) := take_digits 0 0 s4 in
          let dt := Date y m d in
          if (n1 =? 4)%nat && (n2 =? 2)%nat && (n3 =? 2)%nat
             && String.eqb s5 EmptyString && DT.valid_date dt
          then Some dt else None
      | _ => None
      end
  | _ => None
  end.

(** [pd.to_datetime] on one value: ISO dates and date objects become
    timestamps at midnight, a missing value stays missing; other inputs
    (other formats, numbers) are outside the model. *)
Definition to_datetime (c : cell) : result cell :=
  match c with
  | NaN => ok NaN
  | CDate d => ok (CTimestamp (Datetime d (Time 0 0 0 0)))
  | CTimestamp x => ok (CTimestamp x)
  | CStr s =>
      match parse_iso_date s with
      | Some d => ok (CTimestamp (Datetime d (Time 0 0 0 0)))
      | None => raise NotModelled
      end
  | _ => raise NotModelled
  end.

Fixpoint set_nth {A} (k : nat) (a : A) (l : list A) : list A :=
  match l, k with
  | [], _ => []
  | _ :: l', O => a :: l'
  | x :: l', S k' => x :: set_nth k' a l'
  end.

(** [df[c] = values] for a list of one value per row. *)
Definition set_column (c : string) (values : list cell) (df : DataFrame) : DataFrame :=
  match position c (columns df) with
  | Some k =>
      Frame (columns df) (index df)
            (map (fun p => set_nth k (snd p) (fst p)) (zip (rows df) values))
  | None =>
      Frame (columns df ++ [c]) (index df)
            (map (fun p => fst p ++ [snd p]) (zip (rows df) values))
  end.

(** A bin edge: a number or [float('inf')]. *)
Inductive edge : Type := Fin (z : Z) | Inf.

Definition edge_le (e : edge) (x : Z) : bool :=
  match e with Fin z => z <=? x | Inf => false end.

Definition edge_gt (e : edge) (x : Z) : bool :=
  match e with Fin z => x <? z | Inf => true end.

(** [pd.cut(x, bins, labels, right=False)] on one value: the label of the
    interval [[lo, hi)] that holds [x], or nothing (NaN) when no interval
    does. *)
Fixpoint cut (bins : list edge) (labels : list string) (x : Z) : option string :=
  match bins, labels with
  | lo :: ((hi :: _) as rest), l :: ls =>
      if edge_le lo x && edge_gt hi x then Some l else cut rest ls x
  | _, _ => None
  end.

(** [Series.value_counts()] as the map from each value that occurs to its
    number of occurrences.  The order of the entries (by decreasing count)
    is not part of the model. *)
Definition count_one (x : string) (m : gmap string nat) : gmap string nat :=
  <[x := S (default O (m !! x))]> m.

Definition value_counts (xs : list string) : gmap string nat :=
  foldr count_one ∅ xs.

(** The values of a series that are not missing. *)
Fixpoint dropna {A} (xs : list (option A)) : list A :=
  match xs with
  | [] => []
  | Some x :: xs' => x :: dropna xs'
  | None :: xs' => dropna xs'
  end.

(** [value_counts] on a categorical series: every category has an entry,
    also with count zero; missing values are not counted. *)
Definition value_counts_categorical (categories : list string)
    (xs : list (option string)) : gmap string nat :=
  foldr count_one (list_to_map (map (fun c => (c, O)) categories)) (dropna xs).

End Pd.

(** ** The persisted file and what a handler answers *)

(** The file [headache_data.csv]: absent, or its bytes. *)
Definition store : Type := option string.

Definition read_csv (st : store) : result DataFrame :=
  match st with
  | None => raise FileNotFoundError
  | Some content => Pd.read_csv_bytes content
  end.

(** [pandas.errors.ParserError] and [EmptyDataError] are subclasses of
    [ValueError]. *)
Definition is_value_error (e : exn) : bool :=
  match e with
  | ValueError | ParserError | EmptyDataError => true
  | _ => false
  end.

Inductive notice : Type :=
| Success (msg : string)
| Failure (msg : string).

(** What a run of a handler leaves on the page: something rendered, a
    message, nothing at all, or an uncaught exception. *)
Inductive reply (A : Type) : Type :=
| Rendered (a : A)
| Noticed (n : notice)
| Idle
| Raised (e : exn).

Arguments Rendered {A} a.
Arguments Noticed {A} n.
Arguments Idle {A}.
Arguments Raised {A} e.

(** The chart types of the select box that are modelled, with their labels:
    [头痛严重程度随时间变化], [头痛持续时间分布] and [头痛部位分布].  The
    charts by month, by weekday and by severity are left out. *)
Inductive chart_type : Type :=
| SeverityOverTime
| DurationDistribution
| LocationDistribution.

Definition duration_bins : list Pd.edge := [Pd.Fin 0; Pd.Fin 30; Pd.Fin 60; Pd.Fin 120; Pd.Inf].
Definition duration_bin_labels : list string :=
  ["0-30分钟"; "30-60分钟"; "60-120分钟"; "120分钟以上"]%string.

(** The lambda of the duration chart applied to one cell: a cell that is not
    a text has no [split]. *)
Definition duration_minutes_cell (c : cell) : result Z :=
  match c with
  | CStr x => duration_minutes x
  | _ => raise AttributeError
  end.

(** [data['Date'] = pd.to_datetime(data['Date'])]. *)
Definition convert_dates (data : DataFrame) : result DataFrame :=
  try! col := Pd.column "Date" data in
  try! stamps := map_result Pd.to_datetime col in
  ok (Pd.set_column "Date" stamps data).

(** The line chart [alt.Chart(data).mark_line().encode(x='Date:T',
    y='Severity:Q')]: one point per row of [data], in the order of the rows;
    the script neither sorts nor aggregates. *)
Definition severity_chart (data : DataFrame) : list (cell * cell) :=
  map (fun row => (Pd.at_column (columns data) row "Date",
                   Pd.at_column (columns data) row "Severity"))
      (rows data).

(** The body of the duration chart: lines 150-155 of app.py. *)
Definition duration_counts (data : DataFrame) : result (gmap string nat) :=
  try! col := Pd.column "Duration" data in
  try! mins := map_result duration_minutes_cell col in
  ok (Pd.value_counts_categorical duration_bin_labels
        (map (Pd.cut duration_bins duration_bin_labels) mins)).

(** [loc.split(', ')] on one cell. *)
Definition split_location (c : cell) : result (list string) :=
  match c with
  | CStr loc => Py.split ", " loc
  | _ => raise AttributeError
  end.

(** Lines 182-184 of app.py: split, explode, count. *)
Definition location_counts (data : DataFrame) : result (gmap string nat) :=
  try! col := Pd.column "Location" data in
  try! lists := map_result split_location col in
  ok (Pd.value_counts (List.concat lists)).

Definition of_result {A B} (f : A -> B) (r : result A) : reply B :=
  match r with
  | inr a => Rendered (f a)
  | inl e => Raised e
  end.

(** ** app.py *)

Module App.

Definition schema : list string :=
  ["Date"; "Start Time"; "End Time"; "Duration"; "Severity"; "Remarks";
   "Location"; "Total Minutes"]%string.

Definition load_data (st : store) : result DataFrame :=
  match read_csv st with
  | inl FileNotFoundError => ok (Pd.empty_frame schema)
  | r => r
  end.

Definition save_data (data : DataFrame) : result store :=
  try! content := Pd.to_csv data in ok (Some content).

(** The values of the widgets of the create form.  [None] stands for a
    widget value that Python takes for false. *)
Record form : Type :=
  Form { f_date : option date; f_start : option time; f_end : option time;
         f_severity : Z; f_remarks : string; f_location : string }.

(** The one-row table [new_record] of lines 58-59. *)
Definition new_record (date : date) (start_datetime end_datetime : datetime)
    (duration : string) (total_minutes : Q) (f : form) : DataFrame :=
  Pd.frame_of_rows schema
    [[CDate date; CStr (DT.strftime_minutes start_datetime);
      CStr (DT.strftime_minutes end_datetime); CStr duration;
      CInt (f_severity f); CStr (f_remarks f); CStr (f_location f);
      CFloat total_minutes]].

Section Submit.

(** The duration calculator is a parameter here so that one can say which
    runs of the handler do not depend on it. *)
Variable calc : datetime -> datetime -> string * Q.

(** Lines 49-67: the submit handler of the create form. *)
Definition submit_with (st : store) (f : form) : store * reply unit :=
  match f_date f, f_start f, f_end f with
  | Some date, Some start_time, Some end_time =>
      let start_datetime := DT.combine date start_time in
      let end_datetime := DT.combine date end_time in
      if DT.gt start_datetime end_datetime
      then (st, Noticed (Failure "结束时间不能早于开始时间"))
      else
        let '(duration, total_minutes) := calc start_datetime end_datetime in
        let new_record :=
          new_record date start_datetime end_datetime duration total_minutes f in
        match (try! data := load_data st in save_data (Pd.concat data new_record)) with
        | inr st' => (st', Noticed (Success "记录已添加"))
        | inl e =>
            if is_value_error e
            then (st, Noticed (Failure "时间格式错误，请检查输入时间"))
            else (st, Raised e)
        end
  | _, _, _ => (st, Noticed (Failure "请确保所有字段都已正确填写"))
  end.

End Submit.

Definition submit : store -> form -> store * reply unit :=
  submit_with calculate_duration.

(** Lines 71-78: the delete button, pressed with [record_to_delete] chosen.
    The select box only offers the labels of the loaded table; the model
    takes any label so that the behaviour of [drop] on a label that is not
    there can be stated. *)
Definition delete_record (st : store) (record_to_delete : Z) : store * reply unit :=
  match load_data st with
  | inl e => (st, Raised e)
  | inr data =>
      if Pd.empty data then (st, Idle)
      else
        match (try! dropped := Pd.drop record_to_delete data in
               save_data (Pd.reset_index dropped)) with
        | inr st' => (st', Noticed (Success "记录已删除"))
        | inl e => (st, Raised e)
        end
  end.

(** Lines 101-104: the table editor followed by the update button. *)
Definition update_records (edited_data : DataFrame) (st : store) : store * reply unit :=
  match save_data edited_data with
  | inr st' => (st', Noticed (Success "记录已更新"))
  | inl e => (st, Raised e)
  end.

(** The answer of the chart section (lines 108-193). *)
Inductive chart : Type :=
| SeverityChart (points : list (cell * cell))
| CountChart (counts : gmap string nat).

Definition charts (selected : chart_type) (data : DataFrame) : reply chart :=
  if Pd.empty data then Idle
  else
    match convert_dates data with
    | inl e => Raised e
    | inr data =>
        match selected with
        | SeverityOverTime => Rendered (SeverityChart (severity_chart data))
        | DurationDistribution =>
            if existsb (String.eqb "Duration") (columns data)
            then of_result CountChart (duration_counts data)
            else Noticed (Failure "'Duration' 列缺失，请检查数据")
        | LocationDistribution =>
            if existsb (String.eqb "Location") (columns data)
            then of_result CountChart (location_counts data)
            else Noticed (Failure "'Location' 列缺失，请检查数据")
        end
    end.

End App.

(** ** The older copy of the script (part_000, "app copy.py") *)

Module AppCopy.

Definition schema : list string :=
  ["Date"; "Start Time"; "End Time"; "Duration"; "Severity"; "Remarks"; "Location"]%string.

Definition load_data (st : store) : result DataFrame :=
  match read_csv st with
  | inl FileNotFoundError => ok (Pd.empty_frame schema)
  | r => r
  end.

Definition save_data (data : DataFrame) : result store :=
  try! content := Pd.to_csv data in ok (Some content).

Record form : Type :=
  Form { f_date : date; f_start : time; f_end : time;
         f_severity : Z; f_remarks : string; f_location : list string }.

(** The one-row table [new_record] of lines 46-47. *)
Definition new_record (start_datetime end_datetime : datetime)
    (duration location_str : string) (f : form) : DataFrame :=
  Pd.frame_of_rows schema
    [[CDate (f_date f); CStr (DT.strftime_minutes start_datetime);
      CStr (DT.strftime_minutes end_datetime); CStr duration;
      CInt (f_severity f); CStr (f_remarks f); CStr location_str]].

(** [', '.join(location) if location else '未选择'] of line 45. *)
Definition location_str (location : list string) : string :=
  match location with
  | [] => "未选择"%string
  | _ => Py.join ", " location
  end.

(** Lines 40-53: the submit handler; the two times are not compared. *)
Definition submit (st : store) (f : form) : store * reply unit :=
  let start_datetime := DT.combine (f_date f) (f_start f) in
  let end_datetime := DT.combine (f_date f) (f_end f) in
  let '(duration, total_minutes) := calculate_duration start_datetime end_datetime in
  let new_record :=
    new_record start_datetime end_datetime duration (location_str (f_location f)) f in
  match (try! data := load_data st in save_data (Pd.concat data new_record)) with
  | inr st' => (st', Noticed (Success "记录已添加"))
  | inl e =>
      if is_value_error e
      then (st, Noticed (Failure "时间格式错误，请检查输入时间"))
      else (st, Raised e)
  end.

(** Lines 63-73: the first chart of the page, drawn whenever the table is
    not empty. *)
Definition severity_over_time (data : DataFrame) : reply (list (cell * cell)) :=
  if Pd.empty data then Idle
  else
    match convert_dates data with
    | inl e => Raised e
    | inr data => Rendered (severity_chart data)
    end.

End AppCopy.

(** ** The other reports and the download *)

(** Cells as keys of a count: equality is decidable and the cells can be
    enumerated. *)
#[global] Instance Q_eq_dec : EqDecision Q.
Proof. solve_decision. Defined.

#[global] Instance date_eq_dec : EqDecision date.
Proof. solve_decision. Defined.

#[global] Instance time_eq_dec : EqDecision time.
Proof. solve_decision. Defined.

#[global] Instance datetime_eq_dec : EqDecision datetime.
Proof. solve_decision. Defined.

#[global] Instance cell_eq_dec : EqDecision cell.
Proof. solve_decision. Defined.

Definition cell_code (c : cell)
  : unit + Z + Z * positive + bool + string + Z * Z * Z + Z * Z * Z * (Z * Z * Z * Z) :=
  match c with
  | NaN => inl (inl (inl (inl (inl (inl tt)))))
  | CInt z => inl (inl (inl (inl (inl (inr z)))))
  | CFloat q => inl (inl (inl (inl (inr (Qnum q, Qden q)))))
  | CBool b => inl (inl (inl (inr b)))
  | CStr s => inl (inl (inr s))
  | CDate d => inl (inr (year d, month d, day d))
  | CTimestamp x =>
      inr (year (dt_date x), month (dt_date x), day (dt_date x),
           (hour (dt_time x), minute (dt_time x), second (dt_time x),
            microsecond (dt_time x)))
  end.

Definition cell_of_code
    (k : unit + Z + Z * positive + bool + string + Z * Z * Z + Z * Z * Z * (Z * Z * Z * Z))
  : cell :=
  match k with
  | inl (inl (inl (inl (inl (inl _))))) => NaN
  | inl (inl (inl (inl (inl (inr z))))) => CInt z
  | inl (inl (inl (inl (inr (n, d))))) => CFloat (n # d)
  | inl (inl (inl (inr b))) => CBool b
  | inl (inl (inr s)) => CStr s
  | inl (inr (y, m, d)) => CDate (Date y m d)
  | inr (y, m, d, (h, mi, s, us)) => CTimestamp (Datetime (Date y m d) (Time h mi s us))
  end.

#[global] Program Instance cell_countable : Countable cell :=
  inj_countable' cell_code cell_of_code _.
Next Obligation.
  intros [| | [] | | | [] | [[] []]]; reflexivity.
Qed.

Module Series.

(** [ts.strftime('%Y-%m')]. *)
Definition strftime_month (x : datetime) : string :=
  DT.zfill 4 (Py.str (year (dt_date x))) +:+ "-" +:+ DT.zfill 2 (Py.str (month (dt_date x))).

(** [d.weekday()]: Monday is day 0. *)
Definition weekday (d : date) : Z := (DT.toordinal d + 6) mod 7.

Definition day_names : list string :=
  ["Monday"; "Tuesday"; "Wednesday"; "Thursday"; "Friday"; "Saturday"; "Sunday"]%string.

(** [ts.day_name()] with the default (English) locale. *)
Definition day_name (x : datetime) : string :=
  nth (Z.to_nat (weekday (dt_date x))) day_names EmptyString.

(** A text method of the [.dt] accessor on one cell of the column: a missing
    time stays missing; a column that holds anything else has no [.dt]. *)
Definition dt (f : datetime -> string) (c : cell) : result cell :=
  match c with
  | CTimestamp x => ok (CStr (f x))
  | NaN => ok NaN
  | _ => raise AttributeError
  end.

(** [Series.value_counts()] on a column of cells, as the map from each value
    that occurs to its number of occurrences; missing values are not
    counted.  The cells of one column have one type, so that equal values
    are equal cells. *)
Definition is_missing (c : cell) : bool :=
  match c with NaN => true | _ => false end.

Definition count_cell (c : cell) (m : gmap cell nat) : gmap cell nat :=
  <[c := S (default O (m !! c))]> m.

Definition value_counts (xs : list cell) : gmap cell nat :=
  foldr count_cell ∅ (List.filter (fun c => negb (is_missing c)) xs).

(** A label of [pd.cut] or a missing value as a cell. *)
Definition category (o : option string) : cell :=
  match o with
  | Some s => CStr s
  | None => NaN
  end.

(** [df.to_csv(index=False)] without a path: the text of the table. *)
Definition to_csv_str (df : DataFrame) : result string :=
  try! body := map_result (map_result Pd.render) (rows df) in
  ok (Pd.write_row (columns df) +:+ String.concat EmptyString (map Pd.write_row body)).

(** [str(v)] for a value taken out of the table, as an f-string prints it.
    The text of a timestamp is not modelled. *)
Definition text (c : cell) : result string :=
  match c with
  | NaN => ok "nan"%string
  | CInt z => ok (Py.str z)
  | CFloat q => Pd.float_repr q
  | CBool true => ok "True"%string
  | CBool false => ok "False"%string
  | CStr s => ok s
  | CDate d => ok (DT.isoformat d)
  | CTimestamp _ => raise NotModelled
  end.

(** [data.loc[x, c]]: the cell of the row labelled [x] in the column [c];
    [KeyError] when there is no such column or no such label.  A label that
    occurs more than once, for which pandas answers with a series, is not
    modelled. *)
Definition loc (data : DataFrame) (x : Z) (c : string) : result cell :=
  match Pd.position c (columns data) with
  | None => raise KeyError
  | Some k =>
      match List.filter (fun p => Z.eqb x (fst p)) (zip (index data) (rows data)) with
      | [] => raise KeyError
      | [p] => ok (nth k (snd p) NaN)
      | _ => raise NotModelled
      end
  end.

(** [s.encode('utf-8-sig')] on a text kept as its UTF-8 bytes. *)
Definition encode_utf8_sig (s : string) : string := Pd.bom +:+ s.

End Series.

(** The charts of app.py that [App.charts] leaves out, and the download. *)
Module Page.

(** Lines 123-124 of app.py (76-77 of the older copy): the table with its
    new column [Month], and the counts of the months. *)
Definition month_chart (data : DataFrame) : result (DataFrame * gmap cell nat) :=
  try! dates := Pd.column "Date" data in
  try! months := map_result (Series.dt Series.strftime_month) dates in
  let data := Pd.set_column "Month" months data in
  try! month := Pd.column "Month" data in
  ok (data, Series.value_counts month).

(** Lines 136-137 of app.py (88-89 of the older copy). *)
Definition weekday_chart (data : DataFrame) : result (DataFrame * gmap cell nat) :=
  try! dates := Pd.column "Date" data in
  try! days := map_result (Series.dt Series.day_name) dates in
  let data := Pd.set_column "Weekday" days data in
  try! weekday := Pd.column "Weekday" data in
  ok (data, Series.value_counts weekday).

(** Line 168 of app.py (117 of the older copy). *)
Definition severity_pie (data : DataFrame) : result (gmap cell nat) :=
  try! severity := Pd.column "Severity" data in
  ok (Series.value_counts severity).

(** The chart types of the select box that [App.charts] leaves out:
    [按月份统计头痛次数], [按星期几统计头痛次数] and [按严重程度分布]. *)
Inductive count_chart : Type :=
| ByMonth
| ByWeekday
| BySeverity.

(** Lines 108-109 followed by the branch at line 121, 134 or 166. *)
Definition charts (selected : count_chart) (data : DataFrame) : reply (gmap cell nat) :=
  if Pd.empty data then Idle
  else
    match convert_dates data with
    | inl e => Raised e
    | inr data =>
        match selected with
        | ByMonth => of_result snd (month_chart data)
        | ByWeekday => of_result snd (weekday_chart data)
        | BySeverity => of_result id (severity_pie data)
        end
    end.

(** Line 73: the [format_func] of the select box of the delete section,
    [f"日期: {data.loc[x, 'Date']} 开始时间: {data.loc[x, 'Start Time']} 结束时间: {data.loc[x, 'End Time']}"]. *)
Definition record_label (data : DataFrame) (x : Z) : result string :=
  try! date := Series.loc data x "Date" in
  try! date := Series.text date in
  try! start_time := Series.loc data x "Start Time" in
  try! start_time := Series.text start_time in
  try! end_time := Series.loc data x "End Time" in
  try! end_time := Series.text end_time in
  ok ("日期: " +:+ date +:+ " 开始时间: " +:+ start_time +:+ " 结束时间: " +:+ end_time).

(** Lines 72-73: the select box of the delete section shows one label per
    row label of the table, all of them computed when the box is drawn. *)
Definition delete_options (data : DataFrame) : reply (list string) :=
  if Pd.empty data then Idle
  else of_result id (map_result (record_label data) (index data)).

(** Lines 89-96: the bytes behind the download button, which is offered
    when the table is not empty. *)
Definition download (data : DataFrame) : reply string :=
  if Pd.empty data then Idle
  else of_result Series.encode_utf8_sig (Series.to_csv_str data).

End Page.

(** The older copy from line 56 on: the table is loaded, the five charts are
    drawn one after the other on the one table [data], to which they add
    their helper columns, and the download is made from what is left. *)
Module PageCopy.

(** Lines 100-107: the duration chart with its two helper columns. *)
Definition duration_chart (data : DataFrame) : result (DataFrame * gmap string nat) :=
  try! durations := Pd.column "Duration" data in
  try! mins := map_result duration_minutes_cell durations in
  let data := Pd.set_column "Duration Minutes" (map CInt mins) data in
  let bins := map (Pd.cut duration_bins duration_bin_labels) mins in
  let data := Pd.set_column "Duration Bin" (map Series.category bins) data in
  ok (data, Pd.value_counts_categorical duration_bin_labels bins).

Record page : Type :=
  Page { severity_line : list (cell * cell);
         by_month : gmap cell nat;
         by_weekday : gmap cell nat;
         by_duration : gmap string nat;
         by_severity : gmap cell nat;
         downloaded : DataFrame;
         download : string }.

(** Lines 64-136 on a table that is not empty. *)
Definition draw (data : DataFrame) : result page :=
  try! data := convert_dates data in
  let chart1 := severity_chart data in
  try! chart2 := Page.month_chart data in
  try! chart3 := Page.weekday_chart (fst chart2) in
  try! chart4 := duration_chart (fst chart3) in
  let data := fst chart4 in
  try! chart5 := Page.severity_pie data in
  try! csv := Series.to_csv_str data in
  ok (Page chart1 (snd chart2) (snd chart3) (snd chart4) chart5 data
           (Series.encode_utf8_sig csv)).

(** Lines 57-63: nothing is drawn for an empty table. *)
Definition render (st : store) : reply page :=
  match AppCopy.load_data st with
  | inl e => Raised e
  | inr data => if Pd.empty data then Idle else of_result id (draw data)
  end.

End PageCopy.

(** ** Vocabulary of the statements *)

Fixpoint all_chars (P : ascii -> bool) (s : string) : bool :=
  match s with
  | EmptyString => true
  | String c s' => P c && all_chars P s'
  end.

Definition is_digit (c : ascii) : bool :=
  match Py.digit_val c with Some _ => true | None => false end.

Definition not_space (c : ascii) : bool := negb (Py.is_space c).

(** The characters of [str z]: a minus sign for a negative number, then
    digits. *)
Definition is_numeral_char (c : ascii) : bool := is_digit c || Ascii.eqb c "-".

Definition differs (a : ascii) (c : ascii) : bool := negb (Ascii.eqb c a).

(** The value of a decimal numeral read from the left with an accumulator. *)
Fixpoint uint_value (d : Decimal.uint) (acc : Z) : Z :=
  match d with
  | Decimal.Nil => acc
  | Decimal.D0 d => uint_value d (10 * acc)
  | Decimal.D1 d => uint_value d (10 * acc + 1)
  | Decimal.D2 d => uint_value d (10 * acc + 2)
  | Decimal.D3 d => uint_value d (10 * acc + 3)
  | Decimal.D4 d => uint_value d (10 * acc + 4)
  | Decimal.D5 d => uint_value d (10 * acc + 5)
  | Decimal.D6 d => uint_value d (10 * acc + 6)
  | Decimal.D7 d => uint_value d (10 * acc + 7)
  | Decimal.D8 d => uint_value d (10 * acc + 8)
  | Decimal.D9 d => uint_value d (10 * acc + 9)
  end.

(** The time from [y] to [x] in minutes, as an exact number. *)
Definition minutes_between (x y : datetime) : Q :=
  (DT.timestamp x - DT.timestamp y) # 60000000.

Definition leap_day (y : Z) : Z := if DT.is_leap y then 1 else 0.

(** Calendar order on dates. *)
Definition date_before (a b : date) : Prop :=
  year a < year b
  \/ year a = year b /\ (month a < month b \/ month a = month b /\ day a < day b).

(** A cell that [to_csv] can write in the model. *)
Definition renderable (c : cell) : Prop := exists s, Pd.render c = ok s.

(** A table all of whose cells can be written. *)
Definition storable (df : DataFrame) : Prop :=
  Forall (Forall renderable) (rows df).

(** A table as pandas keeps it: default row labels and rows as wide as the
    header. *)
Definition well_formed (df : DataFrame) : Prop :=
  index df = Pd.range (length (rows df))
  /\ Forall (fun row => length row = length (columns df)) (rows df).

(** The rows of a table without the one at position [i]. *)
Definition without {A} (i : nat) (l : list A) : list A := firstn i l ++ skipn (S i) l.

(** The row labels [k, k+1, ..., k+n-1]. *)
Definition labels (k n : nat) : list Z := map Z.of_nat (seq k n).

(** Two records entered through the create form of app.py, the second one
    dated before the first, and the file they leave behind. *)
Definition first_entry : App.form :=
  App.Form (Some (Date 2024 1 12)) (Some (Time 9 0 0 0)) (Some (Time 10 30 0 0))
           3 "after lunch" "左侧".

Definition second_entry : App.form :=
  App.Form (Some (Date 2024 1 5)) (Some (Time 22 0 0 0)) (Some (Time 22 20 0 0))
           4 "好,的" "右侧".

Definition sample_store : store :=
  Eval vm_compute in fst (App.submit (fst (App.submit None first_entry)) second_entry).

Definition sample_data : DataFrame :=
  Pd.frame_of_rows App.schema
    [[CStr "2024-01-12"; CStr "2024-01-12 09:00"; CStr "2024-01-12 10:30";
      CStr "1小时30分钟"; CInt 3; CStr "after lunch"; CStr "左侧"; CFloat (90 # 1)];
     [CStr "2024-01-05"; CStr "2024-01-05 22:00"; CStr "2024-01-05 22:20";
      CStr "0小时20分钟"; CInt 4; CStr "好,的"; CStr "右侧"; CFloat (20 # 1)]].

(** A submission of app.py that ends before it starts, and one of the older
    copy. *)
Definition late_start_entry : App.form :=
  App.Form (Some (Date 2024 1 2)) (Some (Time 9 0 0 0)) (Some (Time 8 30 0 0))
           3 "x" "左侧".

Definition backwards_entry : AppCopy.form :=
  AppCopy.Form (Date 2024 1 1) (Time 10 0 0 0) (Time 8 30 0 0) 3 "r" ["左侧"; "右侧"]%string.

(** How often [c] occurs in a list of texts. *)
Definition occurrences (c : string) (xs : list string) : nat :=
  length (List.filter (String.eqb c) xs).

(** The count that a chart shows for [c]. *)
Definition count_of (counts : gmap string nat) (c : string) : nat :=
  default O (counts !! c).

(** The half-open interval that each label of the duration chart names. *)
Definition in_bin (label : string) (m : Z) : bool :=
  if String.eqb label "0-30分钟" then (0 <=? m) && (m <? 30)
  else if String.eqb label "30-60分钟" then (30 <=? m) && (m <? 60)
  else if String.eqb label "60-120分钟" then (60 <=? m) && (m <? 120)
  else if String.eqb label "120分钟以上" then 120 <=? m
  else false.

Definition sum_nat (l : list nat) : nat := foldr Nat.add O l.

(** Two records of the older copy, one of them with two locations. *)
Definition two_sided_data : DataFrame :=
  Pd.frame_of_rows AppCopy.schema
    [[CStr "2024-01-01"; CStr "2024-01-01 08:00"; CStr "2024-01-01 09:30";
      CStr "1小时30分钟"; CInt 3; CStr "r"; CStr "左侧, 右侧"];
     [CStr "2024-01-02"; CStr "2024-01-02 08:00"; CStr "2024-01-02 08:10";
      CStr "0小时10分钟"; CInt 2; NaN; CStr "左侧"]].

(** The position on the time line of a timestamp cell. *)
Definition stamp (c : cell) : option Z :=
  match c with
  | CTimestamp x => Some (DT.timestamp x)
  | _ => None
  end.

Fixpoint ascending (l : list Z) : bool :=
  match l with
  | a :: ((b :: _) as rest) => (a <=? b) && ascending rest
  | _ => true
  end.

(** The points of a chart follow each other in the order of their dates. *)
Definition in_date_order (points : list (cell * cell)) : bool :=
  ascending (Pd.dropna (map (fun p => stamp (fst p)) points)).

(** The points that the severity chart gets for [sample_data]. *)
Definition sample_points : list (cell * cell) :=
  [(CTimestamp (Datetime (Date 2024 1 12) (Time 0 0 0 0)), CInt 3);
   (CTimestamp (Datetime (Date 2024 1 5) (Time 0 0 0 0)), CInt 4)].

(** A byte that stands for itself in an unquoted field. *)
Definition plain (c : ascii) : bool := negb (Pd.special c) && negb (Ascii.eqb c Pd.cr).

Definition blank (c : ascii) : bool := Ascii.eqb c Pd.space || Ascii.eqb c Pd.tab.

(** A text without a carriage return. *)
Definition no_cr (s : string) : bool := all_chars (fun c => negb (Ascii.eqb c Pd.cr)) s.

(** A record that the writer and the reader treat alike: two fields at
    least, no carriage return. *)
Definition clean_record (fields : list string) : Prop :=
  (2 <= length fields)%nat /\ Forall (fun f => no_cr f = true) fields.

(** The state after a whole field and the delimiter that follows it. *)
Definition after_field (d : ascii) (f : string) (row : list string)
    (rows : list (list string)) : Pd.tok :=
  if Ascii.eqb d Pd.comma then Pd.Tok Pd.StartField EmptyString (row ++ [f]) rows
  else Pd.Tok Pd.StartRecord EmptyString [] (rows ++ [row ++ [f]]).

(** The text that [to_csv] writes for a cell that it can write. *)
Definition field_text (c : cell) : string :=
  match Pd.render c with
  | inr s => s
  | inl _ => EmptyString
  end.

Definition int64 (z : Z) : bool := (- 2 ^ 63 <=? z) && (z <? 2 ^ 63).

(** The columns that come back from the file as they went in: integers;
    whole floats and missing values; booleans; texts and missing values,
    where no text is read as missing or holds a carriage return and one text
    at least is neither a number nor a boolean for the reader. *)
Definition int_cell (c : cell) : Prop := exists z, c = CInt z /\ int64 z = true.

Definition float_cell (c : cell) : Prop :=
  c = NaN \/ exists n, c = CFloat (n # 1) /\ Z.abs n < 2 ^ 53.

Definition bool_cell (c : cell) : Prop := exists b, c = CBool b.

Definition text_cell (c : cell) : Prop :=
  c = NaN \/ exists s, c = CStr s /\ Pd.is_na s = false /\ no_cr s = true.

Definition plain_text_cell (c : cell) : Prop :=
  exists s, c = CStr s /\ Pd.is_double s = false /\ Pd.is_bool s = false.

Inductive stable_column (cs : list cell) : Prop :=
| IntColumn : Forall int_cell cs -> stable_column cs
| FloatColumn : Forall float_cell cs -> stable_column cs
| BoolColumn : Forall bool_cell cs -> stable_column cs
| TextColumn : Forall text_cell cs -> Exists plain_text_cell cs -> stable_column cs.

Definition starts_non_digit (s : string) : bool :=
  match s with
  | EmptyString => true
  | String c _ => negb (is_digit c)
  end.

Definition is_float_char (c : ascii) : bool := is_numeral_char c || Ascii.eqb c ".".

(** The cells of the column at position [k]. *)
Definition column_cells (k : nat) (df : DataFrame) : list cell :=
  map (fun row => nth k row NaN) (rows df).

(** A record set in the form in which the reader hands it out: default row
    labels, rows as wide as the header, two columns at least with distinct
    non-empty names, and stable columns. *)
Definition stable (df : DataFrame) : Prop :=
  well_formed df
  /\ clean_record (columns df)
  /\ Forall (fun name => name <> EmptyString) (columns df)
  /\ Pd.has_dup (columns df) = false
  /\ forall k, (k < length (columns df))%nat -> stable_column (column_cells k df).

(** One record with an empty remark, as a table, and what the reader makes
    of the file written for it. *)
Definition empty_remark_data : DataFrame :=
  Pd.frame_of_rows App.schema
    [[CStr "2024-01-12"; CStr "2024-01-12 09:00"; CStr "2024-01-12 10:30";
      CStr "1小时30分钟"; CInt 3; CStr EmptyString; CStr "左侧"; CFloat (90 # 1)]].

Definition empty_remark_reloaded : DataFrame :=
  Pd.frame_of_rows App.schema
    [[CStr "2024-01-12"; CStr "2024-01-12 09:00"; CStr "2024-01-12 10:30";
      CStr "1小时30分钟"; CInt 3; NaN; CStr "左侧"; CFloat (90 # 1)]].

(** An episode that runs over midnight, entered in the older copy with both
    times on the day it began. *)
Definition overnight_entry : AppCopy.form :=
  AppCopy.Form (Date 2024 3 10) (Time 23 0 0 0) (Time 1 30 0 0) 4 EmptyString ["双侧"]%string.

Definition overnight_data : DataFrame :=
  Pd.frame_of_rows AppCopy.schema
    [[CStr "2024-03-10"; CStr "2024-03-10 23:00"; CStr "2024-03-10 01:30";
      CStr "-22小时30分钟"; CInt 4; NaN; CStr "双侧"]].

(** *** Vocabulary of the further properties *)

(** The row that the create form of app.py builds. *)
Definition entered_row (d : date) (s e : time) (f : App.form) : list cell :=
  let start_datetime := DT.combine d s in
  let end_datetime := DT.combine d e in
  [CDate d; CStr (DT.strftime_minutes start_datetime);
   CStr (DT.strftime_minutes end_datetime);
   CStr (fst (calculate_duration start_datetime end_datetime));
   CInt (App.f_severity f); CStr (App.f_remarks f); CStr (App.f_location f);
   CFloat (snd (calculate_duration start_datetime end_datetime))].

(** The row that the create form of the older copy builds. *)
Definition entered_row_copy (f : AppCopy.form) : list cell :=
  let start_datetime := DT.combine (AppCopy.f_date f) (AppCopy.f_start f) in
  let end_datetime := DT.combine (AppCopy.f_date f) (AppCopy.f_end f) in
  [CDate (AppCopy.f_date f); CStr (DT.strftime_minutes start_datetime);
   CStr (DT.strftime_minutes end_datetime);
   CStr (fst (calculate_duration start_datetime end_datetime));
   CInt (AppCopy.f_severity f); CStr (AppCopy.f_remarks f);
   CStr (AppCopy.location_str (AppCopy.f_location f))].

(** The label of [h] hours and [m] minutes. *)
Definition duration_label (h m : Z) : string :=
  Py.str h +:+ "小时" +:+ Py.str m +:+ "分钟".

(** A time of day in whole minutes, as the time widget delivers it. *)
Definition whole_minutes (t : time) : Prop := second t = 0 /\ microsecond t = 0.

(** A file of line feeds only. *)
Definition blank_lines (content : string) : bool :=
  all_chars (fun c => Ascii.eqb c Pd.lf) content.

(** A file written by the older copy: one record entered through its form. *)
Definition older_entry : AppCopy.form :=
  AppCopy.Form (Date 2023 12 30) (Time 7 15 0 0) (Time 8 0 0 0) 2 "tired"
               ["左侧"; "右侧"]%string.

Definition older_store : store :=
  Eval vm_compute in fst (AppCopy.submit None older_entry).

Definition older_data : DataFrame :=
  Pd.frame_of_rows AppCopy.schema
    [[CStr "2023-12-30"; CStr "2023-12-30 07:15"; CStr "2023-12-30 08:00";
      CStr "0小时45分钟"; CInt 2; CStr "tired"; CStr "左侧, 右侧"]].

(** What the location chart reads in the text that the older copy stores
    for a selection. *)
Definition stored_selection (location : list string) : list string :=
  match location with
  | [] => ["未选择"]%string
  | _ => location
  end.

(** The choices of the location widgets. *)
Definition location_options : list string := ["左侧"; "右侧"; "双侧"]%string.

(** A number below [10^width] printed with leading zeros is [width] digits
    that read as the number. *)
Definition padded (width : nat) (n : nat) : bool :=
  let s := DT.zfill width (Py.str (Z.of_nat n)) in
  all_chars is_digit s
  && (String.length s =? width)%nat
  && match Pd.take_digits 0 0 s with
     | (v, k, rest) => (v =? Z.of_nat n) && (k =? width)%nat && String.eqb rest EmptyString
     end.

(** The label of a month in the chart by month. *)
Definition month_label (y m : Z) : string :=
  DT.zfill 4 (Py.str y) +:+ "-" +:+ DT.zfill 2 (Py.str m).

Definition midnight : time := Time 0 0 0 0.

(** The count that a chart shows for a value. *)
Definition count_at (counts : gmap cell nat) (c : cell) : nat :=
  default O (counts !! c).

(** How many elements of a list pass a test. *)
Definition tally {A} (p : A -> bool) (l : list A) : nat := length (List.filter p l).

(** The day of a record as the chart section sees it: the [Date] cell after
    [pd.to_datetime], if it holds a time at all. *)
Definition dated (cols : list string) (row : list cell) : option datetime :=
  match Pd.to_datetime (Pd.at_column cols row "Date") with
  | inr (CTimestamp x) => Some x
  | _ => None
  end.

Definition in_month (y m : Z) (o : option datetime) : bool :=
  match o with
  | Some x => (year (dt_date x) =? y) && (month (dt_date x) =? m)
  | None => false
  end.

Definition on_weekday (k : Z) (o : option datetime) : bool :=
  match o with
  | Some x => Series.weekday (dt_date x) =? k
  | None => false
  end.

(** A cell as the reader makes it: no date object and no timestamp. *)
Definition from_file (c : cell) : bool :=
  match c with
  | CDate _ | CTimestamp _ => false
  | _ => true
  end.

(** The text of a [.dt] method for a record, or a missing value. *)
Definition dt_text (f : datetime -> string) (o : option datetime) : cell :=
  match o with
  | Some x => CStr (f x)
  | None => NaN
  end.
(** The rows of a table all have the width of its header. *)
Definition squared (df : DataFrame) : Prop :=
  Forall (fun row => length row = length (columns df)) (rows df).

(** The name of the day with number [k], Monday being day 0. *)
Definition weekday_name (k : Z) : string :=
  nth (Z.to_nat k) Series.day_names EmptyString.

(** The columns that the charts of the older copy add to the table. *)
Definition helper_columns : list string :=
  ["Month"; "Weekday"; "Duration Minutes"; "Duration Bin"]%string.

(** A column name that no chart writes to. *)
Definition untouched (c : string) : Prop :=
  c <> "Date"%string /\ ~ In c helper_columns.

(** The row [row'] of a table with the columns [cols'] has, in every column
    that no chart writes to, the cell that [row] has under [cols]. *)
Definition keeps (cols cols' : list string) (row row' : list cell) : Prop :=
  forall c, untouched c -> Pd.at_column cols' row' c = Pd.at_column cols row c.

(** A cell that is no text: it has no [split]. *)
Definition no_text (c : cell) : bool :=
  match c with
  | CStr _ => false
  | _ => true
  end.

(** A table with a [Date] column only, one record. *)
Definition dates_only : DataFrame :=
  Pd.frame_of_rows ["Date"; "Severity"]%string [[CStr "2024-01-12"; CInt 3]].

(** A table without a [Date] column. *)
Definition undated : DataFrame :=
  Pd.frame_of_rows ["Day"; "Severity"]%string [[CStr "2024-01-12"; CInt 3]].

(** A header that the writer and the reader treat alike: two names at least,
    none empty, none twice, none with a carriage return. *)
Definition clean_header (cols : list string) : Prop :=
  clean_record cols
  /\ Forall (fun name => name <> EmptyString) cols
  /\ Pd.has_dup cols = false.

(** A record whose duration was cleared, after one that is in order. *)
Definition cleared_duration : DataFrame :=
  Pd.frame_of_rows App.schema
    [[CStr "2024-01-12"; CStr "2024-01-12 09:00"; CStr "2024-01-12 10:30";
      CStr "1小时30分钟"; CInt 3; CStr "after lunch"; CStr "左侧"; CFloat (90 # 1)];
     [CStr "2024-01-13"; CStr "2024-01-13 09:00"; CStr "2024-01-13 10:30";
      NaN; CInt 3; NaN; CStr "左侧"; CFloat (90 # 1)]].

(** One record of app.py in the file. *)
Definition single_store : store :=
  Eval vm_compute in fst (App.submit None first_entry).

Definition single_data : DataFrame :=
  Pd.frame_of_rows App.schema
    [[CStr "2024-01-12"; CStr "2024-01-12 09:00"; CStr "2024-01-12 10:30";
      CStr "1小时30分钟"; CInt 3; CStr "after lunch"; CStr "左侧"; CFloat (90 # 1)]].

(** A text that the file gives back as it is: no marker of a missing value,
    no number, no boolean, no carriage return. *)
Definition plain_text (s : string) : bool :=
  negb (Pd.is_na s) && no_cr s && negb (Pd.is_double s) && negb (Pd.is_bool s).

(** A remark as it comes back from the file: an empty remark is read as a
    missing value. *)
Definition remark_cell (r : string) : cell :=
  match r with
  | EmptyString => NaN
  | _ => CStr r
  end.

(** The row of a form entry as the reader hands it out. *)
Definition reloaded_row (d : date) (s e : time) (f : App.form) : list cell :=
  let start_datetime := DT.combine d s in
  let end_datetime := DT.combine d e in
  [CStr (DT.isoformat d); CStr (DT.strftime_minutes start_datetime);
   CStr (DT.strftime_minutes end_datetime);
   CStr (fst (calculate_duration start_datetime end_datetime));
   CInt (App.f_severity f); remark_cell (App.f_remarks f); CStr (App.f_location f);
   CFloat (snd (calculate_duration start_datetime end_datetime))].

(** The characters of a time stamp [YYYY-MM-DD HH:MM]. *)
Definition is_stamp_char (c : ascii) : bool :=
  is_digit c || Ascii.eqb c "-" || Ascii.eqb c " " || Ascii.eqb c ":".

(** An entry that the create form of app.py can deliver and that the file
    keeps as it is: a valid date, valid times in whole minutes with the end
    not before the start, a severity in the range of 64-bit integers, a
    remark that is empty or a plain text, and one of the three locations. *)
Definition acceptable (f : App.form) : Prop :=
  match App.f_date f, App.f_start f, App.f_end f with
  | Some d, Some s, Some e =>
      DT.valid_date d = true /\ DT.valid_time s = true /\ DT.valid_time e = true
      /\ whole_minutes s /\ whole_minutes e
      /\ DT.gt (DT.combine d s) (DT.combine d e) = false
      /\ int64 (App.f_severity f) = true
      /\ (App.f_remarks f = EmptyString \/ plain_text (App.f_remarks f) = true)
      /\ In (App.f_location f) location_options
  | _, _, _ => False
  end.

(** The record of an entry as the reader hands it out. *)
Definition reloaded (f : App.form) : list cell :=
  match App.f_date f, App.f_start f, App.f_end f with
  | Some d, Some s, Some e => reloaded_row d s e f
  | _, _, _ => []
  end.

(** The table of a list of entries, in the order of the list. *)
Definition diary (entries : list App.form) : DataFrame :=
  Pd.frame_of_rows App.schema (map reloaded entries).

(** The file after the entries were submitted one after the other. *)
Definition submit_all (st : store) (entries : list App.form) : store :=
  fold_left (fun st f => fst (App.submit st f)) entries st.

(** The label of an entry in the select box of the delete section. *)
Definition entry_label (f : App.form) : string :=
  match App.f_date f, App.f_start f, App.f_end f with
  | Some d, Some s, Some e =>
      "日期: " +:+ DT.isoformat d
      +:+ " 开始时间: " +:+ DT.strftime_minutes (DT.combine d s)
      +:+ " 结束时间: " +:+ DT.strftime_minutes (DT.combine d e)
  | _, _, _ => EmptyString
  end.

(** An entry that the create form of the older copy can deliver and that
    the file keeps as it is: a valid date, valid times in whole minutes and
    in any order, a severity in the range of 64-bit integers, a remark that
    is empty or a plain text, and a selection among the three locations. *)
Definition acceptable_copy (f : AppCopy.form) : Prop :=
  DT.valid_date (AppCopy.f_date f) = true
  /\ DT.valid_time (AppCopy.f_start f) = true /\ DT.valid_time (AppCopy.f_end f) = true
  /\ int64 (AppCopy.f_severity f) = true
  /\ (AppCopy.f_remarks f = EmptyString \/ plain_text (AppCopy.f_remarks f) = true)
  /\ Forall (fun l => In l location_options) (AppCopy.f_location f)
  /\ whole_minutes (AppCopy.f_start f) /\ whole_minutes (AppCopy.f_end f).

(** The record of an entry of the older copy as the reader hands it out. *)
Definition reloaded_copy (f : AppCopy.form) : list cell :=
  let start_datetime := DT.combine (AppCopy.f_date f) (AppCopy.f_start f) in
  let end_datetime := DT.combine (AppCopy.f_date f) (AppCopy.f_end f) in
  [CStr (DT.isoformat (AppCopy.f_date f)); CStr (DT.strftime_minutes start_datetime);
   CStr (DT.strftime_minutes end_datetime);
   CStr (fst (calculate_duration start_datetime end_datetime));
   CInt (AppCopy.f_severity f); remark_cell (AppCopy.f_remarks f);
   CStr (AppCopy.location_str (AppCopy.f_location f))].

Definition diary_copy (entries : list AppCopy.form) : DataFrame :=
  Pd.frame_of_rows AppCopy.schema (map reloaded_copy entries).

Definition submit_all_copy (st : store) (entries : list AppCopy.form) : store :=
  fold_left (fun st f => fst (AppCopy.submit st f)) entries st.

(** The first byte of a text is the first byte of one of the words
    [左侧], [右侧], [双侧] and [未选择]. *)
Definition starts_high (s : string) : bool :=
  match s with
  | String c _ => Ascii.eqb c (ascii_of_nat 229) || Ascii.eqb c (ascii_of_nat 230)
  | EmptyString => false
  end.

(** An entry whose start is not after its end: what the guard of app.py
    lets through. *)
Definition in_order (f : AppCopy.form) : bool :=
  negb (DT.gt (DT.combine (AppCopy.f_date f) (AppCopy.f_start f))
              (DT.combine (AppCopy.f_date f) (AppCopy.f_end f))).

(** A cell that the writer can print, as a test. *)
Definition printable (c : cell) : bool :=
  match Pd.render c with
  | inr _ => true
  | inl _ => false
  end.

(** The four bars of a duration chart together. *)
Definition bars (counts : gmap string nat) : nat :=
  (count_of counts "0-30分钟" + count_of counts "30-60分钟"
   + count_of counts "60-120分钟" + count_of counts "120分钟以上")%nat.

(** * Checks of the model on concrete inputs *)

Example split_label :
  Py.split "小时" "1小时30分钟" = ok ["1"; "30分钟"]%string.
Proof. reflexivity. Qed.

Example split_comma :
  Py.split ", " "左侧, 右侧" = ok ["左侧"; "右侧"]%string.
Proof. reflexivity. Qed.

Example int_examples :
  Py.int "30" = ok 30 /\ Py.int "-2" = ok (-2) /\ Py.int " 1_000 " = ok 1000 /\
  Py.int EmptyString = raise ValueError /\ Py.int "3a" = raise ValueError /\
  Py.int "1__0" = raise ValueError /\ Py.int "-" = raise ValueError.
Proof. repeat split; reflexivity. Qed.

Example str_examples : Py.str 90 = "90"%string /\ Py.str 0 = "0"%string /\ Py.str (-2) = "-2"%string.
Proof. repeat split; reflexivity. Qed.

Example round_examples :
  Py.round (1 # 2) = 0 /\ Py.round (3 # 2) = 2 /\ Py.round (5 # 2) = 2 /\
  Py.round (-1 # 2) = 0 /\ Py.round (7 # 4) = 2 /\ Py.round (-7 # 4) = -2.
Proof. repeat split; reflexivity. Qed.

Example ordinal_examples :
  DT.toordinal (Date 1 1 1) = 1 /\ DT.toordinal (Date 2024 1 1) = 738886 /\
  DT.toordinal (Date 2024 3 1) = 738946 /\ DT.toordinal (Date 9999 12 31) = 3652059.
Proof. repeat split; reflexivity. Qed.

Example strftime_example :
  DT.strftime_minutes (Datetime (Date 2024 1 5) (Time 9 0 0 0)) = "2024-01-05 09:00"%string.
Proof. reflexivity. Qed.

Example duration_example :
  calculate_duration (Datetime (Date 2024 1 1) (Time 9 0 0 0))
                     (Datetime (Date 2024 1 1) (Time 10 30 0 0))
  = ("1小时30分钟"%string, 90 # 1).
Proof. reflexivity. Qed.

Example duration_minutes_examples :
  duration_minutes "1小时30分钟" = ok 90 /\
  duration_minutes "-2小时30分钟" = ok (-90) /\
  duration_minutes "90" = raise IndexError /\
  duration_minutes "90分钟" = raise ValueError /\
  duration_minutes "一小时30分钟" = raise ValueError.
Proof. repeat split; reflexivity. Qed.

Example to_csv_example :
  Pd.to_csv (Pd.frame_of_rows ["Date"; "Remarks"; "Total Minutes"]%string
               [[CStr "2024-01-05"; CStr "a,b"; CFloat (90 # 1)];
                [CDate (Date 2024 1 6); NaN; CFloat (5 # 1)]])
  = ok (Pd.bom +:+ "Date,Remarks,Total Minutes" +:+ String Pd.lf
         ("2024-01-05," +:+ String Pd.dquote ("a,b" +:+ String Pd.dquote (",90.0" +:+ String Pd.lf
         ("2024-01-06,,5.0" +:+ String Pd.lf EmptyString))))).
Proof. reflexivity. Qed.

Example read_csv_example :
  Pd.read_csv_bytes
    (Pd.bom +:+ "Date,Severity,Remarks,Total Minutes" +:+ String Pd.lf
       ("2024-01-05,3," +:+ String Pd.dquote ("a,b" +:+ String Pd.dquote (",90.0" +:+ String Pd.lf
       ("2024-01-06,4,,5.0" +:+ String Pd.lf EmptyString)))))
  = ok (Pd.frame_of_rows ["Date"; "Severity"; "Remarks"; "Total Minutes"]%string
          [[CStr "2024-01-05"; CInt 3; CStr "a,b"; CFloat (90 # 1)];
           [CStr "2024-01-06"; CInt 4; NaN; CFloat (5 # 1)]]).
Proof. reflexivity. Qed.

Example read_csv_inference :
  Pd.read_csv_bytes ("a,b,c,d" +:+ String Pd.lf ("1,x,1,True" +:+ String Pd.lf
                     (",2,2.0,False" +:+ String Pd.lf EmptyString)))
  = ok (Pd.frame_of_rows ["a"; "b"; "c"; "d"]%string
          [[CFloat 1; CStr "x"; CFloat 1; CBool true];
           [NaN; CStr "2"; CFloat 2; CBool false]]).
Proof. reflexivity. Qed.

Example read_csv_empty : Pd.read_csv_bytes EmptyString = raise EmptyDataError.
Proof. reflexivity. Qed.

(** * Numerals: [str] and [int] *)

Lemma uint_value_acc d p :
  uint_value d (Z.pos p) = Z.pos (Pos.of_uint_acc d p).
Proof.
  revert p; induction d; intros p; simpl; try reflexivity;
    rewrite <- IHd; f_equal; lia.
Qed.

Lemma uint_value_of_uint d : uint_value d 0 = Z.of_N (Pos.of_uint d).
Proof.
  induction d; simpl; try reflexivity; try assumption.
  all: rewrite <- uint_value_acc; reflexivity.
Qed.

Lemma int_digits_uint d acc b :
  b = true \/ d <> Decimal.Nil ->
  Py.int_digits acc b (NilEmpty.string_of_uint d) = Some (uint_value d acc).
Proof.
  revert acc b; induction d; intros acc b Hb; simpl.
  1: { destruct Hb as [-> | Hb]; [reflexivity | congruence]. }
  all: rewrite ?Z.add_0_r; apply IHd; left; reflexivity.
Qed.

Lemma digits_uint d : all_chars is_digit (NilEmpty.string_of_uint d) = true.
Proof. induction d; simpl; auto. Qed.

Lemma string_of_pos_uint p :
  NilZero.string_of_uint (Pos.to_uint p) = NilEmpty.string_of_uint (Pos.to_uint p).
Proof.
  pose proof (Unsigned.to_uint_nonnil p) as H.
  destruct (Pos.to_uint p); [congruence | reflexivity ..].
Qed.

Lemma int_digits_pos p :
  Py.int_digits 0 false (NilEmpty.string_of_uint (Pos.to_uint p)) = Some (Z.pos p).
Proof.
  rewrite int_digits_uint by (right; apply Unsigned.to_uint_nonnil).
  rewrite uint_value_of_uint, Unsigned.of_to. reflexivity.
Qed.

Lemma rstrip_id s : all_chars not_space s = true -> Py.rstrip s = s.
Proof.
  induction s as [|c s IH]; simpl; [reflexivity|].
  intros [Hc Hs]%andb_prop. rewrite (IH Hs).
  destruct s; [|reflexivity].
  unfold not_space in Hc. destruct (Py.is_space c); [discriminate | reflexivity].
Qed.

Lemma lstrip_id s : all_chars not_space s = true -> Py.lstrip s = s.
Proof.
  destruct s as [|c s]; simpl; [reflexivity|].
  intros [Hc _]%andb_prop. unfold not_space in Hc.
  destruct (Py.is_space c); [discriminate | reflexivity].
Qed.

Lemma strip_id s : all_chars not_space s = true -> Py.strip s = s.
Proof. intros H. unfold Py.strip. rewrite (lstrip_id _ H). apply rstrip_id, H. Qed.

Lemma all_chars_impl (P Q : ascii -> bool) s :
  (forall c, P c = true -> Q c = true) -> all_chars P s = true -> all_chars Q s = true.
Proof.
  intros HPQ; induction s as [|c s IH]; simpl; [reflexivity|].
  intros [Hc Hs]%andb_prop. rewrite (HPQ _ Hc), (IH Hs). reflexivity.
Qed.

Lemma digit_not_space c : is_digit c = true -> not_space c = true.
Proof.
  unfold is_digit, Py.digit_val, not_space, Py.is_space.
  destruct ((48 <=? nat_of_ascii c)%nat && (nat_of_ascii c <=? 57)%nat) eqn:E; [|discriminate].
  intros _. apply andb_prop in E as [E1 E2].
  apply Nat.leb_le in E1, E2.
  apply negb_true_iff, orb_false_iff; split; apply andb_false_iff.
  - right. apply Nat.leb_gt. lia.
  - right. apply Nat.leb_gt. lia.
Qed.

Lemma str_pos p : Py.str (Z.pos p) = NilEmpty.string_of_uint (Pos.to_uint p).
Proof. unfold Py.str; simpl. apply string_of_pos_uint. Qed.

Lemma str_neg p :
  Py.str (Z.neg p) = String "-" (NilEmpty.string_of_uint (Pos.to_uint p)).
Proof. unfold Py.str; simpl. f_equal. apply string_of_pos_uint. Qed.

Lemma str_numeral z : all_chars is_numeral_char (Py.str z) = true.
Proof.
  destruct z as [|p|p].
  - reflexivity.
  - rewrite str_pos. eapply all_chars_impl; [|apply digits_uint].
    intros c Hc. unfold is_numeral_char. rewrite Hc. reflexivity.
  - rewrite str_neg. simpl. eapply all_chars_impl; [|apply digits_uint].
    intros c Hc. unfold is_numeral_char. rewrite Hc. reflexivity.
Qed.

Lemma numeral_not_space c : is_numeral_char c = true -> not_space c = true.
Proof.
  unfold is_numeral_char. intros [H | H]%orb_prop.
  - apply digit_not_space, H.
  - apply Ascii.eqb_eq in H. subst. reflexivity.
Qed.

(** [int(str(z)) == z]. *)
Lemma int_str z : Py.int (Py.str z) = ok z.
Proof.
  unfold Py.int. rewrite strip_id
    by (eapply all_chars_impl; [apply numeral_not_space | apply str_numeral]).
  destruct z as [|p|p].
  - reflexivity.
  - rewrite str_pos.
    pose proof (int_digits_pos p) as Hp. pose proof (digits_uint (Pos.to_uint p)) as Hd.
    destruct (NilEmpty.string_of_uint (Pos.to_uint p)) as [|c s] eqn:E.
    + simpl in Hp. discriminate.
    + simpl in Hd. apply andb_prop in Hd as [Hc _].
      assert (c <> "-"%char /\ c <> "+"%char) as [H1 H2].
      { split; intros ->; discriminate. }
      destruct c as [[] [] [] [] [] [] [] []]; try congruence; rewrite Hp; reflexivity.
  - rewrite str_neg. rewrite int_digits_pos. reflexivity.
Qed.

(** *** [split] and [replace] on texts without the first byte of the pattern *)

Lemma prefix_cons_differs a p c s :
  differs a c = true -> String.prefix (String a p) (String c s) = false.
Proof.
  unfold differs. intros H. simpl.
  destruct (ascii_dec a c) as [->|]; [|reflexivity].
  rewrite Ascii.eqb_refl in H. discriminate.
Qed.

Lemma prefix_append p s : String.prefix p (p +:+ s) = true.
Proof.
  induction p as [|a p IH]; simpl; [destruct s; reflexivity|].
  destruct (ascii_dec a a); [assumption | congruence].
Qed.

Lemma split_go_skip sep x s :
  Py.split_go sep (String.length x) (x +:+ s) = Py.split_go sep 0 s.
Proof. induction x as [|c x IH]; simpl; [reflexivity | assumption]. Qed.

Lemma split_go_app a p h s :
  all_chars (differs a) h = true ->
  Py.split_go (String a p) 0 (h +:+ s)
  = let '(x, y) := Py.split_go (String a p) 0 s in (h +:+ x, y).
Proof.
  induction h as [|c h IH]; intros Hh.
  - change (EmptyString +:+ s) with s.
    destruct (Py.split_go (String a p) 0 s); reflexivity.
  - simpl in Hh. apply andb_prop in Hh as [Hc Hh].
    change (String c h +:+ s) with (String c (h +:+ s)).
    cbn [Py.split_go]. rewrite (prefix_cons_differs _ _ _ _ Hc), (IH Hh).
    destruct (Py.split_go (String a p) 0 s); reflexivity.
Qed.

Lemma split_go_sep a p s :
  Py.split_go (String a p) 0 (String a p +:+ s)
  = (EmptyString, let '(x, y) := Py.split_go (String a p) 0 s in x :: y).
Proof.
  change (String a p +:+ s) with (String a (p +:+ s)).
  cbn [Py.split_go].
  change (String a (p +:+ s)) with (String a p +:+ s). rewrite prefix_append.
  replace (String.length (String a p) - 1)%nat with (String.length p) by (simpl; lia).
  rewrite split_go_skip. reflexivity.
Qed.

Lemma replace_go_app a p new h s :
  all_chars (differs a) h = true ->
  Py.replace_go (String a p) new 0 (h +:+ s) = h +:+ Py.replace_go (String a p) new 0 s.
Proof.
  induction h as [|c h IH]; intros Hh; [reflexivity|].
  simpl in Hh. apply andb_prop in Hh as [Hc Hh].
  change (String c h +:+ s) with (String c (h +:+ s)).
  cbn [Py.replace_go]. rewrite (prefix_cons_differs _ _ _ _ Hc), (IH Hh). reflexivity.
Qed.

Lemma append_cons c (s t : string) : String c s +:+ t = String c (s +:+ t).
Proof. reflexivity. Qed.

Lemma append_empty_r s : s +:+ EmptyString = s.
Proof. induction s as [|c s IH]; [reflexivity|]. rewrite append_cons, IH. reflexivity. Qed.

Lemma append_assoc (a b c : string) : (a +:+ b) +:+ c = a +:+ (b +:+ c).
Proof. induction a as [|x a IH]; [reflexivity|]. rewrite !append_cons, IH. reflexivity. Qed.

Lemma numeral_differs_high a c :
  (128 <=? nat_of_ascii a)%nat = true -> is_numeral_char c = true -> differs a c = true.
Proof.
  intros Ha Hc. unfold differs. apply negb_true_iff, Ascii.eqb_neq. intros ->.
  unfold is_numeral_char, is_digit, Py.digit_val in Hc.
  apply Nat.leb_le in Ha.
  apply orb_prop in Hc as [Hc | Hc].
  - destruct ((48 <=? nat_of_ascii a)%nat && (nat_of_ascii a <=? 57)%nat) eqn:E; [|discriminate].
    apply andb_prop in E as [_ E]. apply Nat.leb_le in E. lia.
  - apply Ascii.eqb_eq in Hc. subst a. vm_compute in Ha. lia.
Qed.

Lemma str_differs_high a z :
  (128 <=? nat_of_ascii a)%nat = true -> all_chars (differs a) (Py.str z) = true.
Proof.
  intros Ha. eapply all_chars_impl; [|apply str_numeral].
  intros c. apply numeral_differs_high, Ha.
Qed.

(** The inverse parse on a label of the form written by the calculator. *)
Lemma duration_minutes_label h m :
  duration_minutes (Py.str h +:+ "小时" +:+ Py.str m +:+ "分钟") = ok (h * 60 + m).
Proof.
  assert (Hsplit : Py.split "小时" (Py.str h +:+ "小时" +:+ Py.str m +:+ "分钟")
                   = ok [Py.str h; Py.str m +:+ "分钟"]).
  { unfold Py.split.
    lazymatch goal with
    | |- context [Py.split_go (String ?a ?p) 0 _] =>
        rewrite (split_go_app a p (Py.str h)) by (apply str_differs_high; reflexivity);
        rewrite (split_go_sep a p);
        rewrite (split_go_app a p (Py.str m)) by (apply str_differs_high; reflexivity)
    end.
    cbn. rewrite append_empty_r. reflexivity. }
  unfold duration_minutes. rewrite Hsplit. cbn [bind Py.getitem lookup list_lookup ok].
  simpl bind. rewrite int_str. simpl bind.
  unfold Py.replace.
  lazymatch goal with
  | |- context [Py.replace_go (String ?a ?p) ?n 0 _] =>
      rewrite (replace_go_app a p n (Py.str m)) by (apply str_differs_high; reflexivity)
  end.
  cbn. rewrite append_empty_r, int_str. reflexivity.
Qed.

(** * The duration as a number *)

Lemma Qred_eq (x y : Q) : (x == y)%Q -> Qred x = Qred y.
Proof. apply Qred_complete. Qed.

Lemma int_of_float_comp (x y : Q) : (x == y)%Q -> Py.int_of_float x = Py.int_of_float y.
Proof.
  intros H. unfold Py.int_of_float.
  rewrite (Qfloor_comp _ _ H), (Qceiling_comp _ _ H).
  destruct (Qle_bool 0 x) eqn:Ex, (Qle_bool 0 y) eqn:Ey; try reflexivity.
  - apply Qle_bool_iff in Ex. rewrite H in Ex. apply Qle_bool_iff in Ex. congruence.
  - apply Qle_bool_iff in Ey. rewrite <- H in Ey. apply Qle_bool_iff in Ey. congruence.
Qed.

Lemma int_of_float_Z (z : Z) : Py.int_of_float (inject_Z z) = z.
Proof.
  unfold Py.int_of_float. destruct (Qle_bool 0 (inject_Z z)).
  - apply Qfloor_Z.
  - apply Qceiling_Z.
Qed.

Lemma int_of_float_nonneg (n : Z) (d : positive) :
  0 <= n -> Py.int_of_float (n # d) = n / Z.pos d.
Proof.
  intros Hn. unfold Py.int_of_float.
  assert (Qle_bool 0 (n # d) = true) as ->; [|reflexivity].
  apply Qle_bool_iff. unfold Qle; simpl. lia.
Qed.

(** The time between two datetimes, in microseconds, survives the
    normalisation done by [timedelta]. *)
Lemma renormalise (us : Z) :
  (us / 86400000000 * 86400 + us / 1000000 mod 86400) * 1000000 + us mod 1000000 = us.
Proof.
  pose proof (Z.div_mod us 1000000 ltac:(lia)).
  pose proof (Z.div_mod (us / 1000000) 86400 ltac:(lia)).
  replace (us / 86400000000) with (us / 1000000 / 86400)
    by (rewrite Z.div_div by lia; reflexivity).
  lia.
Qed.

Lemma sub_micros x y :
  (td_days (DT.sub x y) * 86400 + td_seconds (DT.sub x y)) * 1000000
  + td_microseconds (DT.sub x y)
  = DT.timestamp x - DT.timestamp y.
Proof.
  unfold DT.sub, DT.timedelta_new; cbn [td_days td_seconds td_microseconds].
  rewrite renormalise. unfold DT.timestamp. lia.
Qed.

Lemma total_minutes_expr s e :
  Py.truediv (DT.total_seconds (DT.sub e s)) 60 = Qred (minutes_between e s).
Proof.
  unfold Py.truediv, DT.total_seconds, Py.truediv. rewrite sub_micros.
  apply Qred_eq. rewrite Qred_correct.
  unfold minutes_between. set (us := DT.timestamp e - DT.timestamp s).
  unfold Qeq, Qdiv, Qmult, Qinv, inject_Z; simpl. lia.
Qed.

Lemma total_minutes_value s e :
  snd (calculate_duration s e) = Qred (minutes_between e s).
Proof. unfold calculate_duration. cbn [snd Py.divmod]. apply total_minutes_expr. Qed.

Lemma hours_value (us : Z) :
  Qfloor (Qred (us # 60000000) / 60) = us / 3600000000.
Proof.
  transitivity (Qfloor (us # 3600000000)); [|reflexivity].
  apply Qfloor_comp. rewrite Qred_correct.
  unfold Qeq, Qdiv, Qmult, Qinv; simpl. lia.
Qed.

Lemma minutes_value (us : Z) :
  Py.int_of_float
    (Qred (Qred (us # 60000000) - 60 * inject_Z (us / 3600000000)))
  = us mod 3600000000 / 60000000.
Proof.
  rewrite (int_of_float_comp _ ((us mod 3600000000) # 60000000)).
  - apply int_of_float_nonneg. apply Z.mod_pos_bound. lia.
  - rewrite !Qred_correct.
    pose proof (Z.div_mod us 3600000000 ltac:(lia)) as H.
    unfold Qeq, Qminus, Qplus, Qopp, Qmult, inject_Z; simpl. lia.
Qed.

Lemma label_value s e :
  fst (calculate_duration s e)
  = Py.str ((DT.timestamp e - DT.timestamp s) / 3600000000) +:+ "小时"
    +:+ Py.str ((DT.timestamp e - DT.timestamp s) mod 3600000000 / 60000000) +:+ "分钟".
Proof.
  unfold calculate_duration. rewrite total_minutes_expr. unfold minutes_between.
  cbn [fst Py.divmod]. rewrite int_of_float_Z, hours_value, minutes_value.
  reflexivity.
Qed.


Lemma hours_minutes_floor (us : Z) :
  us / 3600000000 * 60 + us mod 3600000000 / 60000000 = us / 60000000.
Proof.
  pose proof (Z.div_mod us 3600000000 ltac:(lia)).
  pose proof (Z.mod_pos_bound us 3600000000 ltac:(lia)).
  pose proof (Z.div_mod (us mod 3600000000) 60000000 ltac:(lia)).
  pose proof (Z.mod_pos_bound (us mod 3600000000) 60000000 ltac:(lia)).
  apply (Z.div_unique _ _ _ ((us mod 3600000000) mod 60000000)); lia.
Qed.



Lemma timestamp_whole_minutes x :
  DT.minute_granular x -> exists k, DT.timestamp x = 60000000 * k.
Proof.
  intros [Hs Hu]. unfold DT.timestamp. rewrite Hs, Hu.
  exists (DT.toordinal (dt_date x) * 1440 + minute (dt_time x) + hour (dt_time x) * 60). lia.
Qed.

(** * Calendar order *)

Lemma leap_count_mono (a b : Z) :
  a <= b -> a / 4 - a / 100 + a / 400 <= b / 4 - b / 100 + b / 400.
Proof.
  intros Hab.
  replace (a / 100) with (a / 4 / 25) by (rewrite Z.div_div by lia; reflexivity).
  replace (b / 100) with (b / 4 / 25) by (rewrite Z.div_div by lia; reflexivity).
  replace (a / 400) with (a / 4 / 25 / 4) by (rewrite !Z.div_div by lia; reflexivity).
  replace (b / 400) with (b / 4 / 25 / 4) by (rewrite !Z.div_div by lia; reflexivity).
  assert (a / 4 <= b / 4) as Hq by (apply Z.div_le_mono; lia).
  set (qa := a / 4) in *. set (qb := b / 4) in *.
  assert (qa / 25 <= qb / 25) as Hp by (apply Z.div_le_mono; lia).
  assert (qa / 25 / 4 <= qb / 25 / 4) as Hr by (apply Z.div_le_mono; lia).
  assert (qb / 25 - qa / 25 <= qb - qa).
  { pose proof (Z.div_mod qa 25 ltac:(lia)). pose proof (Z.mod_pos_bound qa 25 ltac:(lia)).
    pose proof (Z.div_mod qb 25 ltac:(lia)). pose proof (Z.mod_pos_bound qb 25 ltac:(lia)).
    lia. }
  lia.
Qed.

Lemma days_before_year_mono (a b : Z) :
  a <= b -> DT.days_before_year a <= DT.days_before_year b.
Proof.
  intros H. unfold DT.days_before_year.
  pose proof (leap_count_mono (a - 1) (b - 1) ltac:(lia)). lia.
Qed.

Lemma days_before_year_succ (y : Z) :
  DT.days_before_year (y + 1) = DT.days_before_year y + 365 + leap_day y.
Proof.
  unfold DT.days_before_year, leap_day, DT.is_leap.
  replace (y + 1 - 1) with y by lia.
  pose proof (Z.div_mod y 4 ltac:(lia)). pose proof (Z.mod_pos_bound y 4 ltac:(lia)).
  pose proof (Z.div_mod y 100 ltac:(lia)). pose proof (Z.mod_pos_bound y 100 ltac:(lia)).
  pose proof (Z.div_mod y 400 ltac:(lia)). pose proof (Z.mod_pos_bound y 400 ltac:(lia)).
  pose proof (Z.div_mod (y - 1) 4 ltac:(lia)). pose proof (Z.mod_pos_bound (y - 1) 4 ltac:(lia)).
  pose proof (Z.div_mod (y - 1) 100 ltac:(lia)). pose proof (Z.mod_pos_bound (y - 1) 100 ltac:(lia)).
  pose proof (Z.div_mod (y - 1) 400 ltac:(lia)). pose proof (Z.mod_pos_bound (y - 1) 400 ltac:(lia)).
  destruct (Z.eqb_spec (y mod 4) 0), (Z.eqb_spec (y mod 100) 0), (Z.eqb_spec (y mod 400) 0);
    cbn [andb orb negb]; lia.
Qed.

Lemma month_cases (m : Z) :
  1 <= m <= 12 ->
  m = 1 \/ m = 2 \/ m = 3 \/ m = 4 \/ m = 5 \/ m = 6 \/ m = 7 \/ m = 8 \/ m = 9
  \/ m = 10 \/ m = 11 \/ m = 12.
Proof. lia. Qed.

Ltac split_month H :=
  apply month_cases in H;
  repeat (destruct H as [H | H]); subst.

Ltac table :=
  cbv [nth Z.to_nat Pos.to_nat Pos.iter_op Nat.add Z.eqb Z.ltb Z.compare
       Pos.compare Pos.compare_cont Pos.eqb andb] in *.

(** The day of the year of a valid month and day. *)
Lemma day_of_year_bounds (y m d : Z) :
  1 <= m <= 12 -> 1 <= d <= DT.days_in_month y m ->
  1 <= DT.days_before_month y m + d <= 365 + leap_day y.
Proof.
  intros Hm Hd. unfold leap_day, DT.days_before_month, DT.days_in_month in *.
  split_month Hm; destruct (DT.is_leap y); table; lia.
Qed.

Lemma day_of_year_mono (y m1 d1 m2 d2 : Z) :
  1 <= m1 <= 12 -> 1 <= m2 <= 12 ->
  1 <= d1 <= DT.days_in_month y m1 -> 1 <= d2 <= DT.days_in_month y m2 ->
  m1 < m2 ->
  DT.days_before_month y m1 + d1 < DT.days_before_month y m2 + d2.
Proof.
  intros Hm1 Hm2 Hd1 Hd2 Hlt. unfold DT.days_before_month, DT.days_in_month in *.
  split_month Hm1; split_month Hm2; try lia; destruct (DT.is_leap y); table; lia.
Qed.

Lemma valid_date_bounds d :
  DT.valid_date d = true ->
  1 <= year d <= 9999 /\ 1 <= month d <= 12 /\ 1 <= day d <= DT.days_in_month (year d) (month d).
Proof.
  unfold DT.valid_date. rewrite !andb_true_iff, !Z.leb_le. lia.
Qed.

Lemma valid_time_bounds t :
  DT.valid_time t = true ->
  0 <= hour t < 24 /\ 0 <= minute t < 60 /\ 0 <= second t < 60
  /\ 0 <= microsecond t < 1000000.
Proof.
  unfold DT.valid_time. rewrite !andb_true_iff, !Z.leb_le, !Z.ltb_lt. lia.
Qed.

Lemma toordinal_lt a b :
  DT.valid_date a = true -> DT.valid_date b = true ->
  date_before a b -> DT.toordinal a < DT.toordinal b.
Proof.
  intros (Hya & Hma & Hda)%valid_date_bounds (Hyb & Hmb & Hdb)%valid_date_bounds.
  destruct a as [ya ma da], b as [yb mb db]. unfold date_before, DT.toordinal, DT.ymd2ord.
  cbn [year month day] in *.
  pose proof (day_of_year_bounds ya ma da Hma Hda).
  pose proof (day_of_year_bounds yb mb db Hmb Hdb).
  intros [Hy | [-> [Hm | [-> Hd]]]].
  - pose proof (days_before_year_succ ya).
    pose proof (days_before_year_mono (ya + 1) yb ltac:(lia)). lia.
  - pose proof (day_of_year_mono yb ma da mb db Hma Hmb Hda Hdb Hm). lia.
  - lia.
Qed.

(** On valid datetimes the comparison of the fields is the comparison of
    the positions on the time line. *)
Lemma cmp_timestamp x y :
  DT.valid x = true -> DT.valid y = true ->
  DT.cmp (DT.fields x) (DT.fields y) = (DT.timestamp x ?= DT.timestamp y).
Proof.
  unfold DT.valid. intros [Hdx Htx]%andb_prop [Hdy Hty]%andb_prop.
  pose proof (toordinal_lt _ _ Hdx Hdy) as Hxy.
  pose proof (toordinal_lt _ _ Hdy Hdx) as Hyx.
  apply valid_time_bounds in Htx, Hty.
  destruct x as [[y1 m1 d1] [h1 n1 s1 u1]], y as [[y2 m2 d2] [h2 n2 s2 u2]].
  unfold date_before, DT.timestamp in *. cbn [dt_date dt_time year month day hour minute second microsecond DT.fields DT.cmp] in *.
  destruct (Z.compare_spec y1 y2); [subst|symmetry; apply Z.compare_lt_iff; lia|symmetry; apply Z.compare_gt_iff; lia].
  destruct (Z.compare_spec m1 m2); [subst|symmetry; apply Z.compare_lt_iff; lia|symmetry; apply Z.compare_gt_iff; lia].
  destruct (Z.compare_spec d1 d2); [subst|symmetry; apply Z.compare_lt_iff; lia|symmetry; apply Z.compare_gt_iff; lia].
  destruct (Z.compare_spec h1 h2); [subst|symmetry; apply Z.compare_lt_iff; lia|symmetry; apply Z.compare_gt_iff; lia].
  destruct (Z.compare_spec n1 n2); [subst|symmetry; apply Z.compare_lt_iff; lia|symmetry; apply Z.compare_gt_iff; lia].
  destruct (Z.compare_spec s1 s2); [subst|symmetry; apply Z.compare_lt_iff; lia|symmetry; apply Z.compare_gt_iff; lia].
  destruct (Z.compare_spec u1 u2); [subst|symmetry; apply Z.compare_lt_iff; lia|symmetry; apply Z.compare_gt_iff; lia].
  symmetry. apply Z.compare_eq_iff. reflexivity.
Qed.

Lemma lt_timestamp x y :
  DT.valid x = true -> DT.valid y = true ->
  DT.lt x y = true <-> DT.timestamp x < DT.timestamp y.
Proof.
  intros Hx Hy. unfold DT.lt, DT.gt. rewrite (cmp_timestamp _ _ Hy Hx).
  destruct (Z.compare_spec (DT.timestamp y) (DT.timestamp x)); split; intros; try lia; try discriminate; reflexivity.
Qed.

Lemma ge_timestamp x y :
  DT.valid x = true -> DT.valid y = true ->
  DT.ge x y = true <-> DT.timestamp y <= DT.timestamp x.
Proof.
  intros Hx Hy. unfold DT.ge. rewrite negb_true_iff.
  pose proof (lt_timestamp x y Hx Hy). destruct (DT.lt x y).
  - split; [discriminate|]. intros. assert (DT.timestamp x < DT.timestamp y) by (apply H; reflexivity). lia.
  - split; [|reflexivity]. intros _.
    destruct (Z.lt_ge_cases (DT.timestamp x) (DT.timestamp y)) as [Hlt|]; [|lia].
    apply H in Hlt. discriminate.
Qed.

(** * The duration calculator and the inverse parse *)


Lemma minutes_in_hour (us : Z) : 0 <= us mod 3600000000 / 60000000 < 60.
Proof.
  pose proof (Z.mod_pos_bound us 3600000000 ltac:(lia)).
  split.
  - apply Z.div_pos; lia.
  - apply Z.div_lt_upper_bound; lia.
Qed.



(** With seconds in the input the parse is the floor and not the rounded
    total: forty-five seconds parse to 0 minutes and round to 1. *)
Example parse_is_floor :
  let '(label, total_minutes) :=
    calculate_duration (Datetime (Date 2024 1 1) (Time 10 0 0 0))
                       (Datetime (Date 2024 1 1) (Time 10 0 45 0)) in
  label = "0小时0分钟"%string /\ total_minutes = 3 # 4
  /\ duration_minutes label = ok 0 /\ Py.round total_minutes = 1.
Proof. repeat split. Qed.


(** * The record store *)

Lemma map_result_Forall2 {A B} (f : A -> result B) l l' :
  map_result f l = ok l' -> Forall2 (fun a b => f a = ok b) l l'.
Proof.
  revert l'; induction l as [|a l IH]; intros l'; simpl.
  - intros [= <-]. constructor.
  - destruct (f a) as [e|b] eqn:Ea; simpl; [discriminate|].
    destruct (map_result f l) as [e|bs]; simpl; [discriminate|].
    intros [= <-]. constructor; [exact Ea | apply IH; reflexivity].
Qed.

Lemma map_result_ok {A B} (f : A -> result B) l :
  Forall (fun a => exists b, f a = ok b) l -> exists l', map_result f l = ok l'.
Proof.
  induction 1 as [|a l [b Hb] _ [l' Hl']]; simpl.
  - eexists; reflexivity.
  - rewrite Hb, Hl'. simpl. eexists; reflexivity.
Qed.

Lemma map_result_length {A B} (f : A -> result B) l l' :
  map_result f l = ok l' -> length l' = length l.
Proof. intros H%map_result_Forall2. symmetry. eapply Forall2_length, H. Qed.

(** *** What the reader produces can be written *)

Lemma float_repr_whole q :
  Pos.eqb (Qden q) 1 && (Z.abs (Qnum q) <? 2 ^ 53) = true ->
  Qred q = q -> exists s, Pd.float_repr q = ok s.
Proof.
  intros H Hq. unfold Pd.float_repr. rewrite Hq, H. eexists; reflexivity.
Qed.

Lemma double_value_renderable f q :
  Pd.double_value f = ok q -> renderable (CFloat q).
Proof.
  unfold Pd.double_value. destruct (Pd.decimal_literal f) as [[m e]|]; [|discriminate].
  set (v := Qred _).
  destruct (Pos.eqb (Qden v) 1 && (Z.abs (Qnum v) <? 2 ^ 53)) eqn:E; [|discriminate].
  intros [= <-]. apply float_repr_whole; [exact E|]. apply Qred_complete, Qred_correct.
Qed.

Lemma convert_renderable k f c : Pd.convert k f = ok c -> renderable c.
Proof.
  destruct k; simpl.
  - destruct (Pd.int_literal f); [|discriminate].
    destruct (_ && _); [|discriminate]. intros [= <-]. eexists; reflexivity.
  - destruct (Pd.is_na f); [intros [= <-]; eexists; reflexivity|].
    destruct (Pd.double_value f) as [e|q] eqn:E; simpl; [discriminate|].
    intros [= <-]. eapply double_value_renderable, E.
  - intros [= <-]. destruct (Pd.bool_value f); eexists; reflexivity.
  - intros [= <-]. destruct (Pd.is_na f); eexists; reflexivity.
Qed.

Lemma convert_row_spec ks fs cs :
  Pd.convert_row ks fs = ok cs ->
  Forall renderable cs /\ length cs = Nat.min (length ks) (length fs).
Proof.
  revert fs cs; induction ks as [|k ks IH]; intros fs cs; simpl.
  - intros [= <-]. split; [constructor | reflexivity].
  - destruct fs as [|f fs]; [intros [= <-]; split; [constructor | reflexivity]|].
    destruct (Pd.convert k f) as [e|c] eqn:Ec; simpl; [discriminate|].
    destruct (Pd.convert_row ks fs) as [e|cs'] eqn:Er; simpl; [discriminate|].
    intros [= <-]. destruct (IH _ _ Er) as [H1 H2]. split.
    + constructor; [eapply convert_renderable, Ec | exact H1].
    + simpl. rewrite H2. reflexivity.
Qed.

Lemma header_names_length k header : length (Pd.header_names k header) = length header.
Proof.
  revert k; induction header as [|[|c s] header IH]; intros k; simpl; auto.
Qed.

Lemma read_csv_bytes_shape content df :
  Pd.read_csv_bytes content = ok df -> storable df /\ well_formed df.
Proof.
  unfold Pd.read_csv_bytes.
  destruct (Pd.tokenize (Pd.skip_bom content)) as [e|[|header body]]; simpl; try discriminate.
  destruct (Pd.has_dup _); [discriminate|].
  destruct (Pd.implicit_index _ body); [discriminate|].
  destruct (existsb _ body) eqn:Elong; [discriminate|].
  set (kinds := map _ (seq 0 (length header))).
  destruct (map_result _ _) as [e|rs] eqn:Ers; simpl; [discriminate|].
  intros [= <-]. apply map_result_Forall2 in Ers.
  unfold storable, well_formed, Pd.frame_of_rows; cbn [rows columns index].
  assert (Hk : length kinds = length header)
    by (unfold kinds; rewrite length_map, length_seq; reflexivity).
  clearbody kinds.
  assert (Hbody : Forall (fun fs => length fs = length header) (map (Pd.pad (length header)) body)).
  { apply Forall_map, Forall_forall. intros fs Hin. cbn.
    unfold Pd.pad. rewrite length_app, repeat_length.
    assert (existsb (fun fs => (length header <? length fs)%nat) body = false -> (length fs <= length header)%nat) as Hle.
    { intros Hex. destruct (Nat.ltb_spec (length header) (length fs)); [|lia].
      assert (existsb (fun fs => (length header <? length fs)%nat) body = true); [|congruence].
      apply existsb_exists. exists fs. split; [apply list_elem_of_In, Hin | apply Nat.ltb_lt; lia]. }
    specialize (Hle Elong). lia. }
  repeat split.
  - clear -Ers. induction Ers as [|fs cs ? ? H _ IH]; constructor; [|exact IH].
    apply convert_row_spec in H. apply H.
  - rewrite header_names_length. clear -Ers Hbody Hk.
    induction Ers as [|fs cs ? ? H _ IH]; [constructor|].
    apply Forall_cons in Hbody as [Hfs Hbody]. constructor; [|apply IH, Hbody].
    apply convert_row_spec in H as [_ ->]. cbn beta in Hfs. lia.
Qed.

Lemma read_csv_shape st df : read_csv st = ok df -> storable df /\ well_formed df.
Proof. destruct st; [apply read_csv_bytes_shape | discriminate]. Qed.

Lemma empty_frame_shape cols : storable (Pd.empty_frame cols) /\ well_formed (Pd.empty_frame cols).
Proof. repeat split; constructor. Qed.

Lemma app_load_data_shape st df :
  App.load_data st = ok df -> storable df /\ well_formed df.
Proof.
  unfold App.load_data. destruct (read_csv st) as [[]|df'] eqn:E; try discriminate.
  - intros [= <-]. apply empty_frame_shape.
  - intros [= <-]. eapply read_csv_shape, E.
Qed.

Lemma copy_load_data_shape st df :
  AppCopy.load_data st = ok df -> storable df /\ well_formed df.
Proof.
  unfold AppCopy.load_data. destruct (read_csv st) as [[]|df'] eqn:E; try discriminate.
  - intros [= <-]. apply empty_frame_shape.
  - intros [= <-]. eapply read_csv_shape, E.
Qed.

(** *** Writing never fails on a storable table *)

Lemma to_csv_ok df : storable df -> exists content, Pd.to_csv df = ok content.
Proof.
  intros H. unfold Pd.to_csv.
  destruct (map_result_ok (map_result Pd.render) (rows df)) as [body ->].
  - eapply Forall_impl; [exact H|]. intros row Hrow. apply map_result_ok, Hrow.
  - simpl. eexists; reflexivity.
Qed.

Lemma at_column_renderable cols row c :
  Forall renderable row -> renderable (Pd.at_column cols row c).
Proof.
  intros H. unfold Pd.at_column.
  assert (renderable NaN) as Hn by (eexists; reflexivity).
  destruct (Pd.position c cols) as [k|]; [|exact Hn].
  revert k; induction H as [|x row Hx _ IH]; intros [|k]; simpl; auto.
Qed.

Lemma concat_storable a b : storable a -> storable b -> storable (Pd.concat a b).
Proof.
  intros Ha Hb. unfold storable, Pd.concat, Pd.frame_of_rows; cbn [rows].
  apply Forall_app; split; apply Forall_map; (eapply Forall_impl; [eassumption|]);
    intros row Hrow; cbn; unfold Pd.reindex_row; apply Forall_map, Forall_forall;
    intros c _; apply at_column_renderable, Hrow.
Qed.

(** *** Dropping a row by its label *)

Lemma existsb_labels (z : Z) k n :
  existsb (Z.eqb z) (labels k n) = true <-> Z.of_nat k <= z < Z.of_nat (k + n).
Proof.
  unfold labels. rewrite existsb_exists. split.
  - intros (x & Hin & Hx). apply Z.eqb_eq in Hx. subst x.
    apply in_map_iff in Hin as (j & <- & Hj). apply in_seq in Hj. lia.
  - intros H. exists z. split; [|apply Z.eqb_refl].
    apply in_map_iff. exists (Z.to_nat z). split; [lia|]. apply in_seq. lia.
Qed.

Lemma filter_labels_above (i k : nat) (rs : list (list cell)) :
  (i < k)%nat ->
  List.filter (fun p => negb (Z.eqb (Z.of_nat i) (fst p))) (zip (labels k (length rs)) rs)
  = zip (labels k (length rs)) rs.
Proof.
  revert k; induction rs as [|r rs IH]; intros k Hik; [reflexivity|].
  cbn [length labels seq map zip zip_with List.filter fst].
  destruct (Z.eqb_spec (Z.of_nat i) (Z.of_nat k)); [lia|].
  cbn [negb]. f_equal. apply (IH (S k)). lia.
Qed.

Lemma zip_labels_fst k (rs : list (list cell)) :
  map fst (zip (labels k (length rs)) rs) = labels k (length rs).
Proof.
  revert k; induction rs as [|r rs IH]; intros k; [reflexivity|].
  cbn [length labels seq map zip zip_with fst]. f_equal. apply (IH (S k)).
Qed.

Lemma zip_labels_snd k (rs : list (list cell)) :
  map snd (zip (labels k (length rs)) rs) = rs.
Proof.
  revert k; induction rs as [|r rs IH]; intros k; [reflexivity|].
  cbn [length labels seq map zip zip_with snd]. f_equal. apply (IH (S k)).
Qed.

Lemma filter_labels (i k : nat) (rs : list (list cell)) :
  (k <= i < k + length rs)%nat ->
  map snd (List.filter (fun p => negb (Z.eqb (Z.of_nat i) (fst p)))
             (zip (labels k (length rs)) rs))
  = without (i - k) rs.
Proof.
  revert k; induction rs as [|r rs IH]; intros k Hik; [simpl in Hik; lia|].
  cbn [length labels seq map zip zip_with List.filter fst].
  destruct (Z.eqb_spec (Z.of_nat i) (Z.of_nat k)) as [Heq|Hne]; cbn [negb].
  - assert (i = k) as -> by lia. replace (k - k)%nat with O by lia.
    change (map Z.of_nat (seq (S k) (length rs))) with (labels (S k) (length rs)).
    rewrite filter_labels_above by lia. rewrite zip_labels_snd. reflexivity.
  - cbn [map snd].
    change (map Z.of_nat (seq (S k) (length rs))) with (labels (S k) (length rs)).
    rewrite (IH (S k)) by (cbn [length] in Hik; lia).
    replace (i - k)%nat with (S (i - S k)) by lia. reflexivity.
Qed.

Lemma without_length {A} (i : nat) (l : list A) :
  (i < length l)%nat -> length (without i l) = (length l - 1)%nat.
Proof.
  intros H. unfold without. rewrite length_app, length_firstn, length_skipn. lia.
Qed.

Lemma without_lookup {A} (i j : nat) (l : list A) :
  (i < length l)%nat ->
  without i l !! j = l !! (if (j <? i)%nat then j else S j).
Proof.
  intros H. unfold without. destruct (Nat.ltb_spec j i).
  - rewrite lookup_app_l by (rewrite length_firstn; lia).
    apply lookup_take_lt. lia.
  - rewrite lookup_app_r by (rewrite length_firstn; lia).
    rewrite length_firstn, lookup_drop. f_equal. lia.
Qed.

Lemma drop_present (df : DataFrame) (i : nat) :
  well_formed df -> (i < length (rows df))%nat ->
  exists idx,
    Pd.drop (Z.of_nat i) df = ok (Frame (columns df) idx (without i (rows df))).
Proof.
  intros [Hidx _] Hi. unfold Pd.drop. rewrite Hidx.
  change (Pd.range (length (rows df))) with (labels 0 (length (rows df))).
  assert (existsb (Z.eqb (Z.of_nat i)) (labels 0 (length (rows df))) = true) as ->
    by (apply existsb_labels; lia).
  rewrite filter_labels by lia. rewrite Nat.sub_0_r.
  eexists; reflexivity.
Qed.

Lemma drop_absent (df : DataFrame) (z : Z) :
  well_formed df -> ~ (0 <= z < Z.of_nat (length (rows df))) ->
  Pd.drop z df = raise KeyError.
Proof.
  intros [Hidx _] Hz. unfold Pd.drop. rewrite Hidx.
  change (Pd.range (length (rows df))) with (labels 0 (length (rows df))).
  destruct (existsb _ _) eqn:E; [|reflexivity].
  apply existsb_labels in E. lia.
Qed.

Lemma save_data_ok df : storable df -> exists content, App.save_data df = ok (Some content).
Proof.
  intros [content H]%to_csv_ok. exists content. unfold App.save_data. rewrite H. reflexivity.
Qed.

Lemma without_Forall {A} (P : A -> Prop) i l : Forall P l -> Forall P (without i l).
Proof.
  intros H. unfold without. apply Forall_app; split.
  - apply Forall_take, H.
  - apply Forall_drop, H.
Qed.

(** C5. Deleting the record at a valid index [i] of a loaded record set of
    size [n] saves a set of size [n - 1] that holds the original records at
    all indices other than [i], in their original order and re-packed to the
    contiguous indices [0 .. n - 2]; an index that is not valid fails with
    the out-of-range error of [drop] ([KeyError]) and leaves the persisted
    file as it was. *)
Theorem delete_record_spec (st : store) (data : DataFrame) (i : Z) :
  App.load_data st = ok data -> Pd.empty data = false ->
  let n := length (rows data) in
  let remaining := without (Z.to_nat i) (rows data) in
  (0 <= i < Z.of_nat n ->
   exists st',
     App.delete_record st i = (st', Noticed (Success "记录已删除"))
     /\ App.save_data (Frame (columns data) (Pd.range (n - 1)) remaining) = ok st'
     /\ length remaining = (n - 1)%nat
     /\ forall j : nat,
         remaining !! j = rows data !! (if (j <? Z.to_nat i)%nat then j else S j))
  /\ (~ (0 <= i < Z.of_nat n) -> App.delete_record st i = (st, Raised KeyError)).
Proof.
  intros Hload Hne n remaining.
  destruct (app_load_data_shape _ _ Hload) as [Hst Hwf].
  unfold App.delete_record. rewrite Hload. cbv [ok]. rewrite Hne. split.
  - intros Hi.
    destruct (drop_present data (Z.to_nat i) Hwf ltac:(lia)) as [idx Hdrop].
    rewrite Z2Nat.id in Hdrop by lia. rewrite Hdrop. cbv [ok bind].
    unfold Pd.reset_index. cbn [columns rows].
    assert (Hlen : length remaining = (n - 1)%nat)
      by (apply without_length; lia).
    fold remaining. rewrite Hlen.
    destruct (save_data_ok (Frame (columns data) (Pd.range (n - 1)) remaining))
      as [content Hsave].
    { unfold storable; cbn [rows]. apply without_Forall, Hst. }
    cbv [ok] in Hsave. rewrite Hsave. exists (Some content). repeat split; try assumption.
    intros j. apply without_lookup. lia.
  - intros Hi. rewrite (drop_absent _ _ Hwf Hi). reflexivity.
Qed.

Example sample_store_loads : App.load_data sample_store = ok sample_data.
Proof. reflexivity. Qed.

Lemma delete_record_spec_witness :
  (exists st', App.delete_record sample_store 0 = (st', Noticed (Success "记录已删除")))
  /\ App.delete_record sample_store 5 = (sample_store, Raised KeyError).
Proof.
  split.
  - destruct (delete_record_spec sample_store sample_data 0 eq_refl eq_refl) as [H _].
    destruct (H ltac:(simpl; lia)) as (st' & Hst' & _). exists st'. exact Hst'.
  - destruct (delete_record_spec sample_store sample_data 5 eq_refl eq_refl) as [_ H].
    apply H. simpl. lia.
Defined.

(** * The create form *)

(** In app.py a create submission whose end time is earlier than its start
    time is answered with the validation message, whatever the persisted
    file holds: the file is left as it was, so no record is written and the
    record set that [load_data] returns is unchanged.  The answer is the same
    for every duration calculator put in the place of [calculate_duration]:
    the calculator is not consulted on such a pair. *)
Lemma submit_rejects_end_before_start
    (st : store) (f : App.form) (date : date) (start_time end_time : time) :
  App.f_date f = Some date ->
  App.f_start f = Some start_time ->
  App.f_end f = Some end_time ->
  DT.lt (DT.combine date end_time) (DT.combine date start_time) = true ->
  App.submit st f = (st, Noticed (Failure "结束时间不能早于开始时间"))
  /\ App.load_data (fst (App.submit st f)) = App.load_data st
  /\ forall calc, App.submit_with calc st f = App.submit st f.
Proof.
  intros Hd Hs He Hlt.
  assert (H : forall calc,
             App.submit_with calc st f
             = (st, Noticed (Failure "结束时间不能早于开始时间"))).
  { intros calc. unfold App.submit_with. rewrite Hd, Hs, He.
    unfold DT.lt in Hlt. rewrite Hlt. reflexivity. }
  unfold App.submit. rewrite !H. repeat split. intros calc. apply H.
Qed.

Example submit_rejects_late_start :
  App.submit sample_store late_start_entry
  = (sample_store, Noticed (Failure "结束时间不能早于开始时间")).
Proof.
  exact (proj1 (submit_rejects_end_before_start sample_store late_start_entry
                  (Date 2024 1 2) (Time 9 0 0 0) (Time 8 30 0 0)
                  eq_refl eq_refl eq_refl eq_refl)).
Defined.

(** A submission with a field missing is answered with the other validation
    message and writes nothing either. *)
Lemma submit_rejects_missing_field (st : store) (f : App.form) :
  App.f_date f = None \/ App.f_start f = None \/ App.f_end f = None ->
  App.submit st f = (st, Noticed (Failure "请确保所有字段都已正确填写")).
Proof.
  unfold App.submit, App.submit_with.
  intros [H | [H | H]]; rewrite H; repeat (destruct (_ f)); reflexivity.
Qed.

(** * Loading without a file *)


(** The older copy answers the same situation with the seven columns it
    knows: it has no [Total Minutes]. *)
Lemma copy_load_data_missing_file :
  AppCopy.load_data None
  = ok (Pd.empty_frame ["Date"; "Start Time"; "End Time"; "Duration"; "Severity";
                        "Remarks"; "Location"]%string).
Proof. reflexivity. Qed.

(** * Negative durations *)

Lemma copy_new_record_storable s e duration loc f :
  storable (AppCopy.new_record s e duration loc f).
Proof.
  unfold storable, AppCopy.new_record, Pd.frame_of_rows; cbn [rows].
  repeat constructor; eexists; reflexivity.
Qed.

Lemma copy_submit_appends (st : store) (data : DataFrame) (f : AppCopy.form) :
  AppCopy.load_data st = ok data ->
  let start_datetime := DT.combine (AppCopy.f_date f) (AppCopy.f_start f) in
  let end_datetime := DT.combine (AppCopy.f_date f) (AppCopy.f_end f) in
  exists content,
    AppCopy.submit st f = (Some content, Noticed (Success "记录已添加"))
    /\ Pd.to_csv
         (Pd.concat data
            (AppCopy.new_record start_datetime end_datetime
               (fst (calculate_duration start_datetime end_datetime))
               (AppCopy.location_str (AppCopy.f_location f)) f))
       = ok content.
Proof.
  intros Hload s e. unfold AppCopy.submit. fold s e.
  destruct (calculate_duration s e) as [duration tm]. cbn [fst].
  rewrite Hload. cbv [ok bind].
  destruct (copy_load_data_shape _ _ Hload) as [Hst _].
  destruct (to_csv_ok (Pd.concat data
              (AppCopy.new_record s e duration
                 (AppCopy.location_str (AppCopy.f_location f)) f))) as [content Hc].
  { apply concat_storable; [exact Hst | apply copy_new_record_storable]. }
  exists content. unfold AppCopy.save_data. rewrite Hc. split; reflexivity.
Qed.

Lemma negative_label (s e : datetime) :
  DT.valid s = true -> DT.valid e = true -> DT.lt e s = true ->
  (snd (calculate_duration s e) < 0)%Q
  /\ exists h m : Z,
       fst (calculate_duration s e) = Py.str h +:+ "小时" +:+ Py.str m +:+ "分钟"
       /\ h < 0 /\ 0 <= m < 60.
Proof.
  intros Hs He Hlt. apply (lt_timestamp e s He Hs) in Hlt.
  rewrite total_minutes_value, label_value. unfold minutes_between.
  set (us := DT.timestamp e - DT.timestamp s). assert (us < 0) as Hus by (unfold us; lia).
  split.
  - rewrite Qred_correct. unfold Qlt; simpl. lia.
  - exists (us / 3600000000), (us mod 3600000000 / 60000000). split; [reflexivity|].
    split; [|apply minutes_in_hour].
    apply Z.div_lt_upper_bound; lia.
Qed.

(** C10. The duration calculator answers every pair of datetimes with a
    label and a number of minutes; when the end is before the start the
    number is negative and the label carries a negative hour count and a
    minute count between 0 and 59, for instance [-2小时30分钟] for minus
    ninety minutes.  The create handler of the older copy compares nothing:
    whatever table is loaded, it appends the record with that label and
    persists the result. *)
Theorem negative_duration_is_persisted
    (st : store) (data : DataFrame) (f : AppCopy.form) :
  let start_datetime := DT.combine (AppCopy.f_date f) (AppCopy.f_start f) in
  let end_datetime := DT.combine (AppCopy.f_date f) (AppCopy.f_end f) in
  DT.valid start_datetime = true -> DT.valid end_datetime = true ->
  DT.lt end_datetime start_datetime = true ->
  AppCopy.load_data st = ok data ->
  exists (label : string) (total_minutes : Q) (h m : Z) (content : string),
    calculate_duration start_datetime end_datetime = (label, total_minutes)
    /\ (total_minutes < 0)%Q
    /\ label = Py.str h +:+ "小时" +:+ Py.str m +:+ "分钟" /\ h < 0 /\ 0 <= m < 60
    /\ AppCopy.submit st f = (Some content, Noticed (Success "记录已添加"))
    /\ Pd.to_csv
         (Pd.concat data
            (AppCopy.new_record start_datetime end_datetime label
               (AppCopy.location_str (AppCopy.f_location f)) f))
       = ok content.
Proof.
  intros s e Hs He Hlt Hload.
  destruct (negative_label s e Hs He Hlt) as (Hneg & h & m & Hlabel & Hh & Hm).
  destruct (copy_submit_appends st data f Hload) as (content & Hsub & Hcsv).
  fold s e in Hsub, Hcsv.
  destruct (calculate_duration s e) as [label tm] eqn:E. cbn [fst snd] in *.
  exists label, tm, h, m, content. repeat split; assumption || lia.
Qed.

Lemma negative_duration_is_persisted_witness :
  exists content,
    calculate_duration (Datetime (Date 2024 1 1) (Time 10 0 0 0))
                       (Datetime (Date 2024 1 1) (Time 8 30 0 0))
    = ("-2小时30分钟"%string, -90 # 1)
    /\ AppCopy.submit None backwards_entry = (Some content, Noticed (Success "记录已添加"))
    /\ AppCopy.load_data (Some content)
       = ok (Pd.frame_of_rows AppCopy.schema
               [[CStr "2024-01-01"; CStr "2024-01-01 10:00"; CStr "2024-01-01 08:30";
                 CStr "-2小时30分钟"; CInt 3; CStr "r"; CStr "左侧, 右侧"]]).
Proof.
  destruct (negative_duration_is_persisted None (Pd.empty_frame AppCopy.schema)
              backwards_entry eq_refl eq_refl eq_refl eq_refl)
    as (label & tm & h & m & content & Hcalc & _ & _ & _ & _ & Hsub & Hcsv).
  exists content. split; [reflexivity|]. split; [exact Hsub|].
  vm_compute in Hcalc. injection Hcalc as <- _.
  vm_compute in Hcsv. injection Hcsv as <-. reflexivity.
Defined.

(** C2 in the older copy.  The create handler of part_000 has no comparison
    of the two times: the submission of an episode entered as 23:00 to 01:30
    of the same day, whose end is earlier than its start, is not rejected.
    The calculator is called, the record with the label [-22小时30分钟] is
    appended, the file is written and the success message is shown. *)
Theorem copy_submit_accepts_end_before_start :
  DT.lt (DT.combine (AppCopy.f_date overnight_entry) (AppCopy.f_end overnight_entry))
        (DT.combine (AppCopy.f_date overnight_entry) (AppCopy.f_start overnight_entry))
  = true
  /\ exists content,
       AppCopy.submit None overnight_entry
       = (Some content, Noticed (Success "记录已添加"))
       /\ AppCopy.load_data (Some content) = ok overnight_data
       /\ AppCopy.load_data None = ok (Pd.empty_frame AppCopy.schema).
Proof.
  split; [reflexivity|]. eexists. split; [reflexivity|]. split; reflexivity.
Qed.

(** * Counting *)

Lemma count_one_lookup x (m : gmap string nat) c :
  Pd.count_one x m !! c
  = if String.eqb c x then Some (S (default O (m !! c))) else m !! c.
Proof.
  unfold Pd.count_one. destruct (String.eqb_spec c x) as [->|Hne].
  - apply lookup_insert_eq.
  - apply lookup_insert_ne. congruence.
Qed.

Lemma counts_lookup (m0 : gmap string nat) xs c :
  foldr Pd.count_one m0 xs !! c
  = match m0 !! c, occurrences c xs with
    | None, O => None
    | o, n => Some (default O o + n)%nat
    end.
Proof.
  induction xs as [|x xs IH]; cbn [foldr].
  - unfold occurrences; cbn. destruct (m0 !! c); [f_equal; lia | reflexivity].
  - rewrite count_one_lookup, IH. unfold occurrences in *. cbn [List.filter].
    destruct (String.eqb c x); cbn [length];
      destruct (m0 !! c), (length (List.filter (String.eqb c) xs)); cbn; f_equal; lia.
Qed.

Lemma value_counts_lookup xs c :
  Pd.value_counts xs !! c
  = match occurrences c xs with O => None | n => Some n end.
Proof.
  unfold Pd.value_counts. rewrite counts_lookup, lookup_empty.
  destruct (occurrences c xs); reflexivity.
Qed.

Lemma occurrences_app c xs ys :
  occurrences c (xs ++ ys) = (occurrences c xs + occurrences c ys)%nat.
Proof. unfold occurrences. rewrite List.filter_app, length_app. reflexivity. Qed.

Lemma occurrences_concat c (lists : list (list string)) :
  occurrences c (List.concat lists) = sum_nat (map (occurrences c) lists).
Proof.
  induction lists as [|l lists IH]; [reflexivity|].
  cbn [List.concat map sum_nat foldr]. rewrite occurrences_app, IH. reflexivity.
Qed.

Lemma occurrences_NoDup c xs :
  NoDup xs -> c ∈ xs -> occurrences c xs = 1%nat.
Proof.
  unfold occurrences. induction 1 as [|x xs Hx Hnd IH]; [intros H; inversion H|].
  intros Hin. cbn [List.filter]. destruct (String.eqb_spec c x) as [->|Hne].
  - cbn [length]. f_equal.
    assert (List.filter (String.eqb x) xs = []) as ->; [|reflexivity].
    clear -Hx. induction xs as [|y xs IH]; [reflexivity|].
    cbn. destruct (String.eqb_spec x y) as [->|_].
    + exfalso. apply Hx. left.
    + apply IH. intros H. apply Hx. right. exact H.
  - apply IH. inversion Hin; subst; [congruence | assumption].
Qed.

(** * The duration chart *)

Lemma cut_value (m : Z) :
  Pd.cut duration_bins duration_bin_labels m
  = if (0 <=? m) && (m <? 30) then Some "0-30分钟"%string
    else if (30 <=? m) && (m <? 60) then Some "30-60分钟"%string
    else if (60 <=? m) && (m <? 120) then Some "60-120分钟"%string
    else if (120 <=? m) && true then Some "120分钟以上"%string
    else None.
Proof. reflexivity. Qed.

Lemma in_bin_values (m : Z) :
  in_bin "0-30分钟" m = (0 <=? m) && (m <? 30)
  /\ in_bin "30-60分钟" m = (30 <=? m) && (m <? 60)
  /\ in_bin "60-120分钟" m = (60 <=? m) && (m <? 120)
  /\ in_bin "120分钟以上" m = (120 <=? m).
Proof. repeat split. Qed.

Ltac bin_cases m :=
  destruct (Z.leb_spec 0 m), (Z.ltb_spec m 30), (Z.leb_spec 30 m), (Z.ltb_spec m 60),
    (Z.leb_spec 60 m), (Z.ltb_spec m 120), (Z.leb_spec 120 m); try lia; cbn [andb].

Lemma cut_in_bin (m : Z) (label : string) :
  Pd.cut duration_bins duration_bin_labels m = Some label
  <-> In label duration_bin_labels /\ in_bin label m = true.
Proof.
  destruct (in_bin_values m) as (B1 & B2 & B3 & B4).
  rewrite cut_value. unfold duration_bin_labels. cbn [In]. split.
  - intros Hc. revert Hc B1 B2 B3 B4. bin_cases m; intros [= <-] B1 B2 B3 B4;
      (split; [auto 6 | assumption]).
  - intros [[<- | [<- | [<- | [<- | []]]]] Hb]; revert Hb;
      [rewrite B1 | rewrite B2 | rewrite B3 | rewrite B4]; clear B1 B2 B3 B4;
      bin_cases m; intros Hb; try discriminate; reflexivity.
Qed.

Lemma cut_none (m : Z) :
  Pd.cut duration_bins duration_bin_labels m = None <-> m < 0.
Proof. rewrite cut_value. bin_cases m; split; intros; try discriminate; try lia; reflexivity. Qed.

Lemma in_bin_unique (m : Z) (l1 l2 : string) :
  In l1 duration_bin_labels -> In l2 duration_bin_labels ->
  in_bin l1 m = true -> in_bin l2 m = true -> l1 = l2.
Proof.
  intros H1 H2 B1 B2.
  assert (Pd.cut duration_bins duration_bin_labels m = Some l1) as E1 by (apply cut_in_bin; auto).
  assert (Pd.cut duration_bins duration_bin_labels m = Some l2) as E2 by (apply cut_in_bin; auto).
  congruence.
Qed.

Lemma occurrences_cut (label : string) (mins : list Z) :
  In label duration_bin_labels ->
  occurrences label (Pd.dropna (map (Pd.cut duration_bins duration_bin_labels) mins))
  = length (List.filter (in_bin label) mins).
Proof.
  intros Hin. unfold occurrences. induction mins as [|m mins IH]; [reflexivity|].
  cbn [map Pd.dropna List.filter].
  destruct (Pd.cut duration_bins duration_bin_labels m) as [l|] eqn:E.
  - apply cut_in_bin in E as [Hl Hb]. cbn [List.filter].
    destruct (String.eqb_spec label l) as [->|Hne].
    + rewrite Hb. cbn [length]. f_equal. exact IH.
    + destruct (in_bin label m) eqn:Eb; [|exact IH].
      exfalso. apply Hne. eapply in_bin_unique; eassumption.
  - destruct (in_bin label m) eqn:Eb; [|exact IH].
    assert (Pd.cut duration_bins duration_bin_labels m = Some label) by (apply cut_in_bin; auto).
    congruence.
Qed.

Lemma occurrences_cut_outside (label : string) (mins : list Z) :
  ~ In label duration_bin_labels ->
  occurrences label (Pd.dropna (map (Pd.cut duration_bins duration_bin_labels) mins)) = O.
Proof.
  intros Hout. unfold occurrences. induction mins as [|m mins IH]; [reflexivity|].
  cbn [map Pd.dropna]. destruct (Pd.cut _ _ m) as [l|] eqn:E; [|apply IH].
  cbn [List.filter]. destruct (String.eqb_spec label l) as [->|_]; [|apply IH].
  apply cut_in_bin in E as [Hl _]. contradiction.
Qed.

Lemma categories_lookup (label : string) :
  (list_to_map (map (fun c => (c, O)) duration_bin_labels) : gmap string nat) !! label
  = if existsb (String.eqb label) duration_bin_labels then Some O else None.
Proof.
  unfold duration_bin_labels. cbn [map list_to_map foldr existsb uncurry fst snd].
  rewrite !lookup_insert, lookup_empty.
  repeat (case_decide; [subst; cbn; reflexivity|]).
  repeat match goal with
  | H : ?a <> label |- _ =>
      destruct (String.eqb_spec label a) as [Heq|_]; [congruence|]; clear H
  end.
  reflexivity.
Qed.

Lemma duration_counts_value (data : DataFrame) (col : list cell) (mins : list Z) :
  Pd.column "Duration" data = ok col ->
  map_result duration_minutes_cell col = ok mins ->
  exists counts,
    duration_counts data = ok counts
    /\ (forall label, In label duration_bin_labels ->
          counts !! label = Some (length (List.filter (in_bin label) mins)))
    /\ (forall label, ~ In label duration_bin_labels -> counts !! label = None).
Proof.
  intros Hcol Hmins. unfold duration_counts. rewrite Hcol. cbv [ok bind].
  cbv [ok] in Hmins. rewrite Hmins.
  exists (Pd.value_counts_categorical duration_bin_labels
            (map (Pd.cut duration_bins duration_bin_labels) mins)).
  split; [reflexivity|].
  unfold Pd.value_counts_categorical. split.
  - intros label Hin. rewrite counts_lookup, categories_lookup.
    assert (existsb (String.eqb label) duration_bin_labels = true) as ->.
    { apply existsb_exists. exists label. split; [exact Hin | apply String.eqb_refl]. }
    rewrite occurrences_cut by exact Hin.
    destruct (length _); reflexivity.
  - intros label Hout. rewrite counts_lookup, categories_lookup.
    assert (existsb (String.eqb label) duration_bin_labels = false) as ->.
    { destruct (existsb _ _) eqn:E; [|reflexivity].
      apply existsb_exists in E as (x & Hx & Heq). apply String.eqb_eq in Heq. subst x.
      contradiction. }
    rewrite occurrences_cut_outside by exact Hout. reflexivity.
Qed.

Lemma bins_partition (mins : list Z) :
  Forall (fun m => 0 <= m) mins ->
  (length (List.filter (in_bin "0-30分钟") mins)
   + length (List.filter (in_bin "30-60分钟") mins)
   + length (List.filter (in_bin "60-120分钟") mins)
   + length (List.filter (in_bin "120分钟以上") mins))%nat
  = length mins.
Proof.
  induction 1 as [|m mins Hm _ IH]; [reflexivity|].
  cbn [List.filter]. destruct (in_bin_values m) as (-> & -> & -> & ->).
  revert Hm. bin_cases m; intros Hm; cbn [length]; lia.
Qed.

Lemma column_length c data col :
  Pd.column c data = ok col -> length col = length (rows data).
Proof.
  unfold Pd.column. destruct (Pd.position c (columns data)); [|discriminate].
  intros [= <-]. apply length_map.
Qed.

Lemma duration_minutes_calc (s e : datetime) :
  duration_minutes (fst (calculate_duration s e))
  = ok ((DT.timestamp e - DT.timestamp s) / 60000000).
Proof. rewrite label_value, duration_minutes_label, hours_minutes_floor. reflexivity. Qed.


(** A label with a negative hour count, as the older copy can persist it,
    parses to a negative number of minutes and falls in no bucket. *)
Example negative_minutes_uncounted :
  duration_minutes "-2小时30分钟" = ok (-90)
  /\ Pd.cut duration_bins duration_bin_labels (-90) = None
  /\ (forall m, m < 0 -> Pd.cut duration_bins duration_bin_labels m = None).
Proof. repeat split. intros m Hm. apply cut_none, Hm. Qed.


(** * The location chart *)

Lemma split_go_plain a p s :
  all_chars (differs a) s = true -> Py.split_go (String a p) 0 s = (s, []).
Proof.
  intros H. pose proof (split_go_app a p s EmptyString H) as E.
  rewrite append_empty_r in E. rewrite E. cbn [Py.split_go]. rewrite append_empty_r.
  reflexivity.
Qed.

(** Labels without a comma, joined with [', '], split back into the same
    labels. *)
Lemma split_join (parts : list string) :
  parts <> [] -> Forall (fun s => all_chars (differs ",") s = true) parts ->
  Py.split ", " (Py.join ", " parts) = ok parts.
Proof.
  intros Hne Hall. unfold Py.split.
  assert (H : Py.split_go ", " 0 (Py.join ", " parts)
              = (hd EmptyString parts, tl parts)).
  { clear Hne. induction Hall as [|p ps Hp Hps IH]; [reflexivity|].
    destruct ps as [|q ps].
    - cbn [Py.join hd tl]. apply (split_go_plain "," " " p Hp).
    - change (Py.join ", " (p :: q :: ps)) with (p +:+ ", " +:+ Py.join ", " (q :: ps)).
      rewrite (split_go_app "," " " p) by exact Hp.
      rewrite (split_go_sep "," " "), IH. cbn [hd tl]. rewrite append_empty_r. reflexivity. }
  rewrite H. destruct parts; [congruence | reflexivity].
Qed.

Lemma location_counts_value (data : DataFrame) (col : list cell)
    (lists : list (list string)) :
  Pd.column "Location" data = ok col ->
  map_result split_location col = ok lists ->
  location_counts data = ok (Pd.value_counts (List.concat lists)).
Proof.
  intros Hcol Hl. unfold location_counts. rewrite Hcol. cbv [ok bind].
  cbv [ok] in Hl. rewrite Hl. reflexivity.
Qed.

(** C7. The location chart splits the Location field of every record on the
    separator [', '] and counts one occurrence per resulting label: the count
    of a label is the sum, over the records, of the number of times the
    label occurs in the split field.  A record with Location [左侧, 右侧]
    adds one to [左侧] and one to [右侧] and nothing to a combined bucket;
    a record that lists [k] different labels adds one to each of [k]
    buckets. *)
Theorem location_explode_report (data : DataFrame) (col : list cell)
    (lists : list (list string)) :
  Pd.column "Location" data = ok col ->
  map_result split_location col = ok lists ->
  (exists counts,
     location_counts data = ok counts
     /\ forall label, count_of counts label = sum_nat (map (occurrences label) lists))
  /\ (split_location (CStr "左侧, 右侧") = ok ["左侧"; "右侧"]%string
      /\ occurrences "左侧" ["左侧"; "右侧"]%string = 1%nat
      /\ occurrences "右侧" ["左侧"; "右侧"]%string = 1%nat
      /\ occurrences "左侧, 右侧" ["左侧"; "右侧"]%string = 0%nat)
  /\ (forall labels : list string,
        labels <> [] -> NoDup labels ->
        Forall (fun s => all_chars (differs ",") s = true) labels ->
        split_location (CStr (Py.join ", " labels)) = ok labels
        /\ forall label, label ∈ labels -> occurrences label labels = 1%nat).
Proof.
  intros Hcol Hl. split; [|split].
  - exists (Pd.value_counts (List.concat lists)). split.
    + apply location_counts_value with col; assumption.
    + intros label. unfold count_of. rewrite value_counts_lookup, <- occurrences_concat.
      destruct (occurrences label (List.concat lists)); reflexivity.
  - repeat split.
  - intros labels Hne Hnd Hall. split.
    + apply split_join; assumption.
    + intros label Hin. apply occurrences_NoDup; assumption.
Qed.

Lemma location_explode_report_witness :
  exists counts,
    location_counts two_sided_data = ok counts
    /\ count_of counts "左侧" = 2%nat /\ count_of counts "右侧" = 1%nat
    /\ count_of counts "左侧, 右侧" = 0%nat
    /\ split_location (CStr (Py.join ", " ["左侧"; "右侧"; "双侧"]%string))
       = ok ["左侧"; "右侧"; "双侧"]%string.
Proof.
  destruct (location_explode_report two_sided_data
              [CStr "左侧, 右侧"; CStr "左侧"] [["左侧"; "右侧"]; ["左侧"]]%string
              eq_refl eq_refl) as ((counts & Hc & Hn) & _ & Hk).
  exists counts. split; [exact Hc|]. rewrite !Hn.
  split; [reflexivity|]. split; [reflexivity|]. split; [reflexivity|].
  apply (Hk ["左侧"; "右侧"; "双侧"]%string).
  - discriminate.
  - repeat constructor; rewrite ?elem_of_cons, ?elem_of_nil; intros H;
      repeat (destruct H as [H | H]); try discriminate; try contradiction.
  - repeat constructor.
Defined.

(** * The severity chart *)

Lemma position_spec c cols k :
  Pd.position c cols = Some k -> cols !! k = Some c.
Proof.
  revert k; induction cols as [|c' cols IH]; intros k; cbn [Pd.position]; [discriminate|].
  destruct (String.eqb_spec c c') as [->|_].
  - intros [= <-]. reflexivity.
  - destruct (Pd.position c cols) as [k'|]; cbn; [|discriminate].
    intros [= <-]. cbn. apply IH. reflexivity.
Qed.

Lemma nth_set_nth_eq {A} (k : nat) (a d : A) (l : list A) :
  (k < length l)%nat -> nth k (Pd.set_nth k a l) d = a.
Proof.
  revert k; induction l as [|x l IH]; intros [|k] H; cbn in *; try lia; [reflexivity|].
  apply IH. lia.
Qed.

Lemma nth_set_nth_ne {A} (k j : nat) (a d : A) (l : list A) :
  k <> j -> nth j (Pd.set_nth k a l) d = nth j l d.
Proof.
  revert k j; induction l as [|x l IH]; intros [|k] [|j] H; cbn; try reflexivity; try lia.
  apply IH. lia.
Qed.

Lemma at_column_set_same cols row c k v :
  Pd.position c cols = Some k -> length row = length cols ->
  Pd.at_column cols (Pd.set_nth k v row) c = v.
Proof.
  intros Hk Hlen. unfold Pd.at_column. rewrite Hk. apply nth_set_nth_eq.
  apply position_spec, lookup_lt_Some in Hk. lia.
Qed.

Lemma at_column_set_other cols row c c' k v :
  Pd.position c cols = Some k -> c' <> c ->
  Pd.at_column cols (Pd.set_nth k v row) c' = Pd.at_column cols row c'.
Proof.
  intros Hk Hne. unfold Pd.at_column.
  destruct (Pd.position c' cols) as [k'|] eqn:Hk'; [|reflexivity].
  apply nth_set_nth_ne. intros ->.
  apply position_spec in Hk, Hk'. congruence.
Qed.

Lemma convert_dates_rows (data data' : DataFrame) :
  well_formed data -> convert_dates data = ok data' ->
  columns data' = columns data
  /\ Forall2 (fun row row' =>
                exists date, Pd.to_datetime (Pd.at_column (columns data) row "Date") = ok date
                  /\ Pd.at_column (columns data) row' "Date" = date
                  /\ forall c, c <> "Date"%string ->
                       Pd.at_column (columns data) row' c = Pd.at_column (columns data) row c)
             (rows data) (rows data').
Proof.
  intros [_ Hwf]. unfold convert_dates, Pd.column, Pd.set_column.
  destruct (Pd.position "Date" (columns data)) as [k|] eqn:Hk; [|discriminate].
  cbv [ok bind].
  destruct (map_result Pd.to_datetime _) as [e|stamps] eqn:Hs; [discriminate|].
  intros [= <-]. cbn [columns rows]. split; [reflexivity|].
  apply map_result_Forall2 in Hs.
  revert Hwf Hs. generalize (rows data). intros rs Hwf Hs.
  revert stamps Hs. induction Hwf as [|row rs Hrow _ IH]; intros stamps Hs.
  - inversion Hs; subst. constructor.
  - cbn [map] in Hs. inversion Hs as [|? s ? stamps' Hs1 Hs2]; subst.
    cbn [zip zip_with map fst snd]. constructor; [|apply IH, Hs2].
    exists s. split; [|split].
    + unfold Pd.at_column. rewrite Hk. exact Hs1.
    + apply at_column_set_same; assumption.
    + intros c Hc. eapply at_column_set_other; eassumption.
Qed.

(** C9, as the code has it.  In both files the severity chart gets one
    point per record, in the order of the record set: the point of the
    record at position [i] is that record's own date (as a timestamp) and its
    own severity.  The script does not sort, group or aggregate. *)
Theorem severity_chart_in_record_order (data : DataFrame) (points : list (cell * cell)) :
  well_formed data ->
  App.charts SeverityOverTime data = Rendered (App.SeverityChart points)
  \/ AppCopy.severity_over_time data = Rendered points ->
  length points = length (rows data)
  /\ forall (i : nat) (row : list cell),
       rows data !! i = Some row ->
       exists date,
         Pd.to_datetime (Pd.at_column (columns data) row "Date") = ok date
         /\ points !! i = Some (date, Pd.at_column (columns data) row "Severity").
Proof.
  intros Hwf Hcharts.
  assert (exists data', convert_dates data = ok data' /\ points = severity_chart data')
    as (data' & Hc & ->).
  { unfold App.charts, AppCopy.severity_over_time in Hcharts.
    destruct (Pd.empty data); [destruct Hcharts; discriminate|].
    destruct (convert_dates data) as [e|data'] eqn:Hc; [destruct Hcharts; discriminate|].
    exists data'. split; [reflexivity|]. destruct Hcharts as [[= <-] | [= <-]]; reflexivity. }
  destruct (convert_dates_rows data data' Hwf Hc) as [Hcols Hrows].
  unfold severity_chart. rewrite Hcols. split.
  - rewrite length_map. symmetry. eapply Forall2_length, Hrows.
  - intros i row Hi.
    destruct (Forall2_lookup_l _ _ _ _ _ Hrows Hi) as (row' & Hi' & date & Hd & Hd' & Ho).
    exists date. split; [exact Hd|].
    rewrite list_lookup_fmap, Hi'. cbn. rewrite Hd', Ho by discriminate. reflexivity.
Qed.

Lemma sample_data_well_formed : well_formed sample_data.
Proof. split; [reflexivity | repeat constructor]. Qed.

Lemma severity_chart_in_record_order_witness :
  sample_points !! 1%nat
  = Some (CTimestamp (Datetime (Date 2024 1 5) (Time 0 0 0 0)), CInt 4).
Proof.
  destruct (severity_chart_in_record_order sample_data sample_points
              sample_data_well_formed (or_introl eq_refl)) as [_ H].
  destruct (H 1%nat _ eq_refl) as (date & Hd & Hp).
  vm_compute in Hd. injection Hd as <-. exact Hp.
Defined.

(** The sentence of the specification fails as written: for two records entered in the order
    2024-01-12, 2024-01-05 the chart gets the points in that order, which is
    not the order of the dates. *)
Lemma severity_chart_not_in_date_order :
  App.charts SeverityOverTime sample_data = Rendered (App.SeverityChart sample_points)
  /\ in_date_order sample_points = false.
Proof. split; reflexivity. Qed.

(** * Tokenizing what the writer wrote *)

Lemma run_app t a b : Pd.run t (a +:+ b) = Pd.run (Pd.run t a) b.
Proof.
  revert t; induction a as [|c a IH]; intros t; [reflexivity|].
  rewrite append_cons. cbn [Pd.run]. apply IH.
Qed.

Lemma plain_spec c :
  plain c = true ->
  Ascii.eqb c Pd.lf = false /\ Ascii.eqb c Pd.cr = false
  /\ Ascii.eqb c Pd.dquote = false /\ Ascii.eqb c Pd.comma = false.
Proof.
  unfold plain, Pd.special. rewrite andb_true_iff, !negb_true_iff, !orb_false_iff. tauto.
Qed.

Lemma step_in_field_plain fld row rows c :
  plain c = true ->
  Pd.step_in_field (Pd.Tok Pd.InField fld row rows) c
  = Pd.Tok Pd.InField (fld +:+ String c EmptyString) row rows.
Proof.
  intros (H1 & H2 & _ & H4)%plain_spec. unfold Pd.step_in_field. rewrite H1, H2, H4.
  reflexivity.
Qed.

Lemma append_snoc (a : string) c (b : string) :
  (a +:+ String c EmptyString) +:+ b = a +:+ String c b.
Proof. rewrite append_assoc. reflexivity. Qed.

(** Plain bytes inside a field are pushed one after the other. *)
Lemma run_in_field fld row rows s :
  all_chars plain s = true ->
  Pd.run (Pd.Tok Pd.InField fld row rows) s = Pd.Tok Pd.InField (fld +:+ s) row rows.
Proof.
  revert fld; induction s as [|c s IH]; intros fld H.
  - rewrite append_empty_r. reflexivity.
  - cbn [all_chars] in H. apply andb_prop in H as [Hc Hs].
    cbn [Pd.run Pd.step Pd.t_mode]. rewrite step_in_field_plain by exact Hc.
    rewrite IH by exact Hs. rewrite append_snoc. reflexivity.
Qed.

(** A line that starts with blanks: they wait in the field until another
    byte shows that the line is not blank. *)
Lemma run_whitespace_line w rows s d :
  all_chars plain s = true -> d = Pd.comma ->
  w <> EmptyString ->
  Pd.run (Pd.Tok Pd.WhitespaceLine w [] rows) (s +:+ String d EmptyString)
  = Pd.Tok Pd.StartField EmptyString [w +:+ s] rows.
Proof.
  intros Hs -> Hw. revert w Hw; induction s as [|c s IH]; intros w Hw.
  - rewrite append_empty_r. reflexivity.
  - cbn [all_chars] in Hs. apply andb_prop in Hs as [Hc Hs].
    rewrite append_cons. cbn [Pd.run]. 
    assert (Hstep : Pd.step (Pd.Tok Pd.WhitespaceLine w [] rows) c
                    = Pd.Tok (if blank c then Pd.WhitespaceLine else Pd.InField)
                             (w +:+ String c EmptyString) [] rows).
    { pose proof (plain_spec c Hc) as (H1 & H2 & _ & H4).
      cbn [Pd.step Pd.t_mode]. rewrite H1, H2. unfold blank.
      destruct (Ascii.eqb c Pd.space || Ascii.eqb c Pd.tab); [reflexivity|].
      unfold Pd.step_in_field. rewrite H1, H2, H4. reflexivity. }
    rewrite Hstep. destruct (blank c).
    + rewrite (IH Hs) by (destruct w; discriminate). rewrite append_snoc. reflexivity.
    + rewrite run_app, run_in_field by exact Hs. rewrite append_snoc. reflexivity.
Qed.

(** Inside quotes every byte is pushed; a doubled quote stands for one. *)
Lemma run_in_quoted fld row rows s :
  Pd.run (Pd.Tok Pd.InQuotedField fld row rows) (Pd.double_quotes s)
  = Pd.Tok Pd.InQuotedField (fld +:+ s) row rows.
Proof.
  revert fld; induction s as [|c s IH]; intros fld.
  - rewrite append_empty_r. reflexivity.
  - cbn [Pd.double_quotes]. destruct (Ascii.eqb_spec c Pd.dquote) as [->|Hc].
    + cbn [Pd.run]. change (Pd.step (Pd.step (Pd.Tok Pd.InQuotedField fld row rows) Pd.dquote) Pd.dquote)
        with (Pd.Tok Pd.InQuotedField (fld +:+ String Pd.dquote EmptyString) row rows).
      rewrite IH, append_snoc. reflexivity.
    + cbn [Pd.run Pd.step Pd.t_mode].
      apply Ascii.eqb_neq in Hc. rewrite Hc.
      change (Pd.push c (Pd.Tok Pd.InQuotedField fld row rows))
        with (Pd.Tok Pd.InQuotedField (fld +:+ String c EmptyString) row rows).
      rewrite IH, append_snoc. reflexivity.
Qed.

Lemma needs_quote_plain s :
  Pd.needs_quote s = false -> no_cr s = true -> all_chars plain s = true.
Proof.
  unfold no_cr. induction s as [|c s IH]; [reflexivity|].
  cbn [Pd.needs_quote all_chars]. intros [H1 H2]%orb_false_iff [H3 H4]%andb_prop.
  unfold plain at 1. rewrite H1, H3, (IH H2 H4). reflexivity.
Qed.

Lemma run_quoted_field (m : Pd.mode) d f row rows :
  m = Pd.StartField \/ m = Pd.StartRecord ->
  d = Pd.comma \/ d = Pd.lf ->
  Pd.run (Pd.Tok m EmptyString row rows)
         (String Pd.dquote (Pd.double_quotes f +:+ String Pd.dquote EmptyString)
          +:+ String d EmptyString)
  = after_field d f row rows.
Proof.
  intros Hm Hd. rewrite append_cons. cbn [Pd.run].
  assert (Pd.step (Pd.Tok m EmptyString row rows) Pd.dquote
          = Pd.Tok Pd.InQuotedField EmptyString row rows) as ->
    by (destruct Hm as [-> | ->]; reflexivity).
  rewrite !run_app, run_in_quoted.
  destruct Hd as [-> | ->]; reflexivity.
Qed.

Lemma run_plain_field_inner d f row rows :
  all_chars plain f = true -> d = Pd.comma \/ d = Pd.lf ->
  Pd.run (Pd.Tok Pd.StartField EmptyString row rows) (f +:+ String d EmptyString)
  = after_field d f row rows.
Proof.
  intros Hf Hd. destruct f as [|c f].
  - destruct Hd as [-> | ->]; reflexivity.
  - cbn [all_chars] in Hf. apply andb_prop in Hf as [Hc Hf].
    rewrite append_cons. cbn [Pd.run].
    assert (Pd.step (Pd.Tok Pd.StartField EmptyString row rows) c
            = Pd.Tok Pd.InField (String c EmptyString) row rows) as ->.
    { pose proof (plain_spec c Hc) as (H1 & H2 & H3 & H4).
      cbn [Pd.step Pd.t_mode]. unfold Pd.step_start_field. rewrite H1, H2, H3, H4.
      reflexivity. }
    rewrite run_app, run_in_field by exact Hf.
    destruct Hd as [-> | ->]; reflexivity.
Qed.

Lemma run_plain_field_first f rows :
  all_chars plain f = true ->
  Pd.run (Pd.Tok Pd.StartRecord EmptyString [] rows) (f +:+ String Pd.comma EmptyString)
  = after_field Pd.comma f [] rows.
Proof.
  intros Hf. destruct f as [|c f]; [reflexivity|].
  pose proof Hf as Hf'. cbn [all_chars] in Hf. apply andb_prop in Hf as [Hc Hf].
  rewrite append_cons. cbn [Pd.run].
  pose proof (plain_spec c Hc) as (H1 & H2 & H3 & H4).
  destruct (blank c) eqn:Hb.
  - assert (Pd.step (Pd.Tok Pd.StartRecord EmptyString [] rows) c
            = Pd.Tok Pd.WhitespaceLine (String c EmptyString) [] rows) as ->.
    { cbn [Pd.step Pd.t_mode]. unfold Pd.step_start_record. rewrite H1, H2.
      unfold blank in Hb. rewrite Hb. reflexivity. }
    rewrite run_whitespace_line by (try reflexivity; try discriminate; exact Hf).
    reflexivity.
  - assert (Pd.step (Pd.Tok Pd.StartRecord EmptyString [] rows) c
            = Pd.Tok Pd.InField (String c EmptyString) [] rows) as ->.
    { cbn [Pd.step Pd.t_mode]. unfold Pd.step_start_record. rewrite H1, H2.
      unfold blank in Hb. rewrite Hb. unfold Pd.step_start_field.
      rewrite H1, H2, H3, H4. reflexivity. }
    rewrite run_app, run_in_field by exact Hf. reflexivity.
Qed.

(** A field as the writer puts it, followed by a comma or a line feed. *)
Lemma run_field d f row rows :
  no_cr f = true -> d = Pd.comma \/ d = Pd.lf ->
  Pd.run (Pd.Tok Pd.StartField EmptyString row rows)
         (Pd.quote_field f +:+ String d EmptyString)
  = after_field d f row rows.
Proof.
  intros Hf Hd. unfold Pd.quote_field. destruct (Pd.needs_quote f) eqn:E.
  - apply run_quoted_field; auto.
  - apply run_plain_field_inner; [apply needs_quote_plain|]; assumption.
Qed.

Lemma run_first_field f rows :
  no_cr f = true ->
  Pd.run (Pd.Tok Pd.StartRecord EmptyString [] rows)
         (Pd.quote_field f +:+ String Pd.comma EmptyString)
  = after_field Pd.comma f [] rows.
Proof.
  intros Hf. unfold Pd.quote_field. destruct (Pd.needs_quote f) eqn:E.
  - apply run_quoted_field; auto.
  - apply run_plain_field_first, needs_quote_plain; assumption.
Qed.

(** The fields after the first one, up to the end of the record. *)
Lemma run_rest_of_record f fs row rows :
  Forall (fun f => no_cr f = true) (f :: fs) ->
  Pd.run (Pd.Tok Pd.StartField EmptyString row rows)
         (Py.join (String Pd.comma EmptyString) (map Pd.quote_field (f :: fs))
          +:+ String Pd.lf EmptyString)
  = Pd.Tok Pd.StartRecord EmptyString [] (rows ++ [row ++ f :: fs]).
Proof.
  revert f row; induction fs as [|g fs IH]; intros f row H.
  - apply Forall_cons in H as [Hf _]. cbn [map Py.join].
    rewrite run_field by auto. reflexivity.
  - apply Forall_cons in H as [Hf H].
    change (Py.join (String Pd.comma EmptyString) (map Pd.quote_field (f :: g :: fs)))
      with (Pd.quote_field f +:+ String Pd.comma EmptyString
            +:+ Py.join (String Pd.comma EmptyString) (map Pd.quote_field (g :: fs))).
    set (rest := Py.join (String Pd.comma EmptyString) (map Pd.quote_field (g :: fs))) in *.
    assert ((Pd.quote_field f +:+ String Pd.comma EmptyString +:+ rest)
             +:+ String Pd.lf EmptyString
            = (Pd.quote_field f +:+ String Pd.comma EmptyString)
              +:+ (rest +:+ String Pd.lf EmptyString)) as ->
      by (rewrite !append_assoc; reflexivity).
    rewrite run_app, run_field by auto.
    change (after_field Pd.comma f row rows)
      with (Pd.Tok Pd.StartField EmptyString (row ++ [f]) rows).
    unfold rest. rewrite (IH g (row ++ [f]) H), <- app_assoc. reflexivity.
Qed.

Lemma write_row_wide f g fs :
  Pd.write_row (f :: g :: fs)
  = (Pd.quote_field f +:+ String Pd.comma EmptyString)
    +:+ (Py.join (String Pd.comma EmptyString) (map Pd.quote_field (g :: fs))
         +:+ String Pd.lf EmptyString).
Proof.
  unfold Pd.write_row.
  change (Py.join (String Pd.comma EmptyString) (map Pd.quote_field (f :: g :: fs)))
    with (Pd.quote_field f +:+ String Pd.comma EmptyString
          +:+ Py.join (String Pd.comma EmptyString) (map Pd.quote_field (g :: fs))).
  destruct f; rewrite !append_assoc; reflexivity.
Qed.

(** One record of the writer is one record of the reader. *)
Lemma run_record fields rows :
  clean_record fields ->
  Pd.run (Pd.Tok Pd.StartRecord EmptyString [] rows) (Pd.write_row fields)
  = Pd.Tok Pd.StartRecord EmptyString [] (rows ++ [fields]).
Proof.
  intros [Hlen Hcr]. destruct fields as [|f [|g fs]]; cbn [length] in Hlen; try lia.
  apply Forall_cons in Hcr as [Hf Hcr].
  rewrite write_row_wide, run_app, run_first_field by exact Hf.
  change (after_field Pd.comma f [] rows) with (Pd.Tok Pd.StartField EmptyString [f] rows).
  rewrite run_rest_of_record by exact Hcr. reflexivity.
Qed.

Lemma concat_cons (x : string) (xs : list string) :
  String.concat EmptyString (x :: xs) = x +:+ String.concat EmptyString xs.
Proof.
  destruct xs as [|y xs]; [cbn; rewrite append_empty_r; reflexivity | reflexivity].
Qed.

Lemma run_records rows0 (records : list (list string)) :
  Forall clean_record records ->
  Pd.run (Pd.Tok Pd.StartRecord EmptyString [] rows0)
         (String.concat EmptyString (map Pd.write_row records))
  = Pd.Tok Pd.StartRecord EmptyString [] (rows0 ++ records).
Proof.
  intros H. revert rows0; induction H as [|r records Hr _ IH]; intros rows0.
  - rewrite app_nil_r. reflexivity.
  - cbn [map]. rewrite concat_cons, run_app, run_record by exact Hr.
    rewrite IH, <- app_assoc. reflexivity.
Qed.

Lemma skip_bom_bom s : Pd.skip_bom (Pd.bom +:+ s) = s.
Proof. unfold Pd.skip_bom. rewrite prefix_append. reflexivity. Qed.

(** The reader finds the records that the writer wrote. *)
Lemma tokenize_written (header : list string) (body : list (list string)) :
  clean_record header -> Forall clean_record body ->
  Pd.tokenize
    (Pd.skip_bom
       (Pd.bom +:+ Pd.write_row header
        +:+ String.concat EmptyString (map Pd.write_row body)))
  = ok (header :: body).
Proof.
  intros Hh Hb. rewrite skip_bom_bom. unfold Pd.tokenize.
  rewrite run_app, run_record by exact Hh.
  rewrite run_records by exact Hb. reflexivity.
Qed.

(** * Reading numbers back *)

Lemma Qred_whole (n : Z) : Qred (n # 1) = n # 1.
Proof.
  unfold Qred. pose proof (Z.ggcd_gcd n 1) as Hg.
  pose proof (Z.ggcd_correct_divisors n 1) as Hd.
  destruct (Z.ggcd n 1) as [g [a b]]. cbn [fst snd] in *.
  rewrite Z.gcd_1_r in Hg. subst g. destruct Hd as [Ha Hb].
  assert (a = n) as -> by lia. assert (b = 1) as -> by lia. reflexivity.
Qed.

Lemma take_digits_uint d acc n rest :
  starts_non_digit rest = true ->
  Pd.take_digits acc n (NilEmpty.string_of_uint d +:+ rest)
  = (uint_value d acc, (n + Decimal.nb_digits d)%nat, rest).
Proof.
  intros Hrest. revert acc n; induction d; intros acc n;
    cbn [NilEmpty.string_of_uint uint_value Decimal.nb_digits].
  1: { change (EmptyString +:+ rest) with rest. rewrite Nat.add_0_r.
       destruct rest as [|c rest]; [reflexivity|].
       cbn [Pd.take_digits]. cbn [starts_non_digit] in Hrest. unfold is_digit in Hrest.
       destruct (Py.digit_val c); [discriminate | reflexivity]. }
  all: rewrite append_cons; cbn [Pd.take_digits];
    change (Py.digit_val _) with (Some 0) || change (Py.digit_val _) with (Some 1)
    || change (Py.digit_val _) with (Some 2) || change (Py.digit_val _) with (Some 3)
    || change (Py.digit_val _) with (Some 4) || change (Py.digit_val _) with (Some 5)
    || change (Py.digit_val _) with (Some 6) || change (Py.digit_val _) with (Some 7)
    || change (Py.digit_val _) with (Some 8) || change (Py.digit_val _) with (Some 9);
    cbv iota; rewrite ?Z.add_0_r, IHd; f_equal; f_equal; lia.
Qed.

(** The shape of [str z]: an optional minus sign and a numeral for the
    absolute value. *)
Lemma str_shape (z : Z) :
  exists d,
    d <> Decimal.Nil /\ uint_value d 0 = Z.abs z
    /\ Py.str z = (if z <? 0 then "-" else EmptyString) +:+ NilEmpty.string_of_uint d.
Proof.
  destruct z as [|p|p].
  - exists (Decimal.D0 Decimal.Nil). repeat split. discriminate.
  - exists (Pos.to_uint p). split; [apply Unsigned.to_uint_nonnil|]. split.
    + rewrite uint_value_of_uint, Unsigned.of_to. reflexivity.
    + rewrite str_pos. reflexivity.
  - exists (Pos.to_uint p). split; [apply Unsigned.to_uint_nonnil|]. split.
    + rewrite uint_value_of_uint, Unsigned.of_to. reflexivity.
    + rewrite str_neg. reflexivity.
Qed.

Lemma numeral_head d :
  d <> Decimal.Nil ->
  exists c s, NilEmpty.string_of_uint d = String c s /\ is_digit c = true.
Proof. destruct d; [congruence | ..]; intros _; eexists _, _; split; reflexivity. Qed.

Lemma nb_digits_pos d : d <> Decimal.Nil -> (Decimal.nb_digits d =? 0)%nat = false.
Proof. destruct d; [congruence | ..]; reflexivity. Qed.

Lemma take_sign_digit c s : is_digit c = true -> Pd.take_sign (String c s) = (false, String c s).
Proof.
  destruct c as [[] [] [] [] [] [] [] []]; try discriminate; reflexivity.
Qed.

Lemma skip_spaces_digit c s : is_digit c = true -> Pd.skip_spaces (String c s) = String c s.
Proof.
  destruct c as [[] [] [] [] [] [] [] []]; try discriminate; reflexivity.
Qed.

Lemma skip_spaces_minus s : Pd.skip_spaces (String "-" s) = String "-" s.
Proof. reflexivity. Qed.

(** The scan of [str z] followed by [rest]: sign, value, number of digits. *)
Lemma scan_str (z : Z) (rest : string) :
  starts_non_digit rest = true ->
  exists n,
    (n =? 0)%nat = false
    /\ (let '(neg, s1) := Pd.take_sign (Pd.skip_spaces (Py.str z +:+ rest)) in
        (neg, Pd.take_digits 0 0 s1))
       = ((z <? 0), (Z.abs z, n, rest)).
Proof.
  intros Hrest. destruct (str_shape z) as (d & Hd & Hv & Hs).
  exists (Decimal.nb_digits d). split; [apply nb_digits_pos, Hd|].
  rewrite Hs. destruct (numeral_head d Hd) as (c & s & Hcs & Hc).
  destruct (z <? 0).
  - change (("-" +:+ NilEmpty.string_of_uint d) +:+ rest)
      with (String "-" (NilEmpty.string_of_uint d +:+ rest)).
    rewrite skip_spaces_minus. cbn [Pd.take_sign].
    rewrite take_digits_uint by exact Hrest. rewrite Hv. reflexivity.
  - change (EmptyString +:+ NilEmpty.string_of_uint d) with (NilEmpty.string_of_uint d).
    pose proof (take_digits_uint d 0 0 rest Hrest) as Ht.
    rewrite Hcs in *. rewrite append_cons in *.
    rewrite skip_spaces_digit, take_sign_digit by exact Hc.
    rewrite Ht, Hv. reflexivity.
Qed.

Lemma int_literal_str (z : Z) : Pd.int_literal (Py.str z) = Some z.
Proof.
  unfold Pd.int_literal. destruct (scan_str z EmptyString eq_refl) as (n & Hn & H).
  rewrite append_empty_r in H.
  destruct (Pd.take_sign (Pd.skip_spaces (Py.str z))) as [neg s1].
  injection H as -> ->. rewrite Hn. cbn [Pd.all_spaces]. f_equal.
  destruct (Z.ltb_spec z 0); lia.
Qed.

Lemma decimal_literal_float (n : Z) :
  Pd.decimal_literal (Py.str n +:+ ".0") = Some (10 * n, -1).
Proof.
  unfold Pd.decimal_literal. destruct (scan_str n ".0" eq_refl) as (k & Hk & H).
  destruct (Pd.take_sign (Pd.skip_spaces (Py.str n +:+ ".0"))) as [neg s1].
  injection H as -> ->. change (Ascii.eqb "." ".") with true. cbv iota.
  cbn [Pd.take_digits].
  change (Py.digit_val "0") with (Some 0). cbv iota beta.
  assert ((k + 1 =? 0)%nat = false) as -> by (apply Nat.eqb_neq; lia).
  cbn [Pd.all_spaces]. f_equal. f_equal.
  destruct (Z.ltb_spec n 0); lia.
Qed.

Lemma double_value_float (n : Z) :
  Z.abs n < 2 ^ 53 -> Pd.double_value (Py.str n +:+ ".0") = ok (n # 1).
Proof.
  intros Hn. unfold Pd.double_value. rewrite decimal_literal_float.
  change (0 <=? -1) with false. cbv iota.
  change (Z.to_pos (10 ^ (- -1))) with 10%positive.
  assert (Qred ((10 * n) # 10) = n # 1) as ->.
  { rewrite <- Qred_whole. apply Qred_complete. unfold Qeq; simpl. lia. }
  cbn [Qden Qnum]. apply Z.ltb_lt in Hn. rewrite Hn. reflexivity.
Qed.

Lemma is_int_float (n : Z) : Pd.is_int (Py.str n +:+ ".0") = false.
Proof.
  unfold Pd.is_int, Pd.int_literal. destruct (scan_str n ".0" eq_refl) as (k & Hk & H).
  destruct (Pd.take_sign (Pd.skip_spaces (Py.str n +:+ ".0"))) as [neg s1].
  injection H as -> ->. rewrite Hk. apply andb_false_r.
Qed.

Lemma all_chars_app P a b :
  all_chars P (a +:+ b) = all_chars P a && all_chars P b.
Proof.
  induction a as [|c a IH]; [reflexivity|].
  rewrite append_cons. cbn [all_chars]. rewrite IH, andb_assoc. reflexivity.
Qed.

(** No numeral is one of the texts read as a missing value. *)
Lemma is_na_numeral s :
  s <> EmptyString -> all_chars is_float_char s = true -> Pd.is_na s = false.
Proof.
  intros Hne Hall. apply not_true_is_false. intros H.
  apply existsb_exists in H as (v & Hin & Heq). apply String.eqb_eq in Heq. subst v.
  unfold Pd.na_values in Hin. cbn [In] in Hin.
  repeat (destruct Hin as [<- | Hin]; [first [congruence | vm_compute in Hall; discriminate]|]).
  exact Hin.
Qed.

Lemma str_nonempty z : Py.str z <> EmptyString.
Proof.
  destruct (str_shape z) as (d & Hd & _ & ->).
  destruct (numeral_head d Hd) as (c & s & -> & _). destruct (z <? 0); discriminate.
Qed.

Lemma is_na_str z : Pd.is_na (Py.str z) = false.
Proof.
  apply is_na_numeral; [apply str_nonempty|].
  eapply all_chars_impl; [|apply str_numeral].
  intros c Hc. unfold is_float_char. rewrite Hc. reflexivity.
Qed.

Lemma is_na_float (n : Z) : Pd.is_na (Py.str n +:+ ".0") = false.
Proof.
  apply is_na_numeral.
  - pose proof (str_nonempty n). destruct (Py.str n); [congruence | discriminate].
  - rewrite all_chars_app. apply andb_true_intro. split; [|reflexivity].
    eapply all_chars_impl; [|apply str_numeral].
    intros c Hc. unfold is_float_char. rewrite Hc. reflexivity.
Qed.

Lemma is_int_str z : Pd.is_int (Py.str z) = true.
Proof. unfold Pd.is_int. rewrite is_na_str, int_literal_str. reflexivity. Qed.

Lemma space_not_in_number c :
  Pd.is_space_ascii c = true ->
  Ascii.eqb c "." = false /\ Ascii.eqb (Pd.lower c) "e" = false.
Proof.
  destruct c as [[] [] [] [] [] [] [] []]; try discriminate; split; reflexivity.
Qed.

(** What the reader takes for an integer it also takes for a float. *)
Lemma int_is_double s z : Pd.int_literal s = Some z -> Pd.is_double s = true.
Proof.
  unfold Pd.int_literal, Pd.is_double, Pd.decimal_literal.
  destruct (Pd.take_sign (Pd.skip_spaces s)) as [neg s1].
  destruct (Pd.take_digits 0 0 s1) as [[v n] rest].
  destruct (n =? 0)%nat eqn:Hn; [discriminate|].
  destruct (Pd.all_spaces rest) eqn:Hr; [|discriminate]. intros _.
  apply orb_true_intro. right.
  destruct rest as [|c rest].
  - rewrite Nat.add_0_r, Hn. reflexivity.
  - pose proof Hr as Hr'. cbn [Pd.all_spaces] in Hr'. apply andb_prop in Hr' as [Hc _].
    destruct (space_not_in_number c Hc) as [-> ->].
    rewrite Nat.add_0_r, Hn, Hr. reflexivity.
Qed.
(** * Columns that survive the file *)

Lemma float_repr_whole_text (n : Z) :
  Z.abs n < 2 ^ 53 -> Pd.float_repr (n # 1) = ok (Py.str n +:+ ".0").
Proof.
  intros Hn. unfold Pd.float_repr. rewrite Qred_whole. cbn [Qden Qnum].
  apply Z.ltb_lt in Hn. rewrite Hn. reflexivity.
Qed.

Lemma forallb_witness {A} (f : A -> bool) (l : list A) (x : A) :
  In x l -> f x = false -> forallb f l = false.
Proof.
  intros Hin Hx. apply not_true_is_false. intros H.
  rewrite forallb_forall in H. rewrite (H x Hin) in Hx. discriminate.
Qed.

Lemma no_cr_numeral s : all_chars is_float_char s = true -> no_cr s = true.
Proof.
  unfold no_cr. apply all_chars_impl. intros c Hc.
  apply negb_true_iff, Ascii.eqb_neq. intros ->. discriminate.
Qed.

Lemma str_float_chars z : all_chars is_float_char (Py.str z) = true.
Proof.
  eapply all_chars_impl; [|apply str_numeral].
  intros c Hc. unfold is_float_char. rewrite Hc. reflexivity.
Qed.

Lemma int_column_converts cs c :
  Forall int_cell cs -> In c cs ->
  Pd.render c = ok (field_text c)
  /\ Pd.convert (Pd.infer_kind (map field_text cs)) (field_text c) = ok c
  /\ no_cr (field_text c) = true.
Proof.
  intros Hall Hin.
  assert (Hk : Pd.infer_kind (map field_text cs) = Pd.KInt).
  { unfold Pd.infer_kind.
    assert (forallb Pd.is_int (map field_text cs) = true) as ->; [|reflexivity].
    apply forallb_forall. intros f (x & <- & Hx)%in_map_iff.
    rewrite Forall_forall in Hall. destruct (Hall x) as (z & -> & _).
    { apply list_elem_of_In, Hx. }
    apply is_int_str. }
  rewrite Hk. rewrite Forall_forall in Hall.
  destruct (Hall c) as (z & -> & Hz); [apply list_elem_of_In, Hin|].
  split; [reflexivity|]. split.
  - change (field_text (CInt z)) with (Py.str z).
    cbn [Pd.convert]. rewrite int_literal_str.
    unfold int64 in Hz. rewrite Hz. reflexivity.
  - apply no_cr_numeral, str_float_chars.
Qed.

Lemma float_cell_facts c :
  float_cell c ->
  Pd.render c = ok (field_text c)
  /\ Pd.is_int (field_text c) = false
  /\ (Pd.is_na (field_text c) || Pd.is_double (field_text c)) = true
  /\ Pd.convert Pd.KFloat (field_text c) = ok c
  /\ no_cr (field_text c) = true.
Proof.
  intros [-> | (n & -> & Hn)].
  - repeat split.
  - assert (Ht : field_text (CFloat (n # 1)) = Py.str n +:+ ".0").
    { unfold field_text. cbn [Pd.render]. rewrite float_repr_whole_text by exact Hn.
      reflexivity. }
    rewrite Ht. split; [cbn [Pd.render]; apply float_repr_whole_text, Hn|].
    split; [apply is_int_float|]. split; [|split].
    + unfold Pd.is_double. rewrite decimal_literal_float, !orb_true_r. reflexivity.
    + cbn [Pd.convert]. rewrite is_na_float, double_value_float by exact Hn. reflexivity.
    + apply no_cr_numeral. rewrite all_chars_app, str_float_chars. reflexivity.
Qed.

Lemma float_column_converts cs c :
  Forall float_cell cs -> In c cs ->
  Pd.render c = ok (field_text c)
  /\ Pd.convert (Pd.infer_kind (map field_text cs)) (field_text c) = ok c
  /\ no_cr (field_text c) = true.
Proof.
  intros Hall Hin. rewrite Forall_forall in Hall.
  assert (Hc : forall x, In x cs -> float_cell x)
    by (intros x Hx; apply Hall, list_elem_of_In, Hx).
  assert (Hk : Pd.infer_kind (map field_text cs) = Pd.KFloat).
  { unfold Pd.infer_kind.
    rewrite (forallb_witness Pd.is_int _ (field_text c)).
    - assert (forallb (fun f => Pd.is_na f || Pd.is_double f) (map field_text cs) = true)
        as ->; [|reflexivity].
      apply forallb_forall. intros f (x & <- & Hx)%in_map_iff.
      apply (float_cell_facts x (Hc x Hx)).
    - apply in_map, Hin.
    - apply (float_cell_facts c (Hc c Hin)). }
  rewrite Hk. destruct (float_cell_facts c (Hc c Hin)) as (H1 & _ & _ & H4 & H5). auto.
Qed.

Lemma bool_cell_facts c :
  bool_cell c ->
  Pd.render c = ok (field_text c)
  /\ Pd.is_int (field_text c) = false
  /\ (Pd.is_na (field_text c) || Pd.is_double (field_text c)) = false
  /\ (negb (Pd.is_na (field_text c)) && Pd.is_bool (field_text c)) = true
  /\ Pd.convert Pd.KBool (field_text c) = ok c
  /\ no_cr (field_text c) = true.
Proof. intros [[] ->]; repeat split. Qed.

Lemma bool_column_converts cs c :
  Forall bool_cell cs -> In c cs ->
  Pd.render c = ok (field_text c)
  /\ Pd.convert (Pd.infer_kind (map field_text cs)) (field_text c) = ok c
  /\ no_cr (field_text c) = true.
Proof.
  intros Hall Hin. rewrite Forall_forall in Hall.
  assert (Hc : forall x, In x cs -> bool_cell x)
    by (intros x Hx; apply Hall, list_elem_of_In, Hx).
  assert (Hk : Pd.infer_kind (map field_text cs) = Pd.KBool).
  { unfold Pd.infer_kind.
    rewrite (forallb_witness Pd.is_int _ (field_text c));
      [|apply in_map, Hin | apply (bool_cell_facts c (Hc c Hin))].
    rewrite (forallb_witness (fun f => Pd.is_na f || Pd.is_double f) _ (field_text c));
      [|apply in_map, Hin | apply (bool_cell_facts c (Hc c Hin))].
    assert (forallb (fun f => negb (Pd.is_na f) && Pd.is_bool f) (map field_text cs) = true)
      as ->; [|reflexivity].
    apply forallb_forall. intros f (x & <- & Hx)%in_map_iff.
    apply (bool_cell_facts x (Hc x Hx)). }
  rewrite Hk. destruct (bool_cell_facts c (Hc c Hin)) as (H1 & _ & _ & _ & H5 & H6). auto.
Qed.

Lemma text_column_converts cs c :
  Forall text_cell cs -> Exists plain_text_cell cs -> In c cs ->
  Pd.render c = ok (field_text c)
  /\ Pd.convert (Pd.infer_kind (map field_text cs)) (field_text c) = ok c
  /\ no_cr (field_text c) = true.
Proof.
  intros Hall Hex Hin. rewrite Forall_forall in Hall.
  assert (Hc : forall x, In x cs -> text_cell x)
    by (intros x Hx; apply Hall, list_elem_of_In, Hx).
  apply Exists_exists in Hex as (w & Hw & s & -> & Hd & Hb).
  apply list_elem_of_In in Hw.
  assert (Hna : Pd.is_na s = false).
  { destruct (Hc _ Hw) as [? | (s' & [= <-] & H & _)]; [discriminate | exact H]. }
  assert (Hk : Pd.infer_kind (map field_text cs) = Pd.KObject).
  { unfold Pd.infer_kind.
    rewrite (forallb_witness Pd.is_int _ s); [|apply (in_map field_text _ _ Hw)|].
    2: { unfold Pd.is_int. destruct (Pd.int_literal s) as [z|] eqn:E; [|apply andb_false_r].
         apply int_is_double in E. congruence. }
    rewrite (forallb_witness (fun f => Pd.is_na f || Pd.is_double f) _ s);
      [|apply (in_map field_text _ _ Hw) | rewrite Hna, Hd; reflexivity].
    rewrite (forallb_witness (fun f => negb (Pd.is_na f) && Pd.is_bool f) _ s);
      [|apply (in_map field_text _ _ Hw) | rewrite Hb; apply andb_false_r].
    reflexivity. }
  rewrite Hk. destruct (Hc c Hin) as [-> | (s' & -> & Hs1 & Hs2)].
  - repeat split.
  - split; [reflexivity|]. split; [|exact Hs2].
    change (field_text (CStr s')) with s'.
    cbn [Pd.convert]. rewrite Hs1. reflexivity.
Qed.

(** Every cell of a stable column is written and read back unchanged. *)
Lemma column_converts cs c :
  stable_column cs -> In c cs ->
  Pd.render c = ok (field_text c)
  /\ Pd.convert (Pd.infer_kind (map field_text cs)) (field_text c) = ok c
  /\ no_cr (field_text c) = true.
Proof.
  intros [H | H | H | H H'] Hin.
  - apply int_column_converts; assumption.
  - apply float_column_converts; assumption.
  - apply bool_column_converts; assumption.
  - apply text_column_converts; assumption.
Qed.

(** * Saving and loading *)

Lemma map_result_map {A B} (f : A -> result B) (g : A -> B) (l : list A) :
  (forall x, In x l -> f x = ok (g x)) -> map_result f l = ok (map g l).
Proof.
  induction l as [|a l IH]; intros H; [reflexivity|].
  cbn [map_result map]. rewrite (H a) by (left; reflexivity).
  cbv [ok bind]. rewrite IH by (intros x Hx; apply H; right; exact Hx).
  reflexivity.
Qed.

Lemma header_names_id k header :
  Forall (fun name => name <> EmptyString) header -> Pd.header_names k header = header.
Proof.
  intros H. revert k; induction H as [|name header Hn _ IH]; intros k; [reflexivity|].
  cbn [Pd.header_names]. destruct name; [congruence|]. rewrite IH. reflexivity.
Qed.

Lemma pad_id width fs : length fs = width -> Pd.pad width fs = fs.
Proof.
  intros <-. unfold Pd.pad. rewrite Nat.sub_diag. cbn [List.repeat]. apply app_nil_r.
Qed.

Lemma convert_row_Forall2 ks row :
  Forall2 (fun k c => Pd.convert k (field_text c) = ok c) ks row ->
  Pd.convert_row ks (map field_text row) = ok row.
Proof.
  induction 1 as [|k c ks row Hc _ IH]; [reflexivity|].
  cbn [map Pd.convert_row]. rewrite Hc. cbv [ok bind]. cbv [ok] in IH. rewrite IH.
  reflexivity.
Qed.

Lemma nth_field_text k row :
  (k < length row)%nat ->
  nth k (map field_text row) EmptyString = field_text (nth k row NaN).
Proof.
  intros H. rewrite (nth_indep _ EmptyString (field_text NaN))
    by (rewrite length_map; exact H).
  apply map_nth.
Qed.

Section RoundTrip.

Variable df : DataFrame.
Hypothesis Hstable : stable df.

Let width : nat := length (columns df).
Let body : list (list string) := map (map field_text) (rows df).

Lemma stable_row_length row : In row (rows df) -> length row = width.
Proof.
  intros Hin. destruct Hstable as ((_ & Hw) & _). rewrite Forall_forall in Hw.
  apply Hw, list_elem_of_In, Hin.
Qed.

Lemma stable_cell row k :
  In row (rows df) -> (k < width)%nat ->
  let c := nth k row NaN in
  Pd.render c = ok (field_text c)
  /\ Pd.convert (Pd.infer_kind (map field_text (column_cells k df))) (field_text c) = ok c
  /\ no_cr (field_text c) = true.
Proof.
  intros Hin Hk c. destruct Hstable as (_ & _ & _ & _ & Hcols).
  apply column_converts; [apply Hcols, Hk|].
  unfold column_cells. apply in_map_iff. exists row. split; [reflexivity | exact Hin].
Qed.

Lemma stable_cell_in row c :
  In row (rows df) -> In c row ->
  Pd.render c = ok (field_text c) /\ no_cr (field_text c) = true.
Proof.
  intros Hrow Hc. apply In_nth with (d := NaN) in Hc as (k & Hk & <-).
  rewrite (stable_row_length row Hrow) in Hk.
  destruct (stable_cell row k Hrow Hk) as (H1 & _ & H3). auto.
Qed.

Lemma stable_rendered :
  map_result (map_result Pd.render) (rows df) = ok body.
Proof.
  apply map_result_map. intros row Hrow. apply map_result_map.
  intros c Hc. apply (stable_cell_in row c Hrow Hc).
Qed.

Lemma stable_body_clean : Forall clean_record body.
Proof.
  unfold body. apply Forall_map, Forall_forall. intros row Hrow%list_elem_of_In.
  destruct Hstable as (_ & (Hwide & _) & _). split.
  - rewrite length_map, (stable_row_length row Hrow). exact Hwide.
  - apply Forall_map, Forall_forall. intros c Hc%list_elem_of_In.
    apply (stable_cell_in row c Hrow Hc).
Qed.

Lemma stable_body_width : Forall (fun fs => length fs = width) body.
Proof.
  unfold body. apply Forall_map, Forall_forall. intros row Hrow%list_elem_of_In.
  cbn. rewrite length_map. apply stable_row_length, Hrow.
Qed.

Lemma stable_body_padded : map (Pd.pad width) body = body.
Proof.
  pose proof stable_body_width as H. induction H as [|fs l Hfs _ IH]; [reflexivity|].
  cbn [map]. rewrite pad_id by exact Hfs. rewrite IH. reflexivity.
Qed.

Lemma stable_body_not_long :
  existsb (fun fs => (width <? length fs)%nat) body = false.
Proof.
  apply not_true_is_false. intros (fs & Hin & Hlt)%existsb_exists.
  pose proof stable_body_width as H. rewrite Forall_forall in H.
  rewrite (H fs) in Hlt by (apply list_elem_of_In, Hin).
  apply Nat.ltb_lt in Hlt. lia.
Qed.

Lemma stable_body_no_index : Pd.implicit_index width body = false.
Proof.
  pose proof stable_body_width as H. unfold Pd.implicit_index.
  destruct H as [|fs l Hfs _]; [reflexivity|]. rewrite Hfs. apply Nat.ltb_irrefl.
Qed.

Lemma stable_column_fields k :
  (k < width)%nat ->
  map (fun fs => nth k fs EmptyString) body = map field_text (column_cells k df).
Proof.
  intros Hk. unfold body, column_cells. rewrite !map_map.
  apply map_ext_in. intros row Hrow. apply nth_field_text.
  rewrite (stable_row_length row Hrow). exact Hk.
Qed.

Lemma stable_rows_convert :
  let kinds := map (fun k => Pd.infer_kind (map (fun fs => nth k fs EmptyString) body))
                   (seq 0 width) in
  map_result (Pd.convert_row kinds) body = ok (rows df).
Proof.
  intros kinds.
  assert (H : forall row, In row (rows df) ->
                Pd.convert_row kinds (map field_text row) = ok row).
  { intros row Hrow. apply convert_row_Forall2.
    apply Forall2_same_length_lookup. split.
    - unfold kinds. rewrite length_map, length_seq. symmetry. apply stable_row_length, Hrow.
    - intros k kd c Hkd Hc. unfold kinds in Hkd.
      rewrite list_lookup_fmap in Hkd.
      assert (Hk : (k < width)%nat).
      { apply lookup_lt_Some in Hc. rewrite (stable_row_length row Hrow) in Hc. exact Hc. }
      rewrite lookup_seq_lt in Hkd by exact Hk. cbn in Hkd. injection Hkd as <-.
      rewrite stable_column_fields by exact Hk.
      destruct (stable_cell row k Hrow Hk) as (_ & H2 & _).
      rewrite (nth_lookup_Some _ _ NaN _ Hc) in H2. exact H2. }
  clearbody kinds. unfold body. revert H. generalize (rows df). clear.
  intros rs H. induction rs as [|row rs IH]; [reflexivity|].
  cbn [map map_result]. rewrite (H row) by (left; reflexivity).
  cbv [ok bind]. cbv [ok] in IH. rewrite IH by (intros r Hr; apply H; right; exact Hr).
  reflexivity.
Qed.

(** A stable record set is written to a file from which it is read back
    unchanged. *)
Lemma stable_round_trip :
  exists content, Pd.to_csv df = ok content /\ Pd.read_csv_bytes content = ok df.
Proof.
  exists (Pd.bom +:+ Pd.write_row (columns df)
          +:+ String.concat EmptyString (map Pd.write_row body)).
  split.
  - unfold Pd.to_csv. rewrite stable_rendered. reflexivity.
  - destruct Hstable as ((Hidx & _) & Hclean & Hnames & Hdup & _).
    unfold Pd.read_csv_bytes.
    rewrite (tokenize_written (columns df) body Hclean stable_body_clean).
    cbv [ok bind]. rewrite (header_names_id 0 _ Hnames), Hdup.
    fold width. rewrite stable_body_no_index, stable_body_not_long, stable_body_padded.
    pose proof stable_rows_convert as Hrows. cbv zeta in Hrows. cbv [ok] in Hrows.
    rewrite Hrows. unfold Pd.frame_of_rows. rewrite <- Hidx.
    destruct df; reflexivity.
Qed.

End RoundTrip.

Lemma app_load_saved (X : DataFrame) (content : string) :
  Pd.read_csv_bytes content = ok X -> App.load_data (Some content) = ok X.
Proof. intros H. unfold App.load_data, read_csv. rewrite H. reflexivity. Qed.

(** C4, as the code has it.  For every record set in the form in which the
    loader hands record sets out (default row labels, two columns at least
    with distinct non-empty names, and in every column either integers, or
    whole floats and missing values, or booleans, or texts and missing
    values where no text is read as missing, none holds a carriage return and
    one at least is neither a number nor a boolean for the reader), saving
    and then loading yields the record set back: schema, row order, cell
    values and text outside ASCII are preserved exactly. *)
Theorem save_load_round_trip (X : DataFrame) :
  stable X ->
  exists st, App.save_data X = ok st /\ App.load_data st = ok X.
Proof.
  intros H. destruct (stable_round_trip X H) as (content & Hw & Hr).
  exists (Some content). split.
  - unfold App.save_data. rewrite Hw. reflexivity.
  - apply app_load_saved, Hr.
Qed.

Ltac each_cell tac :=
  repeat first [apply List.Forall_nil | apply List.Forall_cons; [tac|]].

Ltac text_column :=
  apply TextColumn;
  [ each_cell ltac:(right; eexists; repeat split)
  | apply List.Exists_cons_hd; eexists; repeat split ].

Lemma sample_data_stable : stable sample_data.
Proof.
  split; [apply sample_data_well_formed|].
  split; [split; [cbn; lia | each_cell ltac:(exact eq_refl)]|].
  split; [each_cell ltac:(cbv beta; discriminate)|].
  split; [reflexivity|].
  intros k Hk. cbn in Hk.
  destruct k as [|[|[|[|[|[|[|[|k]]]]]]]]; try lia.
  - text_column.
  - text_column.
  - text_column.
  - text_column.
  - apply IntColumn. each_cell ltac:(eexists; repeat split).
  - text_column.
  - text_column.
  - apply FloatColumn.
    each_cell ltac:(right; eexists; (split; [reflexivity | cbn; lia])).
Qed.

Lemma save_load_round_trip_witness :
  exists st, App.save_data sample_data = ok st /\ App.load_data st = ok sample_data.
Proof. exact (save_load_round_trip sample_data sample_data_stable). Defined.

(** The sentence of the specification fails as written: a record with an empty remark is saved, and
    what is loaded holds a missing value in the place of the empty text. *)
Lemma empty_remark_not_preserved :
  exists st,
    App.save_data empty_remark_data = ok st
    /\ App.load_data st = ok empty_remark_reloaded
    /\ empty_remark_reloaded <> empty_remark_data.
Proof.
  eexists. split; [reflexivity|]. split; [reflexivity|]. discriminate.
Qed.

(** * The create form on a readable file *)

Lemma same_day_span (d : date) (s e : time) :
  DT.valid_time s = true -> DT.valid_time e = true ->
  let us := DT.timestamp (DT.combine d e) - DT.timestamp (DT.combine d s) in
  - 86400000000 < us < 86400000000.
Proof.
  intros Hs He. apply valid_time_bounds in Hs, He.
  unfold DT.timestamp, DT.combine; cbn [dt_date dt_time]. lia.
Qed.

Lemma same_day_order (d : date) (s e : time) :
  DT.valid_date d = true -> DT.valid_time s = true -> DT.valid_time e = true ->
  DT.gt (DT.combine d s) (DT.combine d e) = false ->
  DT.timestamp (DT.combine d s) <= DT.timestamp (DT.combine d e).
Proof.
  intros Hd Hs He Hgt.
  apply (ge_timestamp (DT.combine d e) (DT.combine d s)).
  - unfold DT.valid, DT.combine; cbn. rewrite Hd, He. reflexivity.
  - unfold DT.valid, DT.combine; cbn. rewrite Hd, Hs. reflexivity.
  - unfold DT.ge, DT.lt. rewrite Hgt. reflexivity.
Qed.

Lemma same_day_label (d : date) (s e : time) :
  DT.valid_date d = true -> DT.valid_time s = true -> DT.valid_time e = true ->
  DT.gt (DT.combine d s) (DT.combine d e) = false ->
  exists h m : Z,
    fst (calculate_duration (DT.combine d s) (DT.combine d e)) = duration_label h m
    /\ 0 <= h <= 23 /\ 0 <= m <= 59.
Proof.
  intros Hd Hs He Hgt.
  pose proof (same_day_span d s e Hs He) as Hspan.
  pose proof (same_day_order d s e Hd Hs He Hgt) as Hord.
  cbv zeta in Hspan. rewrite label_value.
  set (us := DT.timestamp (DT.combine d e) - DT.timestamp (DT.combine d s)) in *.
  exists (us / 3600000000), (us mod 3600000000 / 60000000).
  split; [reflexivity|].
  pose proof (Z.mod_pos_bound us 3600000000 ltac:(lia)).
  split; split.
  - apply Z.div_pos; lia.
  - apply Z.lt_succ_r. apply Z.div_lt_upper_bound; lia.
  - apply Z.div_pos; lia.
  - apply Z.lt_succ_r. apply Z.div_lt_upper_bound; lia.
Qed.

(** X1. A record that passes the check of the create form of app.py lasts
    less than a day: both datetimes are built from the one date of the form,
    so the total is at least 0 and below 1440 minutes, and the label shows
    between 0 and 23 hours and between 0 and 59 minutes. *)
Theorem same_day_duration_bounds (d : date) (s e : time) :
  DT.valid_date d = true -> DT.valid_time s = true -> DT.valid_time e = true ->
  DT.gt (DT.combine d s) (DT.combine d e) = false ->
  let start_datetime := DT.combine d s in
  let end_datetime := DT.combine d e in
  (0 <= snd (calculate_duration start_datetime end_datetime))%Q
  /\ (snd (calculate_duration start_datetime end_datetime) < 1440)%Q
  /\ exists h m : Z,
       fst (calculate_duration start_datetime end_datetime) = duration_label h m
       /\ 0 <= h <= 23 /\ 0 <= m <= 59.
Proof.
  intros Hd Hs He Hgt sd ed.
  pose proof (same_day_span d s e Hs He) as Hspan.
  pose proof (same_day_order d s e Hd Hs He Hgt) as Hord.
  cbv zeta in Hspan. fold sd ed in Hspan, Hord.
  split; [|split; [|apply same_day_label; assumption]].
  - rewrite total_minutes_value, Qred_correct. unfold minutes_between, Qle; simpl. lia.
  - rewrite total_minutes_value, Qred_correct. unfold minutes_between, Qlt; simpl. lia.
Qed.

Lemma same_day_duration_bounds_witness :
  (0 <= snd (calculate_duration (DT.combine (Date 2024 1 12) (Time 9 0 0 0))
                                (DT.combine (Date 2024 1 12) (Time 10 30 0 0))))%Q
  /\ (snd (calculate_duration (DT.combine (Date 2024 1 12) (Time 9 0 0 0))
                              (DT.combine (Date 2024 1 12) (Time 10 30 0 0))) < 1440)%Q.
Proof.
  pose proof (same_day_duration_bounds (Date 2024 1 12) (Time 9 0 0 0) (Time 10 30 0 0)
                eq_refl eq_refl eq_refl eq_refl) as H.
  cbv zeta in H. split; [exact (proj1 H) | exact (proj1 (proj2 H))].
Defined.

(** *** The total of a form entry is a whole number of minutes *)

Lemma whole_minutes_total (d : date) (s e : time) :
  DT.valid_time s = true -> DT.valid_time e = true ->
  whole_minutes s -> whole_minutes e ->
  exists n, snd (calculate_duration (DT.combine d s) (DT.combine d e)) = n # 1
            /\ Z.abs n < 2 ^ 53.
Proof.
  intros Hs He Hws Hwe.
  destruct (timestamp_whole_minutes (DT.combine d s)) as [ks Hks]; [exact Hws|].
  destruct (timestamp_whole_minutes (DT.combine d e)) as [ke Hke]; [exact Hwe|].
  pose proof (same_day_span d s e Hs He) as Hspan. cbv zeta in Hspan.
  exists (ke - ks). rewrite total_minutes_value. unfold minutes_between.
  rewrite Hks, Hke in *.
  replace (60000000 * ke - 60000000 * ks) with ((ke - ks) * 60000000) in * by lia.
  split; [|lia].
  rewrite <- (Qred_whole (ke - ks)). apply Qred_complete.
  unfold Qeq; simpl. lia.
Qed.

Lemma entered_row_renderable d s e f :
  DT.valid_time s = true -> DT.valid_time e = true ->
  whole_minutes s -> whole_minutes e ->
  Forall renderable (entered_row d s e f).
Proof.
  intros Hs He Hws Hwe.
  destruct (whole_minutes_total d s e Hs He Hws Hwe) as (n & Hn & Hb).
  unfold entered_row. rewrite Hn.
  repeat (apply List.Forall_cons; [eexists; reflexivity|]).
  apply List.Forall_cons; [|apply List.Forall_nil].
  apply float_repr_whole; [|apply Qred_whole].
  cbn [Qden Qnum]. apply andb_true_intro; split; [reflexivity|]. apply Z.ltb_lt. exact Hb.
Qed.

Lemma entered_row_length d s e f : length (entered_row d s e f) = 8%nat.
Proof. reflexivity. Qed.

Lemma reindex_schema (row : list cell) :
  length row = 8%nat -> Pd.reindex_row App.schema App.schema row = row.
Proof.
  destruct row as [|a [|b [|c [|d [|e [|f [|g [|h [|i row]]]]]]]]]; try discriminate.
  reflexivity.
Qed.


Lemma map_id_on {A} (f : A -> A) (P : A -> Prop) (l : list A) :
  (forall a, P a -> f a = a) -> Forall P l -> map f l = l.
Proof.
  intros Hf H. induction H as [|a l Ha _ IH]; [reflexivity|].
  cbn [map]. rewrite Hf, IH by exact Ha. reflexivity.
Qed.



(** [concat] of a table with the columns of app.py and one new row. *)
Lemma concat_schema (data : DataFrame) (row : list cell) :
  well_formed data -> columns data = App.schema -> length row = 8%nat ->
  Pd.concat data (Pd.frame_of_rows App.schema [row])
  = Pd.frame_of_rows App.schema (rows data ++ [row]).
Proof.
  intros [_ Hw] Hc Hr. unfold Pd.concat. rewrite Hc in *. cbn [columns rows Pd.frame_of_rows].
  change (App.schema ++ List.filter _ App.schema) with App.schema.
  rewrite (map_id_on (Pd.reindex_row App.schema App.schema) (fun r => length r = 8%nat))
    by (exact reindex_schema || exact Hw).
  cbn [map]. rewrite reindex_schema by exact Hr. reflexivity.
Qed.



Lemma submit_accepted (st : store) (data : DataFrame) (f : App.form)
    (d : date) (s e : time) :
  App.load_data st = ok data ->
  App.f_date f = Some d -> App.f_start f = Some s -> App.f_end f = Some e ->
  DT.valid_time s = true -> DT.valid_time e = true ->
  whole_minutes s -> whole_minutes e ->
  DT.gt (DT.combine d s) (DT.combine d e) = false ->
  exists content,
    App.submit st f = (Some content, Noticed (Success "记录已添加"))
    /\ Pd.to_csv (Pd.concat data (Pd.frame_of_rows App.schema [entered_row d s e f]))
       = ok content.
Proof.
  intros Hload Hd Hs He Hvs Hve Hws Hwe Hgt.
  destruct (app_load_data_shape _ _ Hload) as [Hst _].
  destruct (to_csv_ok (Pd.concat data (Pd.frame_of_rows App.schema [entered_row d s e f])))
    as [content Hc].
  { apply concat_storable; [exact Hst|].
    unfold storable, Pd.frame_of_rows; cbn [rows].
    apply List.Forall_cons; [|apply List.Forall_nil].
    apply entered_row_renderable; assumption. }
  exists content. split; [|exact Hc].
  unfold App.submit, App.submit_with. rewrite Hd, Hs, He, Hgt.
  unfold entered_row in Hc. cbv zeta in Hc.
  destruct (calculate_duration (DT.combine d s) (DT.combine d e)) as [duration tm].
  cbn [fst snd] in Hc. rewrite Hload. cbv [ok bind].
  unfold App.new_record, App.save_data. rewrite Hc. reflexivity.
Qed.



(** * The two scripts on one file *)






(** * A file that cannot be read *)






Lemma run_blank_lines (content : string) (rows0 : list (list string)) :
  blank_lines content = true ->
  Pd.run (Pd.Tok Pd.StartRecord EmptyString [] rows0) content
  = Pd.Tok Pd.StartRecord EmptyString [] rows0.
Proof.
  induction content as [|c content IH]; [reflexivity|].
  unfold blank_lines. cbn [all_chars]. intros H. apply andb_prop in H. destruct H as [Hc H].
  cbn [Pd.run Pd.step Pd.t_mode]. unfold Pd.step_start_record. rewrite Hc.
  apply IH, H.
Qed.

Lemma skip_bom_blank (content : string) :
  blank_lines content = true -> Pd.skip_bom content = content.
Proof.
  destruct content as [|c content]; [reflexivity|].
  unfold blank_lines. cbn [all_chars]. intros H. apply andb_prop in H. destruct H as [Hc _].
  apply Ascii.eqb_eq in Hc. subst c. reflexivity.
Qed.

Lemma read_blank (content : string) :
  blank_lines content = true ->
  Pd.read_csv_bytes content = raise EmptyDataError
  /\ Pd.read_csv_bytes (Pd.bom +:+ content) = raise EmptyDataError.
Proof.
  intros H. unfold Pd.read_csv_bytes, Pd.tokenize.
  rewrite skip_bom_bom, (skip_bom_blank _ H), (run_blank_lines _ _ H).
  split; reflexivity.
Qed.

(** X6. A file that is there but holds no record at all, not even the header
    (no bytes, or line feeds only, with or without the byte order mark), is
    not taken for a missing file: [load_data] of both scripts raises
    [EmptyDataError] where a missing file gives the empty table, the delete
    section fails with it, and the create form leaves the file as it is. *)
Theorem blank_file_is_not_missing (content : string) :
  blank_lines content = true ->
  forall st, st = Some content \/ st = Some (Pd.bom +:+ content) ->
    App.load_data st = raise EmptyDataError
    /\ AppCopy.load_data st = raise EmptyDataError
    /\ (forall i, App.delete_record st i = (st, Raised EmptyDataError))
    /\ (forall f, fst (App.submit st f) = st)
    /\ (forall f, AppCopy.submit st f
                  = (st, Noticed (Failure "时间格式错误，请检查输入时间"))).
Proof.
  intros H st Hst. destruct (read_blank content H) as [H1 H2].
  assert (read_csv st = raise EmptyDataError) as Hr
    by (destruct Hst as [-> | ->]; assumption).
  assert (App.load_data st = raise EmptyDataError) as Ha
    by (unfold App.load_data; rewrite Hr; reflexivity).
  assert (AppCopy.load_data st = raise EmptyDataError) as Hc
    by (unfold AppCopy.load_data; rewrite Hr; reflexivity).
  split; [exact Ha|]. split; [exact Hc|]. split; [|split].
  - intros i. unfold App.delete_record. rewrite Ha. reflexivity.
  - intros f. unfold App.submit, App.submit_with.
    destruct (App.f_date f), (App.f_start f), (App.f_end f); try reflexivity.
    destruct (DT.gt _ _); [reflexivity|].
    destruct (calculate_duration _ _). rewrite Ha. reflexivity.
  - intros f. unfold AppCopy.submit.
    destruct (calculate_duration _ _). rewrite Hc. reflexivity.
Qed.

Lemma blank_file_is_not_missing_witness :
  App.load_data (Some EmptyString) = raise EmptyDataError
  /\ AppCopy.submit (Some EmptyString) older_entry
     = (Some EmptyString, Noticed (Failure "时间格式错误，请检查输入时间")).
Proof.
  pose proof (blank_file_is_not_missing EmptyString eq_refl (Some EmptyString)
                (or_introl eq_refl)) as (Hload & _ & _ & _ & Hsub).
  split; [exact Hload | exact (Hsub older_entry)].
Defined.

(** * The locations of the older copy in the chart of app.py *)

Lemma options_without_comma (location : list string) :
  Forall (fun s => In s location_options) location ->
  Forall (fun s => all_chars (differs ",") s = true) location.
Proof.
  intros H. eapply Forall_impl; [exact H|].
  intros s [<- | [<- | [<- | []]]]; reflexivity.
Qed.

(** X7. The text that the older copy stores for a selection of locations
    (line 45) is taken apart again by the location chart of app.py
    (line 182) into the very locations that were selected, in their order;
    an empty selection is stored, and counted, as [未选择].  This holds for
    every selection of texts without a comma, so for every selection among
    the three offered. *)
Theorem location_str_split (location : list string) :
  Forall (fun s => all_chars (differs ",") s = true) location ->
  split_location (CStr (AppCopy.location_str location)) = ok (stored_selection location).
Proof.
  intros H. destruct location as [|l location]; [reflexivity|].
  cbn [split_location stored_selection]. unfold AppCopy.location_str.
  apply split_join; [discriminate | exact H].
Qed.

Lemma location_str_split_witness :
  split_location (CStr (AppCopy.location_str ["左侧"; "右侧"]%string))
  = ok ["左侧"; "右侧"]%string.
Proof.
  apply (location_str_split ["左侧"; "右侧"]%string).
  repeat (apply List.Forall_cons; [reflexivity|]). apply List.Forall_nil.
Defined.

(** * Dates as texts *)

Lemma padded_four : forallb (padded 4) (seq 0 (100 * 100)) = true.
Proof. vm_compute. reflexivity. Qed.

Lemma padded_two : forallb (padded 2) (seq 0 100) = true.
Proof. vm_compute. reflexivity. Qed.

Lemma padded_spec (width : nat) (bound : nat) (z : Z) :
  forallb (padded width) (seq 0 bound) = true ->
  0 <= z < Z.of_nat bound ->
  let s := DT.zfill width (Py.str z) in
  all_chars is_digit s = true
  /\ String.length s = width
  /\ Pd.take_digits 0 0 s = (z, width, EmptyString).
Proof.
  intros Hall Hz s. rewrite forallb_forall in Hall.
  specialize (Hall (Z.to_nat z)). unfold padded in Hall.
  rewrite Z2Nat.id in Hall by lia. fold s in Hall.
  assert (In (Z.to_nat z) (seq 0 bound)) as Hin by (apply in_seq; lia).
  apply Hall in Hin. clear Hall.
  destruct (Pd.take_digits 0 0 s) as [[v k] rest].
  apply andb_prop in Hin as [Hin H3]. apply andb_prop in Hin as [H1 H2].
  apply andb_prop in H3 as [H3 H5]. apply andb_prop in H3 as [H3 H4].
  apply Nat.eqb_eq in H2, H4. apply Z.eqb_eq in H3. apply String.eqb_eq in H5.
  subst v k rest. repeat split; assumption.
Qed.

Lemma take_digits_app (s rest : string) (acc : Z) (n : nat) :
  all_chars is_digit s = true -> starts_non_digit rest = true ->
  Pd.take_digits acc n (s +:+ rest)
  = (fst (fst (Pd.take_digits acc n s)), snd (fst (Pd.take_digits acc n s)), rest).
Proof.
  revert acc n. induction s as [|c s IH]; intros acc n Hs Hr.
  - change (EmptyString +:+ rest) with rest. cbn [Pd.take_digits fst snd].
    destruct rest as [|c r]; [reflexivity|].
    cbn [Pd.take_digits]. cbn [starts_non_digit] in Hr. unfold is_digit in Hr.
    destruct (Py.digit_val c); [discriminate | reflexivity].
  - rewrite append_cons. cbn [all_chars] in Hs. apply andb_prop in Hs as [Hc Hs].
    cbn [Pd.take_digits]. unfold is_digit in Hc.
    destruct (Py.digit_val c); [|discriminate]. apply IH; assumption.
Qed.

Lemma take_padded (width bound : nat) (z : Z) (rest : string) :
  forallb (padded width) (seq 0 bound) = true ->
  0 <= z < Z.of_nat bound -> starts_non_digit rest = true ->
  Pd.take_digits 0 0 (DT.zfill width (Py.str z) +:+ rest) = (z, width, rest).
Proof.
  intros Hall Hz Hr. destruct (padded_spec width bound z Hall Hz) as (Hd & _ & Ht).
  rewrite take_digits_app by assumption. rewrite Ht. reflexivity.
Qed.

Lemma days_in_month_le (y m : Z) : 1 <= m <= 12 -> DT.days_in_month y m <= 31.
Proof.
  intros Hm. unfold DT.days_in_month.
  split_month Hm; destruct (DT.is_leap y); table; lia.
Qed.

Lemma date_ranges (d : date) :
  DT.valid_date d = true ->
  0 <= year d < 10000 /\ 0 <= month d < 100 /\ 0 <= day d < 100.
Proof.
  intros H. apply valid_date_bounds in H. destruct H as (Hy & Hm & Hd).
  pose proof (days_in_month_le (year d) (month d) Hm). lia.
Qed.

Lemma isoformat_parses (d : date) :
  DT.valid_date d = true -> Pd.parse_iso_date (DT.isoformat d) = Some d.
Proof.
  intros Hv. destruct (date_ranges d Hv) as (Hy & Hm & Hd).
  set (dd := DT.zfill 2 (Py.str (day d))).
  set (mm := DT.zfill 2 (Py.str (month d))).
  assert (Pd.take_digits 0 0 (DT.isoformat d)
          = (year d, 4%nat, String "-" (mm +:+ String "-" dd))) as E1.
  { apply (take_padded 4 (100 * 100)); [exact padded_four | exact Hy | reflexivity]. }
  assert (Pd.take_digits 0 0 (mm +:+ String "-" dd) = (month d, 2%nat, String "-" dd)) as E2.
  { apply (take_padded 2 100); [exact padded_two | exact Hm | reflexivity]. }
  assert (Pd.take_digits 0 0 dd = (day d, 2%nat, EmptyString)) as E3.
  { apply (padded_spec 2 100); [exact padded_two | exact Hd]. }
  unfold Pd.parse_iso_date. rewrite E1. cbv beta iota. rewrite E2. cbv beta iota.
  rewrite E3. cbv beta iota.
  destruct d as [y m dy]. cbn [year month day] in *. rewrite Hv. reflexivity.
Qed.

Lemma digit_cases (c : ascii) :
  is_digit c = true ->
  In c ["0"; "1"; "2"; "3"; "4"; "5"; "6"; "7"; "8"; "9"]%char.
Proof.
  destruct c as [[] [] [] [] [] [] [] []]; intros H; vm_compute in H;
    try discriminate H; cbn; tauto.
Qed.

(** A text that begins with digits followed by a hyphen is no number and no
    boolean for the reader. *)
Lemma dashed_text_plain (c : ascii) (p r : string) :
  is_digit c = true -> all_chars is_digit p = true ->
  let s := String c p +:+ String "-" r in
  Pd.int_literal s = None /\ Pd.is_double s = false /\ Pd.is_bool s = false.
Proof.
  intros Hc Hp s.
  assert (exists v k, Pd.take_digits 0 0 s = (v, S k, String "-" r)) as (v' & k' & Ht).
  { unfold s. rewrite take_digits_app; [|cbn [all_chars]; rewrite Hc, Hp; reflexivity|reflexivity].
    cbn [Pd.take_digits]. unfold is_digit in Hc.
    destruct (Py.digit_val c) as [dv|]; [|discriminate].
    clear. generalize (10 * 0 + dv). generalize 0%nat. intros n z.
    assert (forall q n z, exists v k, Pd.take_digits z (S n) q = (v, S k, snd (Pd.take_digits z (S n) q))) as H.
    { clear. induction q as [|a q IH]; intros n z; cbn [Pd.take_digits].
      - exists z, n. reflexivity.
      - destruct (Py.digit_val a); [apply IH|]. exists z, n. reflexivity. }
    destruct (H p n z) as (v & k & E). exists v, k. rewrite E. reflexivity. }
  assert (s = String c (p +:+ String "-" r)) as Es by (unfold s; apply append_cons).
  split; [|split].
  - unfold Pd.int_literal. rewrite Es, skip_spaces_digit, take_sign_digit by exact Hc.
    rewrite <- Es, Ht. reflexivity.
  - unfold Pd.is_double.
    assert (Pd.decimal_literal s = None) as ->.
    { unfold Pd.decimal_literal. rewrite Es, skip_spaces_digit, take_sign_digit by exact Hc.
      rewrite <- Es, Ht. reflexivity. }
    rewrite Es. apply digit_cases in Hc.
    repeat (destruct Hc as [<- | Hc]; [reflexivity|]). destruct Hc.
  - rewrite Es. apply digit_cases in Hc.
    repeat (destruct Hc as [<- | Hc]; [reflexivity|]). destruct Hc.
Qed.

(** A text that is no number, no boolean and no marker of a missing value
    comes back as itself, whatever else its column holds. *)
Lemma kept_as_text (s : string) (fields : list string) :
  Pd.is_na s = false -> Pd.int_literal s = None -> Pd.is_double s = false ->
  Pd.is_bool s = false -> In s fields ->
  Pd.convert (Pd.infer_kind fields) s = ok (CStr s).
Proof.
  intros Hna Hint Hdbl Hbool Hin. unfold Pd.infer_kind.
  rewrite (forallb_witness Pd.is_int fields s Hin)
    by (unfold Pd.is_int; rewrite Hint; apply andb_false_r).
  rewrite (forallb_witness (fun f => Pd.is_na f || Pd.is_double f) fields s Hin)
    by (cbv beta; rewrite Hna, Hdbl; reflexivity).
  rewrite (forallb_witness (fun f => negb (Pd.is_na f) && Pd.is_bool f) fields s Hin)
    by (cbv beta; rewrite Hbool; apply andb_false_r).
  cbn [Pd.convert]. rewrite Hna. reflexivity.
Qed.

Lemma digits_float_chars (s : string) :
  all_chars is_digit s = true -> all_chars is_float_char s = true.
Proof.
  apply all_chars_impl. intros c Hc. unfold is_float_char, is_numeral_char.
  rewrite Hc. reflexivity.
Qed.

Lemma isoformat_shape (d : date) :
  DT.valid_date d = true ->
  exists c p r,
    DT.isoformat d = String c p +:+ String "-" r
    /\ is_digit c = true /\ all_chars is_digit p = true
    /\ all_chars is_float_char (DT.isoformat d) = true.
Proof.
  intros Hv. destruct (date_ranges d Hv) as (Hy & Hm & Hd).
  destruct (padded_spec 4 (100 * 100) (year d) padded_four Hy) as (Hy1 & Hy2 & _).
  destruct (padded_spec 2 100 (month d) padded_two Hm) as (Hm1 & _ & _).
  destruct (padded_spec 2 100 (day d) padded_two Hd) as (Hd1 & _ & _).
  cbv zeta in *. unfold DT.isoformat.
  destruct (DT.zfill 4 (Py.str (year d))) as [|c p]; [discriminate|].
  cbn [all_chars] in Hy1. apply andb_prop in Hy1 as [Hc Hp].
  exists c, p, (DT.zfill 2 (Py.str (month d)) +:+ "-" +:+ DT.zfill 2 (Py.str (day d))).
  split; [reflexivity|]. split; [exact Hc|]. split; [exact Hp|].
  rewrite !all_chars_app.
  rewrite (digits_float_chars (String c p)) by (cbn [all_chars]; rewrite Hc, Hp; reflexivity).
  rewrite (digits_float_chars _ Hm1), (digits_float_chars _ Hd1). reflexivity.
Qed.

Lemma float_chars_unquoted (s : string) :
  all_chars is_float_char s = true -> Pd.quote_field s = s.
Proof.
  intros H. unfold Pd.quote_field.
  assert (Pd.needs_quote s = false) as ->; [|reflexivity].
  induction s as [|c s IH]; [reflexivity|].
  cbn [all_chars] in H. apply andb_prop in H as [Hc Hs].
  cbn [Pd.needs_quote]. rewrite (IH Hs), orb_false_r.
  unfold is_float_char, is_numeral_char in Hc.
  apply orb_prop in Hc as [Hc | Hc]; [apply orb_prop in Hc as [Hc | Hc]|].
  - apply digit_cases in Hc. repeat (destruct Hc as [<- | Hc]; [reflexivity|]). destruct Hc.
  - apply Ascii.eqb_eq in Hc. subst c. reflexivity.
  - apply Ascii.eqb_eq in Hc. subst c. reflexivity.
Qed.

(** X8. The date of a form entry reaches the charts as the day that was
    entered.  For every valid date [d], the create form stores the date
    object, which [to_csv] writes as the text [YYYY-MM-DD], unquoted; the
    reader gives this text back as a text, whatever else the column holds
    (it is no number, no boolean and no marker of a missing value); and
    [pd.to_datetime] of the chart section turns the text, like the date
    object itself, into midnight of [d]. *)
Theorem form_date_reaches_the_charts (d : date) :
  DT.valid_date d = true ->
  exists s,
    Pd.render (CDate d) = ok s
    /\ Pd.quote_field s = s
    /\ (forall fields, In s fields -> Pd.convert (Pd.infer_kind fields) s = ok (CStr s))
    /\ Pd.to_datetime (CStr s) = ok (CTimestamp (Datetime d midnight))
    /\ Pd.to_datetime (CDate d) = ok (CTimestamp (Datetime d midnight)).
Proof.
  intros Hv. exists (DT.isoformat d).
  destruct (isoformat_shape d Hv) as (c & p & r & Es & Hc & Hp & Hf).
  destruct (dashed_text_plain c p r Hc Hp) as (Hint & Hdbl & Hbool).
  cbv zeta in *. rewrite <- Es in *.
  split; [reflexivity|]. split; [apply float_chars_unquoted, Hf|]. split; [|split].
  - intros fields Hin. apply kept_as_text; try assumption.
    apply is_na_numeral; [rewrite Es; discriminate | exact Hf].
  - cbn [Pd.to_datetime]. rewrite (isoformat_parses d Hv). reflexivity.
  - reflexivity.
Qed.

Lemma form_date_reaches_the_charts_witness :
  exists s,
    Pd.render (CDate (Date 2024 2 29)) = ok s
    /\ Pd.to_datetime (CStr s) = ok (CTimestamp (Datetime (Date 2024 2 29) midnight)).
Proof.
  destruct (form_date_reaches_the_charts (Date 2024 2 29) eq_refl)
    as (s & H1 & _ & _ & H2 & _).
  exists s. split; [exact H1 | exact H2].
Defined.

(** * Columns of a table *)

Lemma position_none (c : string) (cols : list string) :
  existsb (String.eqb c) cols = false -> Pd.position c cols = None.
Proof.
  induction cols as [|c' cols IH]; [reflexivity|].
  cbn [existsb Pd.position]. destruct (String.eqb c c'); [discriminate|].
  intros H. rewrite (IH H). reflexivity.
Qed.

Lemma position_some (c : string) (cols : list string) :
  existsb (String.eqb c) cols = true -> exists k, Pd.position c cols = Some k.
Proof.
  induction cols as [|c' cols IH]; [discriminate|].
  cbn [existsb Pd.position]. destruct (String.eqb c c'); [intros _; eexists; reflexivity|].
  intros H. destruct (IH H) as [k ->]. eexists; reflexivity.
Qed.

Lemma position_lt (c : string) (cols : list string) (k : nat) :
  Pd.position c cols = Some k -> (k < length cols)%nat.
Proof. intros H. apply position_spec, lookup_lt_Some in H. exact H. Qed.

Lemma position_app_new (c : string) (cols : list string) :
  Pd.position c cols = None -> Pd.position c (cols ++ [c]) = Some (length cols).
Proof.
  induction cols as [|c' cols IH]; cbn [Pd.position app length].
  - rewrite String.eqb_refl. reflexivity.
  - destruct (String.eqb c c'); [discriminate|].
    destruct (Pd.position c cols); [discriminate|]. intros _. rewrite IH; reflexivity.
Qed.

Lemma position_app_old (c c' : string) (cols : list string) :
  c' <> c -> Pd.position c' (cols ++ [c]) = Pd.position c' cols.
Proof.
  intros Hne. induction cols as [|x cols IH]; cbn [Pd.position app].
  - destruct (String.eqb_spec c' c); [congruence | reflexivity].
  - rewrite IH. reflexivity.
Qed.

Lemma set_nth_length {A} (k : nat) (a : A) (l : list A) :
  length (Pd.set_nth k a l) = length l.
Proof.
  revert k; induction l as [|x l IH]; intros [|k]; cbn; try reflexivity.
  rewrite IH. reflexivity.
Qed.

Lemma columns_set_column (c : string) (vals : list cell) (df : DataFrame) :
  columns (Pd.set_column c vals df)
  = match Pd.position c (columns df) with
    | Some _ => columns df
    | None => columns df ++ [c]
    end.
Proof. unfold Pd.set_column. destruct (Pd.position c (columns df)); reflexivity. Qed.

Lemma index_set_column (c : string) (vals : list cell) (df : DataFrame) :
  index (Pd.set_column c vals df) = index df.
Proof. unfold Pd.set_column. destruct (Pd.position c (columns df)); reflexivity. Qed.

Lemma rows_set_column (c : string) (vals : list cell) (df : DataFrame) :
  squared df -> length vals = length (rows df) ->
  Forall2 (fun row row' =>
             length row' = length (columns (Pd.set_column c vals df))
             /\ forall c', c' <> c ->
                  Pd.at_column (columns (Pd.set_column c vals df)) row' c'
                  = Pd.at_column (columns df) row c')
          (rows df) (rows (Pd.set_column c vals df))
  /\ Pd.column c (Pd.set_column c vals df) = ok vals.
Proof.
  unfold squared, Pd.set_column, Pd.column.
  destruct (Pd.position c (columns df)) as [k|] eqn:Hk; cbn [columns rows].
  - rewrite Hk. pose proof (position_lt _ _ _ Hk) as Hlt.
    generalize (rows df). intros rs Hsq. revert vals.
    induction Hsq as [|row rs Hrow _ IH]; intros [|v vals] Hlen; try discriminate.
    + split; [constructor | reflexivity].
    + destruct (IH vals) as [IH1 IH2]; [cbn in Hlen; lia|].
      cbn [zip zip_with map fst snd]. split.
      * constructor; [|exact IH1]. split; [rewrite set_nth_length; exact Hrow|].
        intros c' Hne. eapply at_column_set_other; eassumption.
      * cbv [ok] in *. injection IH2 as IH2. rewrite IH2.
        rewrite nth_set_nth_eq by lia. reflexivity.
  - rewrite (position_app_new _ _ Hk).
    generalize (rows df). intros rs Hsq. revert vals.
    induction Hsq as [|row rs Hrow _ IH]; intros [|v vals] Hlen; try discriminate.
    + split; [constructor | reflexivity].
    + destruct (IH vals) as [IH1 IH2]; [cbn in Hlen; lia|].
      cbn [zip zip_with map fst snd]. split.
      * constructor; [|exact IH1]. split; [rewrite !length_app; cbn; lia|].
        intros c' Hne. unfold Pd.at_column. rewrite position_app_old by exact Hne.
        destruct (Pd.position c' (columns df)) as [k'|] eqn:Hk'; [|reflexivity].
        apply app_nth1. rewrite Hrow. eapply position_lt, Hk'.
      * cbv [ok] in *. injection IH2 as IH2. rewrite IH2.
        rewrite <- Hrow, nth_middle. reflexivity.
Qed.

Lemma set_column_squared (c : string) (vals : list cell) (df : DataFrame) :
  squared df -> length vals = length (rows df) -> squared (Pd.set_column c vals df).
Proof.
  intros Hsq Hlen. destruct (rows_set_column c vals df Hsq Hlen) as [H _].
  unfold squared. clear -H. induction H as [|? ? ? ? [Hl _] _ IH]; constructor; assumption.
Qed.

Lemma set_column_length (c : string) (vals : list cell) (df : DataFrame) :
  squared df -> length vals = length (rows df) ->
  length (rows (Pd.set_column c vals df)) = length (rows df).
Proof.
  intros Hsq Hlen. destruct (rows_set_column c vals df Hsq Hlen) as [H _].
  symmetry. eapply Forall2_length, H.
Qed.

Lemma column_at (c : string) (df : DataFrame) (col : list cell) :
  Pd.column c df = ok col -> col = map (fun row => Pd.at_column (columns df) row c) (rows df).
Proof.
  unfold Pd.column, Pd.at_column. destruct (Pd.position c (columns df)); [|discriminate].
  intros [= <-]. reflexivity.
Qed.

Lemma column_present (c : string) (df : DataFrame) :
  existsb (String.eqb c) (columns df) = true ->
  Pd.column c df = ok (map (fun row => Pd.at_column (columns df) row c) (rows df)).
Proof.
  intros H. destruct (position_some _ _ H) as [k Hk].
  unfold Pd.column, Pd.at_column. rewrite Hk. reflexivity.
Qed.

Lemma column_absent (c : string) (df : DataFrame) :
  existsb (String.eqb c) (columns df) = false -> Pd.column c df = raise KeyError.
Proof. intros H. unfold Pd.column. rewrite (position_none _ _ H). reflexivity. Qed.

Lemma column_set_other (c c' : string) (vals : list cell) (df : DataFrame) :
  squared df -> length vals = length (rows df) -> c' <> c ->
  Pd.column c' (Pd.set_column c vals df) = Pd.column c' df.
Proof.
  intros Hsq Hlen Hne. destruct (rows_set_column c vals df Hsq Hlen) as [H _].
  assert (Pd.position c' (columns (Pd.set_column c vals df)) = Pd.position c' (columns df)) as Hp.
  { rewrite columns_set_column. destruct (Pd.position c (columns df)); [reflexivity|].
    apply position_app_old, Hne. }
  unfold Pd.column at 1. rewrite Hp.
  destruct (Pd.position c' (columns df)) as [k|] eqn:Hk;
    [|unfold Pd.column; rewrite Hk; reflexivity].
  unfold Pd.column. rewrite Hk. f_equal.
  clear -H Hk Hp Hne. induction H as [|row row' rs rs' [_ Hrow] _ IH]; [reflexivity|].
  cbn [map]. rewrite IH. f_equal.
  specialize (Hrow c' Hne). unfold Pd.at_column in Hrow. rewrite Hp, Hk in Hrow. exact Hrow.
Qed.

(** * Counting the values of a column *)

Lemma count_cell_lookup (x c : cell) (m : gmap cell nat) :
  Series.count_cell x m !! c
  = if bool_decide (c = x) then Some (S (default O (m !! c))) else m !! c.
Proof.
  unfold Series.count_cell. destruct (bool_decide_reflect (c = x)) as [->|Hne].
  - apply lookup_insert_eq.
  - apply lookup_insert_ne. congruence.
Qed.

Lemma value_counts_cell (xs : list cell) (c : cell) :
  Series.value_counts xs !! c
  = if Series.is_missing c then None
    else match tally (fun x => bool_decide (x = c)) xs with
         | O => None
         | n => Some n
         end.
Proof.
  unfold Series.value_counts, tally. induction xs as [|x xs IH]; cbn [List.filter foldr].
  - rewrite lookup_empty. destruct (Series.is_missing c); reflexivity.
  - destruct (Series.is_missing x) eqn:Hx; cbn [negb foldr].
    + rewrite IH. destruct (bool_decide_reflect (x = c)) as [->|Hne]; [|reflexivity].
      rewrite Hx. reflexivity.
    + rewrite count_cell_lookup, IH.
      destruct (bool_decide_reflect (c = x)) as [->|Hne].
      * rewrite Hx. rewrite bool_decide_eq_true_2 by reflexivity. cbn [length].
        destruct (length _); reflexivity.
      * rewrite bool_decide_eq_false_2 by congruence. reflexivity.
Qed.

Lemma count_at_value_counts (xs : list cell) (c : cell) :
  Series.is_missing c = false ->
  count_at (Series.value_counts xs) c = tally (fun x => bool_decide (x = c)) xs.
Proof.
  intros Hc. unfold count_at. rewrite value_counts_cell, Hc.
  destruct (tally _ xs); reflexivity.
Qed.

Lemma tally_Forall2 {A B} (p : A -> bool) (q : B -> bool) (l : list A) (l' : list B) :
  Forall2 (fun a b => p a = q b) l l' -> tally p l = tally q l'.
Proof.
  unfold tally. induction 1 as [|a b l l' H _ IH]; [reflexivity|].
  cbn [List.filter]. rewrite H. destruct (q b); cbn [length]; rewrite IH; reflexivity.
Qed.

(** * What the reader hands to the charts *)

Lemma convert_from_file (k : Pd.kind) (f : string) (c : cell) :
  Pd.convert k f = ok c -> from_file c = true.
Proof.
  destruct k; cbn [Pd.convert].
  - destruct (Pd.int_literal f); [|discriminate].
    destruct (_ && _); [|discriminate]. intros [= <-]. reflexivity.
  - destruct (Pd.is_na f); [intros [= <-]; reflexivity|].
    destruct (Pd.double_value f); cbv [bind ok]; [discriminate|].
    intros [= <-]. reflexivity.
  - intros [= <-]. reflexivity.
  - intros [= <-]. destruct (Pd.is_na f); reflexivity.
Qed.

Lemma convert_row_from_file (ks : list Pd.kind) (fs : list string) (cs : list cell) :
  Pd.convert_row ks fs = ok cs -> Forall (fun c => from_file c = true) cs.
Proof.
  revert fs cs; induction ks as [|k ks IH]; intros fs cs; cbn [Pd.convert_row].
  - intros [= <-]. constructor.
  - destruct fs as [|f fs]; [intros [= <-]; constructor|].
    destruct (Pd.convert k f) as [e|c] eqn:Ec; cbv [bind ok]; [discriminate|].
    destruct (Pd.convert_row ks fs) as [e|cs'] eqn:Er; [discriminate|].
    intros [= <-]. constructor; [eapply convert_from_file, Ec | eapply IH, Er].
Qed.

Lemma read_csv_bytes_from_file (content : string) (df : DataFrame) :
  Pd.read_csv_bytes content = ok df ->
  Forall (Forall (fun c => from_file c = true)) (rows df).
Proof.
  unfold Pd.read_csv_bytes.
  destruct (Pd.tokenize (Pd.skip_bom content)) as [e|[|header body]]; cbv [bind ok];
    try discriminate.
  destruct (Pd.has_dup _); [discriminate|].
  destruct (Pd.implicit_index _ body); [discriminate|].
  destruct (existsb _ body); [discriminate|].
  destruct (map_result _ _) as [e|rs] eqn:Ers; [discriminate|].
  intros [= <-]. apply map_result_Forall2 in Ers. cbn [rows Pd.frame_of_rows].
  induction Ers as [|fs cs ? ? H _ IH]; constructor; [|exact IH].
  eapply convert_row_from_file, H.
Qed.

Lemma load_data_from_file (st : store) (data : DataFrame) :
  App.load_data st = ok data \/ AppCopy.load_data st = ok data ->
  Forall (Forall (fun c => from_file c = true)) (rows data).
Proof.
  unfold App.load_data, AppCopy.load_data, read_csv.
  destruct st as [content|].
  - destruct (Pd.read_csv_bytes content) as [[]|df] eqn:E; intros [H | H];
      try discriminate; injection H as <-;
      first [eapply read_csv_bytes_from_file, E | constructor].
  - intros [H | H]; injection H as <-; constructor.
Qed.

Lemma at_column_from_file (cols : list string) (row : list cell) (c : string) :
  Forall (fun x => from_file x = true) row -> from_file (Pd.at_column cols row c) = true.
Proof.
  intros H. unfold Pd.at_column. destruct (Pd.position c cols) as [k|]; [|reflexivity].
  revert k; induction H as [|x row Hx _ IH]; intros [|k]; cbn; auto.
Qed.

(** The day of a record that came from the file is a valid date at
    midnight. *)
Lemma dated_valid (cols : list string) (row : list cell) (x : datetime) :
  Forall (fun c => from_file c = true) row -> dated cols row = Some x ->
  DT.valid_date (dt_date x) = true /\ dt_time x = midnight.
Proof.
  intros Hrow. unfold dated.
  pose proof (at_column_from_file cols row "Date" Hrow) as Hc.
  destruct (Pd.at_column cols row "Date") as [| | | |s| |]; cbn [Pd.to_datetime];
    try discriminate.
  unfold Pd.parse_iso_date.
  destruct (Pd.take_digits 0 0 s) as [[y n1] s1].
  destruct s1 as [|[[] [] [] [] [] [] [] []] s2]; try discriminate.
  destruct (Pd.take_digits 0 0 s2) as [[m n2] s3].
  destruct s3 as [|[[] [] [] [] [] [] [] []] s4]; try discriminate.
  destruct (Pd.take_digits 0 0 s4) as [[d n3] s5].
  destruct (_ && _) eqn:E; [|discriminate].
  intros [= <-]. cbn [dt_date dt_time]. split; [|reflexivity].
  apply andb_prop in E. apply E.
Qed.

Lemma convert_dates_squared (data data' : DataFrame) :
  well_formed data -> convert_dates data = ok data' ->
  squared data' /\ columns data' = columns data
  /\ length (rows data') = length (rows data) /\ index data' = index data.
Proof.
  intros [Hi Hwf]. unfold convert_dates.
  destruct (Pd.column "Date" data) as [e|col] eqn:Hcol; cbv [bind ok]; [discriminate|].
  destruct (map_result Pd.to_datetime col) as [e|stamps] eqn:Hs; [discriminate|].
  intros [= <-].
  assert (length stamps = length (rows data)) as Hlen.
  { rewrite (map_result_length _ _ _ Hs). eapply column_length, Hcol. }
  split; [apply set_column_squared; assumption|].
  split; [|split].
  - rewrite columns_set_column. unfold Pd.column in Hcol.
    destruct (Pd.position "Date" (columns data)); [reflexivity | discriminate].
  - apply set_column_length; assumption.
  - apply index_set_column.
Qed.

(** After the conversion of line 109 the [Date] cell of every record is the
    time that [dated] names, or missing. *)
Lemma converted_dates (data data' : DataFrame) :
  well_formed data -> convert_dates data = ok data' ->
  Forall2 (fun row row' =>
             Pd.at_column (columns data') row' "Date"
             = match dated (columns data) row with
               | Some x => CTimestamp x
               | None => NaN
               end
             /\ forall c, c <> "Date"%string ->
                  Pd.at_column (columns data') row' c = Pd.at_column (columns data) row c)
          (rows data) (rows data').
Proof.
  intros Hwf Hc. destruct (convert_dates_rows data data' Hwf Hc) as [Hcols H].
  rewrite Hcols. eapply Forall2_impl; [exact H|].
  intros row row' (date & Hd & Hr & Ho). cbv beta. split; [|exact Ho].
  rewrite Hr. unfold dated. rewrite Hd.
  destruct (Pd.at_column (columns data) row "Date") as [| | | |s| |]; cbn in Hd;
    try discriminate; try (injection Hd as <-; reflexivity).
  destruct (Pd.parse_iso_date s); [injection Hd as <-; reflexivity | discriminate].
Qed.

(** * The charts by month, by weekday and by severity *)

Lemma tally_map {A B} (g : A -> B) (p : B -> bool) (l : list A) :
  tally p (map g l) = tally (fun a => p (g a)) l.
Proof.
  unfold tally. induction l as [|a l IH]; [reflexivity|].
  cbn [map List.filter]. destruct (p (g a)); cbn [length]; rewrite IH; reflexivity.
Qed.

Lemma tally_ext_on {A} (P : A -> Prop) (p q : A -> bool) (l : list A) :
  Forall P l -> (forall a, P a -> p a = q a) -> tally p l = tally q l.
Proof.
  intros H Hpq. unfold tally. induction H as [|a l Ha _ IH]; [reflexivity|].
  cbn [List.filter]. rewrite (Hpq a Ha). destruct (q a); cbn [length]; rewrite IH; reflexivity.
Qed.

Lemma tally_positive {A} (p : A -> bool) (l : list A) :
  tally p l <> O -> exists a, In a l /\ p a = true.
Proof.
  unfold tally. induction l as [|a l IH]; [intros H; exfalso; apply H; reflexivity|].
  cbn [List.filter]. destruct (p a) eqn:Ha.
  - intros _. exists a. split; [left; reflexivity | exact Ha].
  - intros H. destruct (IH H) as (x & Hin & Hx). exists x. split; [right; exact Hin | exact Hx].
Qed.

(** The cells that a text method of [.dt] yields for the converted table,
    and the column they make. *)
Lemma dt_column (f : datetime -> string) (name : string) (data data' : DataFrame) :
  well_formed data -> convert_dates data = ok data' ->
  let cells := map (fun row => dt_text f (dated (columns data) row)) (rows data) in
  exists dates,
    Pd.column "Date" data' = ok dates
    /\ map_result (Series.dt f) dates = ok cells
    /\ Pd.column name (Pd.set_column name cells data') = ok cells
    /\ squared (Pd.set_column name cells data')
    /\ length (rows (Pd.set_column name cells data')) = length (rows data).
Proof.
  intros Hwf Hc cells.
  destruct (convert_dates_squared data data' Hwf Hc) as (Hsq & Hcols & Hlen & _).
  pose proof (converted_dates data data' Hwf Hc) as Hrows.
  assert (existsb (String.eqb "Date") (columns data') = true) as Hdate.
  { rewrite Hcols. unfold convert_dates, Pd.column in Hc.
    destruct (existsb (String.eqb "Date") (columns data)) eqn:E; [reflexivity|].
    rewrite (position_none _ _ E) in Hc. discriminate. }
  exists (map (fun row => Pd.at_column (columns data') row "Date") (rows data')).
  assert (length cells = length (rows data')) as Hcl
    by (unfold cells; rewrite length_map; symmetry; exact Hlen).
  split; [apply column_present, Hdate|]. split; [|split; [|split]].
  - unfold cells. clear -Hrows. induction Hrows as [|row row' rs rs' [Hd _] _ IH]; [reflexivity|].
    cbn [map map_result]. rewrite Hd.
    destruct (dated (columns data) row); cbn [Series.dt dt_text]; cbv [ok bind] in *;
      rewrite IH; reflexivity.
  - apply rows_set_column; assumption.
  - apply set_column_squared; assumption.
  - rewrite set_column_length by assumption. exact Hlen.
Qed.

Lemma charts_converted (selected : Page.count_chart) (data : DataFrame)
    (counts : gmap cell nat) :
  Page.charts selected data = Rendered counts ->
  exists data', convert_dates data = ok data'.
Proof.
  unfold Page.charts. destruct (Pd.empty data); [discriminate|].
  destruct (convert_dates data) as [e|data']; [discriminate|]. intros _. eexists; reflexivity.
Qed.

Lemma month_chart_value (data data' : DataFrame) :
  well_formed data -> convert_dates data = ok data' ->
  let cells := map (fun row => dt_text Series.strftime_month (dated (columns data) row))
                   (rows data) in
  Page.month_chart data' = ok (Pd.set_column "Month" cells data', Series.value_counts cells).
Proof.
  intros Hwf Hc cells.
  destruct (dt_column Series.strftime_month "Month" data data' Hwf Hc)
    as (dates & Hd & Hm & Hcol & _).
  fold cells in Hm, Hcol. unfold Page.month_chart.
  rewrite Hd. cbv [ok bind] in *. rewrite Hm, Hcol. reflexivity.
Qed.

Lemma weekday_chart_value (data data' : DataFrame) :
  well_formed data -> convert_dates data = ok data' ->
  let cells := map (fun row => dt_text Series.day_name (dated (columns data) row))
                   (rows data) in
  Page.weekday_chart data' = ok (Pd.set_column "Weekday" cells data', Series.value_counts cells).
Proof.
  intros Hwf Hc cells.
  destruct (dt_column Series.day_name "Weekday" data data' Hwf Hc)
    as (dates & Hd & Hm & Hcol & _).
  fold cells in Hm, Hcol. unfold Page.weekday_chart.
  rewrite Hd. cbv [ok bind] in *. rewrite Hm, Hcol. reflexivity.
Qed.

Lemma month_label_inj (y m y' m' : Z) :
  0 <= y < 10000 -> 0 <= m < 100 -> 0 <= y' < 10000 -> 0 <= m' < 100 ->
  month_label y m = month_label y' m' -> y = y' /\ m = m'.
Proof.
  intros Hy Hm Hy' Hm' H.
  assert (forall a b, 0 <= a < 10000 -> 0 <= b < 100 ->
            Pd.take_digits 0 0 (month_label a b)
            = (a, 4%nat, String "-" (DT.zfill 2 (Py.str b)))) as Hfirst.
  { intros a b Ha Hb. apply (take_padded 4 (100 * 100)); [exact padded_four | exact Ha | reflexivity]. }
  pose proof (Hfirst y m Hy Hm) as E. rewrite H, (Hfirst y' m' Hy' Hm') in E.
  injection E as -> E. split; [reflexivity|].
  destruct (padded_spec 2 100 m padded_two Hm) as (_ & _ & Em).
  destruct (padded_spec 2 100 m' padded_two Hm') as (_ & _ & Em').
  cbv zeta in Em, Em'. rewrite E in Em'. rewrite Em in Em'. injection Em' as ->. reflexivity.
Qed.

Lemma strftime_month_label (x : datetime) :
  Series.strftime_month x = month_label (year (dt_date x)) (month (dt_date x)).
Proof. reflexivity. Qed.

(** X9. The chart by month.  For a table that was loaded from the file, the
    bar of the month [m] of the year [y] shows the number of records whose
    date, as [pd.to_datetime] reads it, lies in that month; records without
    a date are in no bar; and every bar is the bar of a month between
    January and December of a year with four digits. *)
Theorem month_chart_counts (st : store) (data : DataFrame) (counts : gmap cell nat) :
  App.load_data st = ok data \/ AppCopy.load_data st = ok data ->
  Page.charts Page.ByMonth data = Rendered counts ->
  (forall y m, 1 <= y <= 9999 -> 1 <= m <= 12 ->
     count_at counts (CStr (month_label y m))
     = tally (fun row => in_month y m (dated (columns data) row)) (rows data))
  /\ (forall c, counts !! c <> None ->
        exists y m, 1 <= y <= 9999 /\ 1 <= m <= 12 /\ c = CStr (month_label y m)).
Proof.
  intros Hload Hchart.
  assert (well_formed data) as Hwf
    by (destruct Hload as [H | H]; [eapply app_load_data_shape, H | eapply copy_load_data_shape, H]).
  pose proof (load_data_from_file st data Hload) as Hfile.
  destruct (charts_converted _ _ _ Hchart) as [data' Hc].
  unfold Page.charts in Hchart. destruct (Pd.empty data); [discriminate|].
  rewrite Hc in Hchart. cbv [ok] in Hchart.
  pose proof (month_chart_value data data' Hwf Hc) as Hval. cbv zeta in Hval. cbv [ok] in Hval.
  rewrite Hval in Hchart. cbn [of_result snd] in Hchart. injection Hchart as <-. clear Hval.
  assert (forall row x, In row (rows data) -> dated (columns data) row = Some x ->
            1 <= year (dt_date x) <= 9999 /\ 1 <= month (dt_date x) <= 12) as Hvalid.
  { intros row x Hin Hx. rewrite Forall_forall in Hfile.
    destruct (dated_valid (columns data) row x) as [Hv _];
      [apply Hfile, list_elem_of_In, Hin | exact Hx |].
    apply valid_date_bounds in Hv. lia. }
  split.
  - intros y m Hy Hm. rewrite count_at_value_counts by reflexivity. rewrite tally_map.
    apply (tally_ext_on (fun row => In row (rows data))).
    { apply Forall_forall. intros row Hin. apply list_elem_of_In, Hin. }
    intros row Hin. destruct (dated (columns data) row) as [x|] eqn:Hx; cbn [dt_text in_month].
    + destruct (Hvalid row x Hin Hx) as [Hyx Hmx]. rewrite strftime_month_label.
      destruct (bool_decide_reflect
                  (CStr (month_label (year (dt_date x)) (month (dt_date x)))
                   = CStr (month_label y m))) as [E | E].
      * injection E as E. apply month_label_inj in E; [|lia..].
        destruct E as [-> ->]. rewrite !Z.eqb_refl. reflexivity.
      * symmetry. apply andb_false_iff.
        destruct (Z.eqb_spec (year (dt_date x)) y) as [Ey|]; [|left; reflexivity].
        destruct (Z.eqb_spec (month (dt_date x)) m) as [Em|]; [|right; reflexivity].
        exfalso. apply E. rewrite Ey, Em. reflexivity.
    + reflexivity.
  - intros c Hc'. rewrite value_counts_cell in Hc'.
    destruct (Series.is_missing c) eqn:Hmiss; [congruence|].
    destruct (tally _ _) eqn:Et; [congruence|].
    destruct (tally_positive (fun x => bool_decide (x = c))
                (map (fun row => dt_text Series.strftime_month (dated (columns data) row))
                     (rows data))) as (cell & Hin & Hcell); [rewrite Et; discriminate|].
    apply bool_decide_eq_true_1 in Hcell. subst cell.
    apply in_map_iff in Hin. destruct Hin as (row & Hrow & Hin).
    destruct (dated (columns data) row) as [x|] eqn:Hx; cbn [dt_text] in Hrow.
    + destruct (Hvalid row x Hin Hx) as [Hyx Hmx].
      exists (year (dt_date x)), (month (dt_date x)). repeat split; try lia.
      symmetry. exact Hrow.
    + subst c. discriminate Hmiss.
Qed.

Lemma month_chart_counts_witness :
  exists counts,
    Page.charts Page.ByMonth sample_data = Rendered counts
    /\ count_at counts (CStr (month_label 2024 1)) = 2%nat.
Proof.
  eexists. split; [reflexivity|].
  rewrite (proj1 (month_chart_counts sample_store sample_data _
                    (or_introl sample_store_loads) eq_refl) 2024 1) by lia.
  reflexivity.
Defined.

Lemma weekday_range (d : date) : 0 <= Series.weekday d < 7.
Proof. unfold Series.weekday. apply Z.mod_pos_bound. lia. Qed.

Lemma weekday_name_inj (j k : Z) :
  0 <= j < 7 -> 0 <= k < 7 -> weekday_name j = weekday_name k -> j = k.
Proof.
  intros Hj Hk.
  assert (j = 0 \/ j = 1 \/ j = 2 \/ j = 3 \/ j = 4 \/ j = 5 \/ j = 6) as Cj by lia.
  assert (k = 0 \/ k = 1 \/ k = 2 \/ k = 3 \/ k = 4 \/ k = 5 \/ k = 6) as Ck by lia.
  repeat (destruct Cj as [-> | Cj]); try subst j;
    repeat (destruct Ck as [-> | Ck]); try subst k;
    first [reflexivity | intros H; vm_compute in H; discriminate H].
Qed.

Lemma day_name_weekday (x : datetime) :
  Series.day_name x = weekday_name (Series.weekday (dt_date x)).
Proof. reflexivity. Qed.

(** X10. The chart by weekday.  For a table that was loaded from the file,
    the bar of a weekday shows the number of records whose date falls on
    it, the weekday of a date being its day number since 0001-01-01 plus 6,
    modulo 7, with Monday as day 0; records without a date are in no bar;
    and there are no bars but those of the seven English day names. *)
Theorem weekday_chart_counts (st : store) (data : DataFrame) (counts : gmap cell nat) :
  App.load_data st = ok data \/ AppCopy.load_data st = ok data ->
  Page.charts Page.ByWeekday data = Rendered counts ->
  (forall k, 0 <= k < 7 ->
     count_at counts (CStr (weekday_name k))
     = tally (fun row => on_weekday k (dated (columns data) row)) (rows data))
  /\ (forall c, counts !! c <> None -> exists k, 0 <= k < 7 /\ c = CStr (weekday_name k)).
Proof.
  intros Hload Hchart.
  assert (well_formed data) as Hwf
    by (destruct Hload as [H | H]; [eapply app_load_data_shape, H | eapply copy_load_data_shape, H]).
  destruct (charts_converted _ _ _ Hchart) as [data' Hc].
  unfold Page.charts in Hchart. destruct (Pd.empty data); [discriminate|].
  rewrite Hc in Hchart. cbv [ok] in Hchart.
  pose proof (weekday_chart_value data data' Hwf Hc) as Hval. cbv zeta in Hval. cbv [ok] in Hval.
  rewrite Hval in Hchart. cbn [of_result snd] in Hchart. injection Hchart as <-. clear Hval.
  split.
  - intros k Hk. rewrite count_at_value_counts by reflexivity. rewrite tally_map.
    apply (tally_ext_on (fun _ => True)); [apply Forall_forall; intros; exact I|].
    intros row _. destruct (dated (columns data) row) as [x|]; cbn [dt_text on_weekday];
      [|reflexivity].
    rewrite day_name_weekday. pose proof (weekday_range (dt_date x)) as Hr.
    destruct (bool_decide_reflect
                (CStr (weekday_name (Series.weekday (dt_date x))) = CStr (weekday_name k)))
      as [E | E].
    + injection E as E. apply weekday_name_inj in E; [|lia..]. rewrite E. symmetry.
      apply Z.eqb_refl.
    + symmetry. apply Z.eqb_neq. intros Ek. apply E. rewrite Ek. reflexivity.
  - intros c Hc'. rewrite value_counts_cell in Hc'.
    destruct (Series.is_missing c) eqn:Hmiss; [congruence|].
    destruct (tally _ _) eqn:Et; [congruence|].
    destruct (tally_positive (fun x => bool_decide (x = c))
                (map (fun row => dt_text Series.day_name (dated (columns data) row))
                     (rows data))) as (cell & Hin & Hcell); [rewrite Et; discriminate|].
    apply bool_decide_eq_true_1 in Hcell. subst cell.
    apply in_map_iff in Hin. destruct Hin as (row & Hrow & Hin).
    destruct (dated (columns data) row) as [x|]; cbn [dt_text] in Hrow.
    + exists (Series.weekday (dt_date x)). split; [apply weekday_range|].
      symmetry. exact Hrow.
    + subst c. discriminate Hmiss.
Qed.

Lemma weekday_chart_counts_witness :
  exists counts,
    Page.charts Page.ByWeekday sample_data = Rendered counts
    /\ count_at counts (CStr "Friday") = 2%nat
    /\ count_at counts (CStr "Monday") = 0%nat.
Proof.
  eexists. split; [reflexivity|].
  pose proof (proj1 (weekday_chart_counts sample_store sample_data _
                       (or_introl sample_store_loads) eq_refl)) as H.
  split.
  - change "Friday"%string with (weekday_name 4). rewrite H by lia. reflexivity.
  - change "Monday"%string with (weekday_name 0). rewrite H by lia. reflexivity.
Defined.

(** X11. The chart by severity.  For a table that was loaded from the file,
    the sector of a severity shows the number of records with exactly that
    value in the [Severity] column; records whose severity is missing are
    in no sector. *)
Theorem severity_pie_counts (st : store) (data : DataFrame) (counts : gmap cell nat) :
  App.load_data st = ok data \/ AppCopy.load_data st = ok data ->
  Page.charts Page.BySeverity data = Rendered counts ->
  (forall c, Series.is_missing c = false ->
     count_at counts c
     = tally (fun row => bool_decide (Pd.at_column (columns data) row "Severity" = c))
             (rows data))
  /\ counts !! NaN = None.
Proof.
  intros Hload Hchart.
  assert (well_formed data) as Hwf
    by (destruct Hload as [H | H]; [eapply app_load_data_shape, H | eapply copy_load_data_shape, H]).
  destruct (charts_converted _ _ _ Hchart) as [data' Hc].
  pose proof (converted_dates data data' Hwf Hc) as Hrows.
  unfold Page.charts in Hchart. destruct (Pd.empty data); [discriminate|].
  rewrite Hc in Hchart. cbv [ok] in Hchart. unfold Page.severity_pie in Hchart.
  destruct (Pd.column "Severity" data') as [e|col] eqn:Hcol; cbv [bind ok] in Hchart;
    cbn [of_result] in Hchart; [discriminate|].
  injection Hchart as <-. apply column_at in Hcol. subst col.
  split; [|rewrite value_counts_cell; reflexivity].
  intros c Hmiss. rewrite count_at_value_counts by exact Hmiss. rewrite tally_map.
  symmetry. apply tally_Forall2. eapply Forall2_impl; [exact Hrows|].
  intros row row' [_ Ho]. cbv beta. rewrite (Ho "Severity"%string) by discriminate.
  reflexivity.
Qed.

Lemma severity_pie_counts_witness :
  exists counts,
    Page.charts Page.BySeverity sample_data = Rendered counts
    /\ count_at counts (CInt 3) = 1%nat.
Proof.
  eexists. split; [reflexivity|].
  rewrite (proj1 (severity_pie_counts sample_store sample_data _
                    (or_introl sample_store_loads) eq_refl) (CInt 3) eq_refl).
  reflexivity.
Defined.

(** * The download *)

Lemma to_csv_encoded (df : DataFrame) :
  Pd.to_csv df
  = (try! text := Series.to_csv_str df in ok (Series.encode_utf8_sig text)).
Proof.
  unfold Pd.to_csv, Series.to_csv_str, Series.encode_utf8_sig.
  destruct (map_result (map_result Pd.render) (rows df)); reflexivity.
Qed.

Lemma download_saved (data : DataFrame) (content : string) :
  Pd.empty data = false -> Pd.to_csv data = ok content ->
  Page.download data = Rendered content.
Proof.
  intros He Hc. unfold Page.download. rewrite He. rewrite to_csv_encoded in Hc.
  destruct (Series.to_csv_str data) as [e|text]; cbv [bind ok] in Hc; [discriminate Hc|].
  injection Hc as <-. reflexivity.
Qed.

(** X12. What the download button of app.py hands out is the persisted file,
    byte for byte, whenever that file was written by the application for a
    record set of the stable form: the file is loaded, and the loaded table
    is serialised again with the byte order mark in front. *)
Theorem download_is_the_file (X : DataFrame) (content : string) :
  stable X -> Pd.empty X = false -> App.save_data X = ok (Some content) ->
  exists data,
    App.load_data (Some content) = ok data
    /\ Page.download data = Rendered content.
Proof.
  intros Hstable He Hsave. exists X.
  destruct (stable_round_trip X Hstable) as (content' & Hw & Hr).
  unfold App.save_data in Hsave. rewrite Hw in Hsave. cbv [bind ok] in Hsave.
  injection Hsave as <-. split; [apply app_load_saved, Hr | apply download_saved; assumption].
Qed.

Lemma download_is_the_file_witness :
  exists data,
    App.load_data sample_store = ok data
    /\ Page.download data = Rendered (default EmptyString sample_store).
Proof.
  exact (download_is_the_file sample_data (default EmptyString sample_store)
           sample_data_stable eq_refl eq_refl).
Defined.

(** *** The table behind the download of the older copy *)

Lemma chart_column (name : string) (f : datetime -> string) (df df' : DataFrame)
    (counts : gmap cell nat) :
  (try! dates := Pd.column "Date" df in
   try! cells := map_result (Series.dt f) dates in
   let data := Pd.set_column name cells df in
   try! col := Pd.column name data in
   ok (data, Series.value_counts col)) = ok (df', counts) ->
  squared df ->
  exists cells,
    df' = Pd.set_column name cells df /\ length cells = length (rows df).
Proof.
  intros H Hsq.
  destruct (Pd.column "Date" df) as [e|dates] eqn:Hd; cbv [bind ok] in H; [discriminate H|].
  destruct (map_result (Series.dt f) dates) as [e|cells] eqn:Hc; [discriminate H|].
  destruct (Pd.column name _) as [e|col]; [discriminate H|].
  injection H as <- _. exists cells. split; [reflexivity|].
  rewrite (map_result_length _ _ _ Hc). eapply column_length, Hd.
Qed.

(** One assignment [data[name] = cells] seen from the columns that it does
    not write to. *)
Lemma set_column_keeps (name : string) (cells : list cell) (df : DataFrame) :
  squared df -> length cells = length (rows df) ->
  squared (Pd.set_column name cells df)
  /\ length (rows (Pd.set_column name cells df)) = length (rows df)
  /\ index (Pd.set_column name cells df) = index df
  /\ Forall2 (fun row row' =>
                forall c, c <> name ->
                  Pd.at_column (columns (Pd.set_column name cells df)) row' c
                  = Pd.at_column (columns df) row c)
             (rows df) (rows (Pd.set_column name cells df)).
Proof.
  intros Hsq Hlen. split; [apply set_column_squared; assumption|].
  split; [apply set_column_length; assumption|]. split; [apply index_set_column|].
  destruct (rows_set_column name cells df Hsq Hlen) as [H _].
  eapply Forall2_impl; [exact H|]. intros row row' [_ Hk]. exact Hk.
Qed.

Lemma keeps_trans (cols1 cols2 cols3 : list string) (rs1 rs2 rs3 : list (list cell)) :
  Forall2 (keeps cols1 cols2) rs1 rs2 -> Forall2 (keeps cols2 cols3) rs2 rs3 ->
  Forall2 (keeps cols1 cols3) rs1 rs3.
Proof.
  intros H12. revert rs3. induction H12 as [|a b l1 l2 Hab _ IH]; intros rs3 H23.
  - inversion H23. constructor.
  - inversion H23 as [|? c ? l3 Hbc H23']; subst. constructor; [|apply IH, H23'].
    intros x Hx. rewrite (Hbc x Hx). apply Hab, Hx.
Qed.

Lemma set_column_keeps_untouched (name : string) (cells : list cell) (df : DataFrame) :
  squared df -> length cells = length (rows df) -> In name helper_columns ->
  Forall2 (keeps (columns df) (columns (Pd.set_column name cells df)))
          (rows df) (rows (Pd.set_column name cells df)).
Proof.
  intros Hsq Hlen Hin. destruct (rows_set_column name cells df Hsq Hlen) as [H _].
  eapply Forall2_impl; [exact H|]. intros row row' [_ Hk] c [_ Hc]. apply Hk.
  intros ->. apply Hc, Hin.
Qed.

Lemma columns_add (name : string) (cells : list cell) (df : DataFrame) :
  existsb (String.eqb name) (columns df) = false ->
  columns (Pd.set_column name cells df) = columns df ++ [name].
Proof. intros H. rewrite columns_set_column, (position_none _ _ H). reflexivity. Qed.

Lemma existsb_app_one (c name : string) (cols : list string) :
  existsb (String.eqb c) (cols ++ [name]) = existsb (String.eqb c) cols || String.eqb c name.
Proof. rewrite existsb_app. cbn [existsb]. rewrite orb_false_r. reflexivity. Qed.

(** X13. The download of the older copy is not the persisted table.  The
    charts of the older copy write their helper columns into the one table
    that the download serialises afterwards: for a file without columns of
    these names, the downloaded table has the columns of the file followed
    by [Month], [Weekday], [Duration Minutes] and [Duration Bin], one row
    per record and the row labels of the file; the cells of the columns of
    the file other than [Date] are as they were loaded. *)
Theorem copy_download_has_helper_columns (st : store) (data : DataFrame)
    (p : PageCopy.page) :
  AppCopy.load_data st = ok data -> PageCopy.render st = Rendered p ->
  Forall (fun c => existsb (String.eqb c) (columns data) = false) helper_columns ->
  let table := PageCopy.downloaded p in
  columns table = columns data ++ helper_columns
  /\ length (rows table) = length (rows data)
  /\ index table = index data
  /\ Pd.to_csv table = ok (PageCopy.download p)
  /\ Forall2 (keeps (columns data) (columns table)) (rows data) (rows table).
Proof.
  intros Hload Hrender Hnew table.
  destruct (copy_load_data_shape _ _ Hload) as [_ Hwf].
  unfold PageCopy.render in Hrender. rewrite Hload in Hrender. cbv [ok] in Hrender.
  destruct (Pd.empty data); [discriminate Hrender|].
  destruct (PageCopy.draw data) as [e|p'] eqn:Hdraw; cbn [of_result] in Hrender;
    [discriminate Hrender|].
  assert (p' = p) as -> by (cbv [id] in Hrender; congruence).
  clear Hrender. unfold PageCopy.draw in Hdraw.
  destruct (convert_dates data) as [e|d1] eqn:H1; cbv [bind ok] in Hdraw; [discriminate Hdraw|].
  destruct (Page.month_chart d1) as [e|[d2 c2]] eqn:H2; cbv [bind ok] in Hdraw;
    cbn [fst snd] in Hdraw; [discriminate Hdraw|].
  destruct (Page.weekday_chart d2) as [e|[d3 c3]] eqn:H3; cbv [bind ok] in Hdraw;
    cbn [fst snd] in Hdraw; [discriminate Hdraw|].
  destruct (PageCopy.duration_chart d3) as [e|[d4 c4]] eqn:H4; cbv [bind ok] in Hdraw;
    cbn [fst snd] in Hdraw; [discriminate Hdraw|].
  destruct (Page.severity_pie d4) as [e|c5]; cbv [bind ok] in Hdraw; [discriminate Hdraw|].
  destruct (Series.to_csv_str d4) as [e|csv] eqn:H5; cbv [bind ok] in Hdraw; [discriminate Hdraw|].
  injection Hdraw as <-. unfold table. cbn [PageCopy.downloaded PageCopy.download].
  clear table.
  destruct (convert_dates_squared data d1 Hwf H1) as (Hs1 & Hc1 & Hl1 & Hi1).
  pose proof (converted_dates data d1 Hwf H1) as Hr1.
  apply chart_column in H2; [|exact Hs1]. destruct H2 as (months & -> & Hlm).
  destruct (set_column_keeps "Month" months d1 Hs1 Hlm) as (Hs2 & Hl2 & Hi2 & Hr2).
  apply chart_column in H3; [|exact Hs2]. destruct H3 as (days & -> & Hld).
  destruct (set_column_keeps "Weekday" days _ Hs2 Hld) as (Hs3 & Hl3 & Hi3 & Hr3).
  unfold PageCopy.duration_chart in H4.
  destruct (Pd.column "Duration" _) as [e|durations] eqn:Hd; cbv [bind ok] in H4;
    [discriminate H4|].
  destruct (map_result duration_minutes_cell durations) as [e|mins] eqn:Hm; cbv [bind ok] in H4; [discriminate H4|].
  injection H4 as <- _.
  assert (length mins = length (rows (Pd.set_column "Weekday" days
                                        (Pd.set_column "Month" months d1)))) as Hlmin
    by (rewrite (map_result_length _ _ _ Hm); eapply column_length, Hd).
  destruct (set_column_keeps "Duration Minutes" (map CInt mins) _ Hs3) as (Hs4 & Hl4 & Hi4 & Hr4);
    [rewrite length_map; exact Hlmin|].
  destruct (set_column_keeps "Duration Bin"
              (map Series.category (map (Pd.cut duration_bins duration_bin_labels) mins))
              _ Hs4) as (Hs5 & Hl5 & Hi5 & Hr5);
    [rewrite !length_map, Hl4; exact Hlmin|].
  apply Forall_cons in Hnew as [N1 Hnew]. apply Forall_cons in Hnew as [N2 Hnew].
  apply Forall_cons in Hnew as [N3 Hnew]. apply Forall_cons in Hnew as [N4 _].
  rewrite <- Hc1 in N1, N2, N3, N4.
  assert (columns (Pd.set_column "Month" months d1) = columns d1 ++ ["Month"]%string) as C2
    by (apply columns_add, N1).
  assert (columns (Pd.set_column "Weekday" days (Pd.set_column "Month" months d1))
          = (columns d1 ++ ["Month"]%string) ++ ["Weekday"]%string) as C3.
  { rewrite columns_add; rewrite C2; [reflexivity|].
    rewrite existsb_app_one, N2. reflexivity. }
  set (d3 := Pd.set_column "Weekday" days (Pd.set_column "Month" months d1)) in *.
  assert (columns (Pd.set_column "Duration Minutes" (map CInt mins) d3)
          = columns d3 ++ ["Duration Minutes"]%string) as C4.
  { apply columns_add. rewrite C3, !existsb_app_one, N3. reflexivity. }
  set (d4 := Pd.set_column "Duration Minutes" (map CInt mins) d3) in *.
  set (bins := map Series.category _) in *.
  assert (columns (Pd.set_column "Duration Bin" bins d4)
          = columns d4 ++ ["Duration Bin"]%string) as C5.
  { apply columns_add. rewrite C4, C3, !existsb_app_one, N4. reflexivity. }
  split; [|split; [|split; [|split]]].
  - rewrite C5, C4, C3, Hc1. rewrite <- !app_assoc. reflexivity.
  - rewrite Hl5, Hl4, Hl3, Hl2, Hl1. reflexivity.
  - rewrite Hi5, Hi4, Hi3, Hi2, Hi1. reflexivity.
  - rewrite to_csv_encoded, H5. reflexivity.
  - change (Forall2 (keeps (columns data) (columns (Pd.set_column "Duration Bin" bins d4)))
                    (rows data) (rows (Pd.set_column "Duration Bin" bins d4))).
    apply (keeps_trans _ (columns d1) _ _ (rows d1)).
    { eapply Forall2_impl; [exact Hr1|]. intros row row' [_ Ho] c [Hc _]. apply Ho, Hc. }
    apply (keeps_trans _ (columns (Pd.set_column "Month" months d1)) _ _
                       (rows (Pd.set_column "Month" months d1))).
    { apply set_column_keeps_untouched; [assumption..|cbn; tauto]. }
    apply (keeps_trans _ (columns d3) _ _ (rows d3)).
    { apply set_column_keeps_untouched; [assumption..|cbn; tauto]. }
    apply (keeps_trans _ (columns d4) _ _ (rows d4)).
    { apply set_column_keeps_untouched; [assumption|rewrite length_map; exact Hlmin|cbn; tauto]. }
    apply set_column_keeps_untouched; [assumption| |cbn; tauto].
    unfold bins. rewrite !length_map, Hl4. exact Hlmin.
Qed.

Lemma copy_download_has_helper_columns_witness :
  exists p,
    PageCopy.render older_store = Rendered p
    /\ columns (PageCopy.downloaded p) = AppCopy.schema ++ helper_columns
    /\ Pd.to_csv (PageCopy.downloaded p) = ok (PageCopy.download p).
Proof.
  assert (exists p, PageCopy.render older_store = Rendered p) as [p Hp]
    by (eexists; vm_compute; reflexivity).
  exists p. split; [exact Hp|].
  pose proof (copy_download_has_helper_columns older_store older_data p eq_refl Hp) as H.
  cbv zeta in H.
  destruct H as (H1 & _ & _ & H2 & _).
  - repeat (apply List.Forall_cons; [reflexivity|]). apply List.Forall_nil.
  - split; [exact H1 | exact H2].
Defined.

(** * Tables that lack a column *)

(** X14. A table without a [Date] column stops the chart section of app.py
    with a [KeyError], whichever chart is selected: the conversion of
    line 109 comes before the choice of the chart, so also the duration and
    location charts, which check for their own column, do not get to show
    their message.  The page of the older copy fails in the same place. *)
Theorem charts_need_the_date_column (data : DataFrame) :
  Pd.empty data = false ->
  existsb (String.eqb "Date") (columns data) = false ->
  (forall selected, App.charts selected data = Raised KeyError)
  /\ (forall selected, Page.charts selected data = Raised KeyError)
  /\ PageCopy.draw data = raise KeyError.
Proof.
  intros He Hd.
  assert (convert_dates data = raise KeyError) as Hc
    by (unfold convert_dates; rewrite (column_absent _ _ Hd); reflexivity).
  split; [|split].
  - intros selected. unfold App.charts. rewrite He, Hc. reflexivity.
  - intros selected. unfold Page.charts. rewrite He, Hc. reflexivity.
  - unfold PageCopy.draw. rewrite Hc. reflexivity.
Qed.

Lemma charts_need_the_date_column_witness :
  App.charts DurationDistribution undated = Raised KeyError.
Proof.
  exact (proj1 (charts_need_the_date_column undated eq_refl eq_refl) DurationDistribution).
Defined.

(** * The five charts of the older copy, one after the other *)

Lemma chart_norm (name : string) (f : datetime -> string) (df : DataFrame) :
  squared df ->
  (try! dates := Pd.column "Date" df in
   try! cells := map_result (Series.dt f) dates in
   let data := Pd.set_column name cells df in
   try! col := Pd.column name data in
   ok (data, Series.value_counts col))
  = (try! dates := Pd.column "Date" df in
     try! cells := map_result (Series.dt f) dates in
     ok (Pd.set_column name cells df, Series.value_counts cells)).
Proof.
  intros Hsq. destruct (Pd.column "Date" df) as [e|dates] eqn:Hd; [reflexivity|].
  cbv [bind]. destruct (map_result (Series.dt f) dates) as [e|cells] eqn:Hc; [reflexivity|].
  cbv zeta. rewrite (proj2 (rows_set_column name cells df Hsq
                              ltac:(rewrite (map_result_length _ _ _ Hc);
                                    eapply column_length, Hd))).
  reflexivity.
Qed.

(** The cells of a converted [Date] column: times and missing values. *)
Lemma stamps_dt (f : datetime -> string) (col stamps : list cell) :
  map_result Pd.to_datetime col = ok stamps ->
  exists cells, map_result (Series.dt f) stamps = ok cells.
Proof.
  intros H. apply map_result_Forall2 in H. apply map_result_ok.
  induction H as [|c s col stamps Hc _ IH]; constructor; [|exact IH].
  destruct c as [| | | |t| |]; cbn in Hc; try discriminate Hc;
    try (injection Hc as <-; eexists; reflexivity).
  destruct (Pd.parse_iso_date t); [|discriminate Hc]. injection Hc as <-.
  eexists; reflexivity.
Qed.

Lemma convert_dates_column (data data' : DataFrame) :
  well_formed data -> convert_dates data = ok data' ->
  exists col stamps,
    Pd.column "Date" data = ok col /\ map_result Pd.to_datetime col = ok stamps
    /\ data' = Pd.set_column "Date" stamps data
    /\ Pd.column "Date" data' = ok stamps.
Proof.
  intros [_ Hwf] H. unfold convert_dates in H.
  destruct (Pd.column "Date" data) as [e|col] eqn:Hcol; cbv [bind ok] in H; [discriminate H|].
  destruct (map_result Pd.to_datetime col) as [e|stamps] eqn:Hs; [discriminate H|].
  injection H as <-. exists col, stamps.
  split; [reflexivity|]. split; [exact Hs|]. split; [reflexivity|].
  apply rows_set_column; [exact Hwf|].
  rewrite (map_result_length _ _ _ Hs). eapply column_length, Hcol.
Qed.

(** What the page of the older copy computes, chart by chart, in terms of
    the converted table [d1] alone. *)
Lemma draw_steps (data : DataFrame) (p : PageCopy.page) :
  well_formed data -> PageCopy.draw data = ok p ->
  exists d1 stamps months days durations mins severity,
    convert_dates data = ok d1
    /\ Pd.column "Date" d1 = ok stamps
    /\ map_result (Series.dt Series.strftime_month) stamps = ok months
    /\ map_result (Series.dt Series.day_name) stamps = ok days
    /\ Pd.column "Duration" d1 = ok durations
    /\ map_result duration_minutes_cell durations = ok mins
    /\ Pd.column "Severity" d1 = ok severity
    /\ PageCopy.severity_line p = severity_chart d1
    /\ PageCopy.by_month p = Series.value_counts months
    /\ PageCopy.by_weekday p = Series.value_counts days
    /\ PageCopy.by_duration p
       = Pd.value_counts_categorical duration_bin_labels
           (map (Pd.cut duration_bins duration_bin_labels) mins)
    /\ PageCopy.by_severity p = Series.value_counts severity.
Proof.
  intros Hwf Hdraw. unfold PageCopy.draw in Hdraw.
  destruct (convert_dates data) as [e|d1] eqn:H1; cbv [bind ok] in Hdraw; [discriminate Hdraw|].
  destruct (convert_dates_squared data d1 Hwf H1) as (Hs1 & _ & _ & _).
  destruct (convert_dates_column data d1 Hwf H1) as (col & stamps & _ & _ & _ & Hst).
  unfold Page.month_chart in Hdraw. rewrite (chart_norm "Month" _ d1 Hs1), Hst in Hdraw.
  cbv [bind ok] in Hdraw.
  destruct (map_result (Series.dt Series.strftime_month) stamps) as [e|months] eqn:Hm;
    [discriminate Hdraw|].
  cbn [fst snd] in Hdraw.
  assert (length months = length (rows d1)) as Hlm
    by (rewrite (map_result_length _ _ _ Hm); eapply column_length, Hst).
  pose proof (set_column_squared "Month" months d1 Hs1 Hlm) as Hs2.
  pose proof (set_column_length "Month" months d1 Hs1 Hlm) as Hl2.
  set (d2 := Pd.set_column "Month" months d1) in *.
  unfold Page.weekday_chart in Hdraw. rewrite (chart_norm "Weekday" _ d2 Hs2) in Hdraw.
  assert (Pd.column "Date" d2 = ok stamps) as Hst2
    by (unfold d2; rewrite column_set_other by (assumption || discriminate); exact Hst).
  rewrite Hst2 in Hdraw. cbv [bind ok] in Hdraw.
  destruct (map_result (Series.dt Series.day_name) stamps) as [e|days] eqn:Hd;
    [discriminate Hdraw|].
  cbn [fst snd] in Hdraw.
  assert (length days = length (rows d2)) as Hld
    by (rewrite Hl2, (map_result_length _ _ _ Hd); eapply column_length, Hst).
  pose proof (set_column_squared "Weekday" days d2 Hs2 Hld) as Hs3.
  pose proof (set_column_length "Weekday" days d2 Hs2 Hld) as Hl3.
  set (d3 := Pd.set_column "Weekday" days d2) in *.
  unfold PageCopy.duration_chart in Hdraw.
  assert (Pd.column "Duration" d3 = Pd.column "Duration" d1) as Hdur.
  { unfold d3, d2. rewrite !column_set_other by (assumption || discriminate). reflexivity. }
  rewrite Hdur in Hdraw.
  destruct (Pd.column "Duration" d1) as [e|durations] eqn:Hcd; cbv [bind ok] in Hdraw;
    [discriminate Hdraw|].
  destruct (map_result duration_minutes_cell durations) as [e|mins] eqn:Hmins;
    [discriminate Hdraw|].
  cbn [fst snd] in Hdraw.
  assert (length mins = length (rows d3)) as Hlmin.
  { rewrite Hl3, Hl2, (map_result_length _ _ _ Hmins). eapply column_length, Hcd. }
  pose proof (set_column_squared "Duration Minutes" (map CInt mins) d3 Hs3
                ltac:(rewrite length_map; exact Hlmin)) as Hs4.
  pose proof (set_column_length "Duration Minutes" (map CInt mins) d3 Hs3
                ltac:(rewrite length_map; exact Hlmin)) as Hl4.
  set (d4 := Pd.set_column "Duration Minutes" (map CInt mins) d3) in *.
  set (bins := map (Pd.cut duration_bins duration_bin_labels) mins) in *.
  unfold Page.severity_pie in Hdraw.
  assert (Pd.column "Severity" (Pd.set_column "Duration Bin" (map Series.category bins) d4)
          = Pd.column "Severity" d1) as Hsev.
  { rewrite column_set_other;
      [|exact Hs4|unfold bins; rewrite !length_map, Hl4; exact Hlmin|discriminate].
    unfold d4. rewrite column_set_other;
      [|exact Hs3|rewrite length_map; exact Hlmin|discriminate].
    unfold d3, d2. rewrite !column_set_other by (assumption || discriminate). reflexivity. }
  rewrite Hsev in Hdraw.
  destruct (Pd.column "Severity" d1) as [e|severity] eqn:Hcs; cbv [bind ok] in Hdraw;
    [discriminate Hdraw|].
  destruct (Series.to_csv_str _) as [e|csv]; [discriminate Hdraw|].
  injection Hdraw as <-.
  exists d1, stamps, months, days, durations, mins, severity.
  cbn [PageCopy.severity_line PageCopy.by_month PageCopy.by_weekday PageCopy.by_duration
       PageCopy.by_severity].
  repeat split; try assumption; reflexivity.
Qed.

(** X15. The older copy draws its five charts one after the other on one
    table and writes helper columns into it on the way.  Whenever its page
    is drawn to the end, each chart shows what app.py shows for the same
    table when that chart is selected there: the columns written by one
    chart are not read by the next. *)
Theorem copy_charts_are_the_charts_of_app (data : DataFrame) (p : PageCopy.page) :
  well_formed data -> Pd.empty data = false -> PageCopy.draw data = ok p ->
  App.charts SeverityOverTime data = Rendered (App.SeverityChart (PageCopy.severity_line p))
  /\ Page.charts Page.ByMonth data = Rendered (PageCopy.by_month p)
  /\ Page.charts Page.ByWeekday data = Rendered (PageCopy.by_weekday p)
  /\ App.charts DurationDistribution data = Rendered (App.CountChart (PageCopy.by_duration p))
  /\ Page.charts Page.BySeverity data = Rendered (PageCopy.by_severity p).
Proof.
  intros Hwf He Hdraw.
  destruct (draw_steps data p Hwf Hdraw)
    as (d1 & stamps & months & days & durations & mins & severity
        & H1 & Hst & Hm & Hd & Hcd & Hmins & Hcs & -> & -> & -> & -> & ->).
  destruct (convert_dates_squared data d1 Hwf H1) as (Hs1 & _ & _ & _).
  unfold App.charts, Page.charts. rewrite He, H1. cbv [ok].
  split; [reflexivity|]. split; [|split; [|split]].
  - unfold Page.month_chart. rewrite (chart_norm "Month" _ d1 Hs1), Hst. cbv [bind ok].
    cbv [ok] in Hm. rewrite Hm. reflexivity.
  - unfold Page.weekday_chart. rewrite (chart_norm "Weekday" _ d1 Hs1), Hst. cbv [bind ok].
    cbv [ok] in Hd. rewrite Hd. reflexivity.
  - assert (existsb (String.eqb "Duration") (columns d1) = true) as ->.
    { destruct (existsb (String.eqb "Duration") (columns d1)) eqn:E; [reflexivity|].
      rewrite (column_absent _ _ E) in Hcd. discriminate Hcd. }
    unfold duration_counts. rewrite Hcd. cbv [bind ok]. cbv [ok] in Hmins. rewrite Hmins.
    reflexivity.
  - unfold Page.severity_pie. rewrite Hcs. reflexivity.
Qed.

Lemma copy_charts_are_the_charts_of_app_witness :
  exists p,
    PageCopy.draw older_data = ok p
    /\ Page.charts Page.ByMonth older_data = Rendered (PageCopy.by_month p).
Proof.
  assert (exists p, PageCopy.draw older_data = ok p) as [p Hp]
    by (eexists; vm_compute; reflexivity).
  exists p. split; [exact Hp|].
  refine (proj1 (proj2 (copy_charts_are_the_charts_of_app older_data p _ eq_refl Hp))).
  split; [reflexivity|]. repeat constructor.
Defined.

(** X16. With the dates in place, app.py answers a missing [Duration] or
    [Location] column with its message and draws nothing, where the older
    copy, which draws the duration chart without such a check, stops with a
    [KeyError]. *)
Theorem missing_chart_column (data data' : DataFrame) :
  well_formed data -> Pd.empty data = false -> convert_dates data = ok data' ->
  (existsb (String.eqb "Duration") (columns data) = false ->
     App.charts DurationDistribution data
     = Noticed (Failure "'Duration' 列缺失，请检查数据")
     /\ PageCopy.draw data = raise KeyError)
  /\ (existsb (String.eqb "Location") (columns data) = false ->
      App.charts LocationDistribution data
      = Noticed (Failure "'Location' 列缺失，请检查数据")).
Proof.
  intros Hwf He H1.
  destruct (convert_dates_squared data data' Hwf H1) as (Hs1 & Hc1 & _ & _).
  destruct (convert_dates_column data data' Hwf H1) as (col & stamps & _ & Hts & _ & Hst).
  split.
  - intros Hd. split.
    + unfold App.charts. rewrite He, H1. cbv [ok]. rewrite Hc1, Hd. reflexivity.
    + unfold PageCopy.draw. rewrite H1. cbv [bind ok].
      unfold Page.month_chart. rewrite (chart_norm "Month" _ data' Hs1), Hst. cbv [bind ok].
      destruct (stamps_dt Series.strftime_month col stamps Hts) as [months Hm].
      cbv [ok] in Hm. rewrite Hm. cbn [fst snd].
      assert (length months = length (rows data')) as Hlm
        by (rewrite (map_result_length _ _ _ Hm); eapply column_length, Hst).
      pose proof (set_column_squared "Month" months data' Hs1 Hlm) as Hs2.
      pose proof (set_column_length "Month" months data' Hs1 Hlm) as Hl2.
      unfold Page.weekday_chart.
      rewrite (chart_norm "Weekday" _ _ Hs2).
      rewrite column_set_other by (assumption || discriminate). rewrite Hst. cbv [bind ok].
      destruct (stamps_dt Series.day_name col stamps Hts) as [days Hdays].
      cbv [ok] in Hdays. rewrite Hdays. cbn [fst snd].
      assert (length days = length (rows (Pd.set_column "Month" months data'))) as Hld
        by (rewrite Hl2, (map_result_length _ _ _ Hdays); eapply column_length, Hst).
      unfold PageCopy.duration_chart.
      rewrite !column_set_other by (assumption || discriminate).
      rewrite column_absent by (rewrite Hc1; exact Hd). reflexivity.
  - intros Hl. unfold App.charts. rewrite He, H1. cbv [ok]. rewrite Hc1, Hl. reflexivity.
Qed.

Lemma missing_chart_column_witness :
  App.charts DurationDistribution dates_only
  = Noticed (Failure "'Duration' 列缺失，请检查数据")
  /\ PageCopy.draw dates_only = raise KeyError.
Proof.
  refine (proj1 (missing_chart_column dates_only _ _ eq_refl eq_refl) eq_refl).
  split; [reflexivity|]. repeat constructor.
Defined.

(** * Records without a duration *)

Lemma map_result_first_error {A B} (f : A -> result B) (e : exn) (l : list A) :
  Forall (fun a => f a = raise e \/ exists b, f a = ok b) l ->
  Exists (fun a => f a = raise e) l ->
  map_result f l = raise e.
Proof.
  induction 1 as [|a l Ha _ IH]; intros Hex; [inversion Hex|].
  cbn [map_result]. destruct Ha as [Ha | [b Hb]].
  - rewrite Ha. reflexivity.
  - rewrite Hb. cbv [bind ok]. inversion Hex as [? ? Hbad|? ? Hex']; subst.
    + rewrite Hb in Hbad. discriminate Hbad.
    + rewrite (IH Hex'). reflexivity.
Qed.

Lemma column_converted_other (c : string) (data data' : DataFrame) :
  well_formed data -> convert_dates data = ok data' -> c <> "Date"%string ->
  Pd.column c data' = Pd.column c data.
Proof.
  intros Hwf H Hc.
  destruct (convert_dates_column data data' Hwf H) as (col & stamps & Hcol & Hs & -> & _).
  apply column_set_other; [apply Hwf| |exact Hc].
  rewrite (map_result_length _ _ _ Hs). eapply column_length, Hcol.
Qed.

(** X17. A record whose [Duration] is not a text (a missing value, after the
    cell was cleared in the table editor or in the file) is not skipped by
    the duration chart: when every duration before it can be parsed, the
    chart of app.py stops with an [AttributeError], and with it the whole
    page of the older copy, download included. *)
Theorem duration_chart_needs_texts (data data' : DataFrame) (durations : list cell) :
  well_formed data -> Pd.empty data = false -> convert_dates data = ok data' ->
  Pd.column "Duration" data = ok durations ->
  Forall (fun c => no_text c = true \/ exists z, duration_minutes_cell c = ok z) durations ->
  Exists (fun c => no_text c = true) durations ->
  App.charts DurationDistribution data = Raised AttributeError
  /\ PageCopy.draw data = raise AttributeError.
Proof.
  intros Hwf He H1 Hcol Hall Hex.
  assert (map_result duration_minutes_cell durations = raise AttributeError) as Hm.
  { apply map_result_first_error.
    - eapply Forall_impl; [exact Hall|]. intros c [Hc | Hc]; [left | right; exact Hc].
      destruct c; try reflexivity; discriminate Hc.
    - eapply Exists_impl; [exact Hex|]. intros c Hc.
      destruct c; try reflexivity; discriminate Hc. }
  destruct (convert_dates_squared data data' Hwf H1) as (Hs1 & Hc1 & _ & _).
  destruct (convert_dates_column data data' Hwf H1) as (col & stamps & _ & Hts & _ & Hst).
  assert (Pd.column "Duration" data' = ok durations) as Hcol'
    by (rewrite (column_converted_other _ data data' Hwf H1) by discriminate; exact Hcol).
  split.
  - unfold App.charts. rewrite He, H1. cbv [ok].
    assert (existsb (String.eqb "Duration") (columns data') = true) as ->.
    { destruct (existsb (String.eqb "Duration") (columns data')) eqn:E; [reflexivity|].
      rewrite (column_absent _ _ E) in Hcol'. discriminate Hcol'. }
    unfold duration_counts. rewrite Hcol'. cbv [bind ok]. rewrite Hm. reflexivity.
  - unfold PageCopy.draw. rewrite H1. cbv [bind ok].
    unfold Page.month_chart. rewrite (chart_norm "Month" _ data' Hs1), Hst. cbv [bind ok].
    destruct (stamps_dt Series.strftime_month col stamps Hts) as [months Hmo].
    cbv [ok] in Hmo. rewrite Hmo. cbn [fst snd].
    assert (length months = length (rows data')) as Hlm
      by (rewrite (map_result_length _ _ _ Hmo); eapply column_length, Hst).
    pose proof (set_column_squared "Month" months data' Hs1 Hlm) as Hs2.
    pose proof (set_column_length "Month" months data' Hs1 Hlm) as Hl2.
    unfold Page.weekday_chart.
    rewrite (chart_norm "Weekday" _ _ Hs2).
    rewrite column_set_other by (assumption || discriminate). rewrite Hst. cbv [bind ok].
    destruct (stamps_dt Series.day_name col stamps Hts) as [days Hdays].
    cbv [ok] in Hdays. rewrite Hdays. cbn [fst snd].
    assert (length days = length (rows (Pd.set_column "Month" months data'))) as Hld
      by (rewrite Hl2, (map_result_length _ _ _ Hdays); eapply column_length, Hst).
    unfold PageCopy.duration_chart.
    rewrite !column_set_other by (assumption || discriminate).
    rewrite Hcol'. cbv [bind ok]. rewrite Hm. reflexivity.
Qed.

Lemma duration_chart_needs_texts_witness :
  App.charts DurationDistribution cleared_duration = Raised AttributeError
  /\ PageCopy.draw cleared_duration = raise AttributeError.
Proof.
  refine (duration_chart_needs_texts cleared_duration _ _ _ eq_refl eq_refl eq_refl _ _).
  - split; [reflexivity | repeat constructor].
  - apply List.Forall_cons; [right; eexists; reflexivity|].
    apply List.Forall_cons; [left; reflexivity | apply List.Forall_nil].
  - apply List.Exists_cons_tl, List.Exists_cons_hd. reflexivity.
Defined.

(** * Deleting the only record *)

Lemma clean_header_stable (cols : list string) :
  clean_header cols -> stable (Pd.empty_frame cols).
Proof.
  intros (Hclean & Hnames & Hdup). unfold stable, Pd.empty_frame; cbn [columns rows index].
  split; [split; [reflexivity | constructor]|].
  split; [exact Hclean|]. split; [exact Hnames|]. split; [exact Hdup|].
  intros k _. apply IntColumn. constructor.
Qed.

Lemma without_single {A} (a : A) : without 0 [a] = [].
Proof. reflexivity. Qed.

(** X18. Deleting the only record leaves a file that holds the header alone.
    The file is loaded as the empty table with the columns it had, so the
    page then offers nothing to delete, to download or to chart; the
    columns are not lost. *)
Theorem delete_only_record (st : store) (data : DataFrame) :
  App.load_data st = ok data -> clean_header (columns data) ->
  length (rows data) = 1%nat ->
  exists content,
    App.delete_record st 0 = (Some content, Noticed (Success "记录已删除"))
    /\ App.load_data (Some content) = ok (Pd.empty_frame (columns data))
    /\ (forall i, App.delete_record (Some content) i = (Some content, Idle))
    /\ Page.download (Pd.empty_frame (columns data)) = Idle
    /\ (forall selected, App.charts selected (Pd.empty_frame (columns data)) = Idle).
Proof.
  intros Hload Hclean Hone.
  destruct (app_load_data_shape _ _ Hload) as [_ Hwf].
  destruct (stable_round_trip _ (clean_header_stable _ Hclean)) as (content & Hw & Hr).
  exists content.
  assert (App.load_data (Some content) = ok (Pd.empty_frame (columns data))) as Hre
    by (apply app_load_saved, Hr).
  assert (Pd.empty data = false) as He.
  { unfold Pd.empty. rewrite Hone. destruct Hclean as ([Hlen _] & _).
    destruct (columns data); [cbn in Hlen; lia | reflexivity]. }
  split; [|split; [exact Hre|split; [|split]]].
  - unfold App.delete_record. rewrite Hload. cbv [ok]. rewrite He.
    destruct (drop_present data 0 Hwf ltac:(lia)) as [idx Hd].
    change (Z.of_nat 0) with 0 in Hd.
    rewrite Hd. cbv [bind ok]. unfold Pd.reset_index. cbn [columns rows].
    destruct (rows data) as [|row [|row' rs]]; try discriminate Hone.
    rewrite without_single. cbn [length]. unfold App.save_data.
    change (Frame (columns data) (Pd.range 0) []) with (Pd.empty_frame (columns data)).
    rewrite Hw. reflexivity.
  - intros i. unfold App.delete_record. rewrite Hre. reflexivity.
  - reflexivity.
  - intros selected. reflexivity.
Qed.

Example single_store_loads : App.load_data single_store = ok single_data.
Proof. reflexivity. Qed.

Lemma delete_only_record_witness :
  exists content,
    App.delete_record single_store 0 = (Some content, Noticed (Success "记录已删除"))
    /\ App.load_data (Some content) = ok (Pd.empty_frame App.schema).
Proof.
  destruct (delete_only_record single_store single_data single_store_loads) as (content & H1 & H2 & _).
  - split; [split; [cbn; lia | repeat (apply List.Forall_cons; [reflexivity|]); apply List.Forall_nil]|].
    split; [|reflexivity].
    repeat (apply List.Forall_cons; [discriminate|]). apply List.Forall_nil.
  - reflexivity.
  - exists content. split; [exact H1 | exact H2].
Defined.

(** * The first record of a new file *)

Lemma labels_plain :
  forallb (fun h => forallb (fun m => plain_text (duration_label (Z.of_nat h) (Z.of_nat m)))
                            (seq 0 60))
          (seq 0 24) = true.
Proof. vm_compute. reflexivity. Qed.

Lemma label_plain (h m : Z) :
  0 <= h <= 23 -> 0 <= m <= 59 -> plain_text (duration_label h m) = true.
Proof.
  intros Hh Hm. pose proof labels_plain as H. rewrite forallb_forall in H.
  specialize (H (Z.to_nat h) ltac:(apply in_seq; lia)). rewrite forallb_forall in H.
  specialize (H (Z.to_nat m) ltac:(apply in_seq; lia)).
  rewrite !Z2Nat.id in H by lia. exact H.
Qed.

Lemma is_na_two_digits (c1 c2 : ascii) (t : string) :
  is_digit c1 = true -> is_digit c2 = true -> Pd.is_na (String c1 (String c2 t)) = false.
Proof.
  intros H1 H2. apply digit_cases in H1, H2.
  repeat (destruct H1 as [<- | H1]);
    try (repeat (destruct H2 as [<- | H2]); first [reflexivity | destruct H2]).
  destruct H1.
Qed.

Lemma stamp_chars_no_cr (s : string) : all_chars is_stamp_char s = true -> no_cr s = true.
Proof.
  unfold no_cr. apply all_chars_impl. intros c Hc.
  apply negb_true_iff, Ascii.eqb_neq. intros ->. discriminate.
Qed.

Lemma digits_stamp_chars (s : string) :
  all_chars is_digit s = true -> all_chars is_stamp_char s = true.
Proof.
  apply all_chars_impl. intros c Hc. unfold is_stamp_char. rewrite Hc. reflexivity.
Qed.

Lemma isoformat_head (d : date) :
  DT.valid_date d = true ->
  exists c1 c2 p r,
    DT.isoformat d = String c1 (String c2 p) +:+ String "-" r
    /\ is_digit c1 = true /\ is_digit c2 = true /\ all_chars is_digit p = true
    /\ all_chars is_stamp_char (DT.isoformat d) = true.
Proof.
  intros Hv. destruct (date_ranges d Hv) as (Hy & Hm & Hd).
  destruct (padded_spec 4 (100 * 100) (year d) padded_four Hy) as (Hy1 & Hy2 & _).
  destruct (padded_spec 2 100 (month d) padded_two Hm) as (Hm1 & _ & _).
  destruct (padded_spec 2 100 (day d) padded_two Hd) as (Hd1 & _ & _).
  cbv zeta in *. unfold DT.isoformat.
  destruct (DT.zfill 4 (Py.str (year d))) as [|c1 [|c2 p]]; try discriminate.
  cbn [all_chars] in Hy1. apply andb_prop in Hy1 as [Hc1 Hy1].
  apply andb_prop in Hy1 as [Hc2 Hp].
  exists c1, c2, p, (DT.zfill 2 (Py.str (month d)) +:+ "-" +:+ DT.zfill 2 (Py.str (day d))).
  split; [reflexivity|]. split; [exact Hc1|]. split; [exact Hc2|]. split; [exact Hp|].
  rewrite !all_chars_app.
  rewrite (digits_stamp_chars (String c1 (String c2 p)))
    by (cbn [all_chars]; rewrite Hc1, Hc2, Hp; reflexivity).
  rewrite (digits_stamp_chars _ Hm1), (digits_stamp_chars _ Hd1). reflexivity.
Qed.

(** A text that begins like an ISO date comes back from the file as it
    is. *)
Lemma dated_text_plain (d : date) (rest : string) :
  DT.valid_date d = true -> all_chars is_stamp_char rest = true ->
  plain_text (DT.isoformat d +:+ rest) = true.
Proof.
  intros Hv Hrest.
  destruct (isoformat_head d Hv) as (c1 & c2 & p & r & Es & Hc1 & Hc2 & Hp & Hchars).
  assert (DT.isoformat d +:+ rest = String c1 (String c2 p) +:+ String "-" (r +:+ rest)) as E
    by (rewrite Es, append_assoc, append_cons; reflexivity).
  destruct (dashed_text_plain c1 (String c2 p) (r +:+ rest) Hc1) as (_ & Hdbl & Hbool);
    [cbn [all_chars]; rewrite Hc2, Hp; reflexivity|].
  cbv zeta in Hdbl, Hbool. rewrite <- E in Hdbl, Hbool.
  unfold plain_text. rewrite Hdbl, Hbool.
  rewrite (stamp_chars_no_cr (DT.isoformat d +:+ rest))
    by (rewrite all_chars_app, Hchars, Hrest; reflexivity).
  rewrite E, !append_cons, is_na_two_digits by assumption. reflexivity.
Qed.

Lemma isoformat_plain (d : date) :
  DT.valid_date d = true -> plain_text (DT.isoformat d) = true.
Proof.
  intros Hv. rewrite <- (append_empty_r (DT.isoformat d)).
  apply dated_text_plain; [exact Hv | reflexivity].
Qed.

Lemma strftime_plain (d : date) (t : time) :
  DT.valid_date d = true -> DT.valid_time t = true ->
  plain_text (DT.strftime_minutes (DT.combine d t)) = true.
Proof.
  intros Hd Ht. apply valid_time_bounds in Ht. destruct Ht as (Hh & Hm & _).
  destruct (padded_spec 2 100 (hour t) padded_two ltac:(lia)) as (Hh1 & _ & _).
  destruct (padded_spec 2 100 (minute t) padded_two ltac:(lia)) as (Hm1 & _ & _).
  cbv zeta in *. unfold DT.strftime_minutes, DT.combine. cbn [dt_date dt_time].
  apply dated_text_plain; [exact Hd|].
  rewrite !all_chars_app, (digits_stamp_chars _ Hh1), (digits_stamp_chars _ Hm1).
  reflexivity.
Qed.

Lemma plain_text_column (s : string) : plain_text s = true -> stable_column [CStr s].
Proof.
  unfold plain_text. intros H.
  apply andb_prop in H as [H Hbool]. apply andb_prop in H as [H Hdbl].
  apply andb_prop in H as [Hna Hcr].
  apply negb_true_iff in Hna, Hdbl, Hbool.
  apply TextColumn.
  - apply List.Forall_cons; [|apply List.Forall_nil]. right. exists s. repeat split; assumption.
  - apply List.Exists_cons_hd. exists s. repeat split; assumption.
Qed.

Lemma remark_column (r : string) :
  r = EmptyString \/ plain_text r = true -> stable_column [remark_cell r].
Proof.
  intros [-> | H].
  - apply FloatColumn. apply List.Forall_cons; [left; reflexivity | apply List.Forall_nil].
  - destruct r as [|c r]; [discriminate H|]. apply plain_text_column, H.
Qed.

Lemma reloaded_stable (d : date) (s e : time) (f : App.form) :
  DT.valid_date d = true -> DT.valid_time s = true -> DT.valid_time e = true ->
  whole_minutes s -> whole_minutes e ->
  DT.gt (DT.combine d s) (DT.combine d e) = false ->
  int64 (App.f_severity f) = true ->
  App.f_remarks f = EmptyString \/ plain_text (App.f_remarks f) = true ->
  In (App.f_location f) location_options ->
  stable (Pd.frame_of_rows App.schema [reloaded_row d s e f]).
Proof.
  intros Hd Hs He Hws Hwe Hgt Hsev Hrem Hloc.
  split; [split; [reflexivity | repeat constructor]|].
  split; [split; [cbn; lia | each_cell ltac:(exact eq_refl)]|].
  split; [each_cell ltac:(cbv beta; discriminate)|].
  split; [reflexivity|].
  intros k Hk. cbn in Hk. unfold column_cells, Pd.frame_of_rows, reloaded_row.
  cbn [rows map].
  destruct k as [|[|[|[|[|[|[|[|k]]]]]]]]; try lia; cbn [nth].
  - apply plain_text_column, isoformat_plain, Hd.
  - apply plain_text_column, strftime_plain; assumption.
  - apply plain_text_column, strftime_plain; assumption.
  - destruct (same_day_label d s e Hd Hs He Hgt) as (h & m & -> & Hh & Hm).
    apply plain_text_column, label_plain; assumption.
  - apply IntColumn. apply List.Forall_cons; [|apply List.Forall_nil].
    eexists. split; [reflexivity | exact Hsev].
  - apply remark_column, Hrem.
  - destruct Hloc as [<- | [<- | [<- | []]]]; apply plain_text_column; reflexivity.
  - destruct (whole_minutes_total d s e Hs He Hws Hwe) as (n & -> & Hn).
    apply FloatColumn. apply List.Forall_cons; [|apply List.Forall_nil].
    right. exists n. split; [reflexivity | exact Hn].
Qed.

Lemma reloaded_rendered (d : date) (s e : time) (f : App.form) :
  map_result Pd.render (entered_row d s e f) = map_result Pd.render (reloaded_row d s e f).
Proof.
  unfold entered_row, reloaded_row. cbn [map_result].
  destruct (App.f_remarks f); reflexivity.
Qed.

(** * A diary kept through the create form *)

Lemma texts_column (l : list cell) :
  Forall (fun c => exists s, c = CStr s /\ plain_text s = true) l -> stable_column l.
Proof.
  intros H. destruct l as [|c l]; [apply IntColumn; constructor|].
  assert (forall s, plain_text s = true ->
            Pd.is_na s = false /\ no_cr s = true /\ Pd.is_double s = false
            /\ Pd.is_bool s = false) as Hplain.
  { intros s Hs. unfold plain_text in Hs.
    apply andb_prop in Hs as [Hs Hbool]. apply andb_prop in Hs as [Hs Hdbl].
    apply andb_prop in Hs as [Hna Hcr]. apply negb_true_iff in Hna, Hdbl, Hbool. auto. }
  apply TextColumn.
  - eapply Forall_impl; [exact H|]. intros x (s & -> & Hs).
    destruct (Hplain s Hs) as (Hna & Hcr & _). right. exists s. auto.
  - apply Forall_cons in H as [(s & -> & Hs) _]. apply List.Exists_cons_hd.
    destruct (Hplain s Hs) as (_ & _ & Hdbl & Hbool). exists s. auto.
Qed.

Lemma remarks_column (l : list cell) :
  Forall (fun c => c = NaN \/ exists s, c = CStr s /\ plain_text s = true) l ->
  stable_column l.
Proof.
  intros H.
  assert (Forall (fun c => c = NaN) l \/ Exists (fun c => exists s, c = CStr s /\ plain_text s = true) l)
    as [Hnan | Hex].
  { clear -H. induction H as [|c l Hc _ IH]; [left; constructor|].
    destruct Hc as [-> | Hc]; [|right; apply List.Exists_cons_hd, Hc].
    destruct IH as [IH | IH]; [left; constructor; [reflexivity | exact IH]|].
    right. apply List.Exists_cons_tl, IH. }
  - apply FloatColumn. eapply Forall_impl; [exact Hnan|]. intros c ->. left. reflexivity.
  - assert (forall s, plain_text s = true ->
              Pd.is_na s = false /\ no_cr s = true /\ Pd.is_double s = false
              /\ Pd.is_bool s = false) as Hplain.
    { intros s Hs. unfold plain_text in Hs.
      apply andb_prop in Hs as [Hs Hbool]. apply andb_prop in Hs as [Hs Hdbl].
      apply andb_prop in Hs as [Hna Hcr]. apply negb_true_iff in Hna, Hdbl, Hbool. auto. }
    apply TextColumn.
    + eapply Forall_impl; [exact H|]. intros x [-> | (s & -> & Hs)]; [left; reflexivity|].
      destruct (Hplain s Hs) as (Hna & Hcr & _). right. exists s. auto.
    + eapply List.Exists_impl; [|exact Hex]. intros x (s & -> & Hs).
      destruct (Hplain s Hs) as (_ & _ & Hdbl & Hbool). exists s. auto.
Qed.

Lemma acceptable_times (f : App.form) :
  acceptable f ->
  exists d s e,
    App.f_date f = Some d /\ App.f_start f = Some s /\ App.f_end f = Some e
    /\ reloaded f = reloaded_row d s e f
    /\ DT.valid_date d = true /\ DT.valid_time s = true /\ DT.valid_time e = true
    /\ whole_minutes s /\ whole_minutes e
    /\ DT.gt (DT.combine d s) (DT.combine d e) = false
    /\ int64 (App.f_severity f) = true
    /\ (App.f_remarks f = EmptyString \/ plain_text (App.f_remarks f) = true)
    /\ In (App.f_location f) location_options.
Proof.
  unfold acceptable, reloaded.
  destruct (App.f_date f) as [d|]; [|intros []].
  destruct (App.f_start f) as [s|]; [|intros []].
  destruct (App.f_end f) as [e|]; [|intros []].
  intros H. exists d, s, e. repeat split; try reflexivity; apply H.
Qed.

Lemma diary_column (k : nat) (entries : list App.form) :
  Forall acceptable entries -> (k < 8)%nat ->
  stable_column (map (fun f => nth k (reloaded f) NaN) entries).
Proof.
  intros H Hk.
  assert (forall f, acceptable f ->
            exists d s e, reloaded f = reloaded_row d s e f
              /\ plain_text (DT.isoformat d) = true
              /\ plain_text (DT.strftime_minutes (DT.combine d s)) = true
              /\ plain_text (DT.strftime_minutes (DT.combine d e)) = true
              /\ plain_text (fst (calculate_duration (DT.combine d s) (DT.combine d e))) = true
              /\ int64 (App.f_severity f) = true
              /\ (App.f_remarks f = EmptyString \/ plain_text (App.f_remarks f) = true)
              /\ plain_text (App.f_location f) = true
              /\ float_cell (CFloat (snd (calculate_duration (DT.combine d s) (DT.combine d e)))))
    as Hrow.
  { intros f Hf.
    destruct (acceptable_times f Hf)
      as (d & s & e & _ & _ & _ & Er & Hd & Hs & He & Hws & Hwe & Hgt & Hsev & Hrem & Hloc).
    exists d, s, e. split; [exact Er|].
    split; [apply isoformat_plain, Hd|].
    split; [apply strftime_plain; assumption|].
    split; [apply strftime_plain; assumption|].
    split.
    { destruct (same_day_label d s e Hd Hs He Hgt) as (h & m & -> & Hh & Hm).
      apply label_plain; assumption. }
    split; [exact Hsev|]. split; [exact Hrem|].
    split; [destruct Hloc as [<- | [<- | [<- | []]]]; reflexivity|].
    destruct (whole_minutes_total d s e Hs He Hws Hwe) as (n & -> & Hn).
    right. exists n. split; [reflexivity | exact Hn]. }
  destruct k as [|[|[|[|[|[|[|[|k]]]]]]]]; try lia.
  - apply texts_column, Forall_map. eapply Forall_impl; [exact H|]. intros f Hf. cbv beta.
    destruct (Hrow f Hf) as (d & s & e & -> & H0 & _). eexists; split; [reflexivity | exact H0].
  - apply texts_column, Forall_map. eapply Forall_impl; [exact H|]. intros f Hf. cbv beta.
    destruct (Hrow f Hf) as (d & s & e & -> & _ & H1 & _). eexists; split; [reflexivity | exact H1].
  - apply texts_column, Forall_map. eapply Forall_impl; [exact H|]. intros f Hf. cbv beta.
    destruct (Hrow f Hf) as (d & s & e & -> & _ & _ & H2 & _).
    eexists; split; [reflexivity | exact H2].
  - apply texts_column, Forall_map. eapply Forall_impl; [exact H|]. intros f Hf. cbv beta.
    destruct (Hrow f Hf) as (d & s & e & -> & _ & _ & _ & H3 & _).
    eexists; split; [reflexivity | exact H3].
  - apply IntColumn, Forall_map. eapply Forall_impl; [exact H|]. intros f Hf. cbv beta.
    destruct (Hrow f Hf) as (d & s & e & -> & _ & _ & _ & _ & H4 & _).
    eexists; split; [reflexivity | exact H4].
  - apply remarks_column, Forall_map. eapply Forall_impl; [exact H|]. intros f Hf. cbv beta.
    destruct (Hrow f Hf) as (d & s & e & -> & _ & _ & _ & _ & _ & H5 & _).
    cbn [reloaded_row nth]. destruct H5 as [-> | H5]; [left; reflexivity|].
    destruct (App.f_remarks f) as [|c r] eqn:Er; [left; reflexivity|].
    right. eexists; split; [reflexivity | exact H5].
  - apply texts_column, Forall_map. eapply Forall_impl; [exact H|]. intros f Hf. cbv beta.
    destruct (Hrow f Hf) as (d & s & e & -> & _ & _ & _ & _ & _ & _ & H6 & _).
    eexists; split; [reflexivity | exact H6].
  - apply FloatColumn, Forall_map. eapply Forall_impl; [exact H|]. intros f Hf. cbv beta.
    destruct (Hrow f Hf) as (d & s & e & -> & _ & _ & _ & _ & _ & _ & _ & H7). exact H7.
Qed.

Lemma diary_well_formed (entries : list App.form) :
  Forall acceptable entries -> well_formed (diary entries).
Proof.
  intros H. split; [reflexivity|]. unfold diary, Pd.frame_of_rows; cbn [rows columns].
  apply Forall_map. eapply Forall_impl; [exact H|]. intros f Hf. cbv beta.
  destruct (acceptable_times f Hf) as (d & s & e & _ & _ & _ & -> & _). reflexivity.
Qed.

(** The table of a list of acceptable entries has the stable form. *)
Lemma diary_stable (entries : list App.form) :
  Forall acceptable entries -> stable (diary entries).
Proof.
  intros H. split; [apply diary_well_formed, H|].
  split; [split; [cbn; lia | each_cell ltac:(exact eq_refl)]|].
  split; [each_cell ltac:(cbv beta; discriminate)|].
  split; [reflexivity|].
  intros k Hk. unfold column_cells, diary, Pd.frame_of_rows. cbn [rows columns] in *.
  rewrite map_map. apply diary_column; [exact H | exact Hk].
Qed.

Lemma map_result_app {A B} (f : A -> result B) (l l' : list A) :
  map_result f (l ++ l')
  = (try! bs := map_result f l in try! bs' := map_result f l' in ok (bs ++ bs')).
Proof.
  induction l as [|a l IH]; cbn [app map_result].
  - cbv [bind ok]. destruct (map_result f l'); reflexivity.
  - destruct (f a); cbv [bind ok] in *; [reflexivity|]. rewrite IH.
    destruct (map_result f l); [reflexivity|]. destruct (map_result f l'); reflexivity.
Qed.

Lemma to_csv_entered (rs : list (list cell)) (d : date) (s e : time) (f : App.form) :
  Pd.to_csv (Pd.frame_of_rows App.schema (rs ++ [entered_row d s e f]))
  = Pd.to_csv (Pd.frame_of_rows App.schema (rs ++ [reloaded_row d s e f])).
Proof.
  unfold Pd.to_csv. cbn [rows columns Pd.frame_of_rows].
  rewrite !map_result_app. cbn [map_result]. rewrite reloaded_rendered. reflexivity.
Qed.

(** One entry more: the file after the submission is the serialised table
    of all entries, and it is loaded as that table. *)
Lemma diary_step (st : store) (entries : list App.form) (f : App.form) :
  Forall acceptable entries -> acceptable f ->
  App.load_data st = ok (diary entries) ->
  exists content,
    App.submit st f = (Some content, Noticed (Success "记录已添加"))
    /\ Pd.to_csv (diary (entries ++ [f])) = ok content
    /\ App.load_data (Some content) = ok (diary (entries ++ [f])).
Proof.
  intros Hall Hf Hload.
  destruct (acceptable_times f Hf)
    as (d & s & e & Hfd & Hfs & Hfe & Er & Hd & Hs & He & Hws & Hwe & Hgt & _).
  destruct (submit_accepted st (diary entries) f d s e)
    as (content & Hsub & Hcsv); try assumption.
  exists content. split; [exact Hsub|].
  rewrite concat_schema in Hcsv
    by (reflexivity || apply diary_well_formed, Hall).
  cbn [rows diary Pd.frame_of_rows] in Hcsv.
  change (Frame App.schema (Pd.range (length (map reloaded entries ++ [entered_row d s e f])))
                (map reloaded entries ++ [entered_row d s e f]))
    with (Pd.frame_of_rows App.schema (map reloaded entries ++ [entered_row d s e f])) in Hcsv.
  rewrite to_csv_entered, <- Er in Hcsv.
  assert (diary (entries ++ [f])
          = Pd.frame_of_rows App.schema (map reloaded entries ++ [reloaded f])) as Ed
    by (unfold diary; rewrite map_app; reflexivity).
  rewrite <- Ed in Hcsv. split; [exact Hcsv|].
  destruct (stable_round_trip (diary (entries ++ [f]))) as (content' & Hw & Hr).
  { apply diary_stable, Forall_app. split; [exact Hall|].
    apply List.Forall_cons; [exact Hf | apply List.Forall_nil]. }
  rewrite Hw in Hcsv. injection Hcsv as ->. apply app_load_saved, Hr.
Qed.

Lemma submit_all_snoc (st : store) (entries : list App.form) (f : App.form) :
  submit_all st (entries ++ [f]) = fst (App.submit (submit_all st entries) f).
Proof. unfold submit_all. rewrite fold_left_app. reflexivity. Qed.

Lemma diary_loaded (entries : list App.form) :
  Forall acceptable entries ->
  App.load_data (submit_all None entries) = ok (diary entries)
  /\ (entries <> [] ->
      exists content,
        submit_all None entries = Some content /\ Pd.to_csv (diary entries) = ok content).
Proof.
  induction entries as [|f entries IH] using rev_ind; intros H.
  - split; [reflexivity | congruence].
  - apply Forall_app in H as [Hall Hf]. apply Forall_cons in Hf as [Hf _].
    destruct (IH Hall) as [Hload _].
    destruct (diary_step _ entries f Hall Hf Hload) as (content & Hsub & Hcsv & Hre).
    rewrite submit_all_snoc, Hsub. cbn [fst]. split; [exact Hre|].
    intros _. exists content. split; [reflexivity | exact Hcsv].
Qed.

(** X19. A diary kept through the create form is read back as it was
    entered.  Starting without a file, after any sequence of acceptable
    entries (valid date, valid times in whole minutes with the end not
    before the start, a severity in the 64-bit range, an empty or plain
    remark, one of the three locations) every submission has been
    accepted and the file is loaded as one record per entry, in the order
    of entry: the date as the text [YYYY-MM-DD], the two times as texts
    [YYYY-MM-DD HH:MM], the label, the severity, the remark (missing when
    it was empty), the location and the total minutes as a float. *)
Theorem diary_is_read_back (entries : list App.form) :
  Forall acceptable entries ->
  App.load_data (submit_all None entries) = ok (diary entries)
  /\ forall before f after, entries = before ++ f :: after ->
       snd (App.submit (submit_all None before) f) = Noticed (Success "记录已添加").
Proof.
  intros H. split; [apply diary_loaded, H|].
  intros before f after ->. apply Forall_app in H as [Hb Hf].
  apply Forall_cons in Hf as [Hf _].
  destruct (diary_step _ before f Hb Hf (proj1 (diary_loaded before Hb)))
    as (content & Hsub & _).
  rewrite Hsub. reflexivity.
Qed.

Lemma sample_entries_acceptable : Forall acceptable [first_entry; second_entry].
Proof.
  repeat (apply List.Forall_cons;
          [unfold acceptable; cbn; repeat split; try reflexivity; tauto|]).
  apply List.Forall_nil.
Qed.

Lemma diary_is_read_back_witness :
  App.load_data sample_store = ok (diary [first_entry; second_entry]).
Proof.
  exact (proj1 (diary_is_read_back [first_entry; second_entry] sample_entries_acceptable)).
Defined.

(** X20. Deleting the record that was just added undoes the addition.  For a
    diary of at least one acceptable entry, adding one more acceptable entry
    and then deleting the last record leaves the file byte for byte as it
    was before the addition. *)
Theorem delete_undoes_submit (entries : list App.form) (f : App.form) :
  Forall acceptable entries -> entries <> [] -> acceptable f ->
  let st := submit_all None entries in
  App.delete_record (fst (App.submit st f)) (Z.of_nat (length entries))
  = (st, Noticed (Success "记录已删除")).
Proof.
  intros Hall Hne Hf st.
  destruct (diary_loaded entries Hall) as [Hload Hfile].
  destruct (Hfile Hne) as (content & Hst & Hcsv).
  destruct (diary_step st entries f Hall Hf Hload) as (content' & Hsub & _ & Hre).
  rewrite Hsub. cbn [fst]. unfold App.delete_record. rewrite Hre. cbv [ok].
  assert (Pd.empty (diary (entries ++ [f])) = false) as ->.
  { unfold Pd.empty, diary, Pd.frame_of_rows. cbn [rows columns].
    rewrite length_map, length_app. cbn. destruct (length entries); reflexivity. }
  assert (well_formed (diary (entries ++ [f]))) as Hwf.
  { apply diary_well_formed, Forall_app. split; [exact Hall|].
    apply List.Forall_cons; [exact Hf | apply List.Forall_nil]. }
  destruct (drop_present (diary (entries ++ [f])) (length entries) Hwf) as [idx Hd].
  { unfold diary, Pd.frame_of_rows. cbn [rows]. rewrite length_map, length_app. cbn. lia. }
  rewrite Hd. cbv [bind ok]. unfold Pd.reset_index. cbn [columns rows diary Pd.frame_of_rows].
  assert (without (length entries) (map reloaded (entries ++ [f])) = map reloaded entries) as ->.
  { unfold without. rewrite map_app.
    rewrite firstn_app, skipn_app, !length_map.
    rewrite firstn_all2 by (rewrite length_map; lia).
    rewrite skipn_all2 by (rewrite length_map; lia).
    replace (length entries - length entries)%nat with 0%nat by lia.
    replace (S (length entries) - length entries)%nat with 1%nat by lia.
    cbn. rewrite !app_nil_r. reflexivity. }
  unfold App.save_data.
  change (Frame App.schema (Pd.range (length (map reloaded entries))) (map reloaded entries))
    with (diary entries).
  rewrite Hcsv. cbv [bind ok]. unfold st. rewrite Hst. reflexivity.
Qed.

Lemma delete_undoes_submit_witness :
  App.delete_record (fst (App.submit (submit_all None [first_entry]) second_entry)) 1
  = (submit_all None [first_entry], Noticed (Success "记录已删除")).
Proof.
  refine (delete_undoes_submit [first_entry] second_entry _ _ _).
  - apply List.Forall_cons; [|apply List.Forall_nil].
    unfold acceptable; cbn; repeat split; try reflexivity; tauto.
  - discriminate.
  - unfold acceptable; cbn; repeat split; try reflexivity; tauto.
Defined.

(** * The update button *)

(** X21. The update button pressed on the table as it was loaded, with no
    cell edited, writes the file that is there: for a file that the
    application wrote for a record set of the stable form, the file after
    the update is the file before it, byte for byte. *)
Theorem update_without_edits (X : DataFrame) (st : store) :
  stable X -> App.save_data X = ok st ->
  exists data,
    App.load_data st = ok data
    /\ App.update_records data st = (st, Noticed (Success "记录已更新")).
Proof.
  intros Hstable Hsave. exists X.
  destruct (stable_round_trip X Hstable) as (content & Hw & Hr).
  unfold App.save_data in Hsave. rewrite Hw in Hsave. cbv [bind ok] in Hsave.
  injection Hsave as <-. split; [apply app_load_saved, Hr|].
  unfold App.update_records, App.save_data. rewrite Hw. reflexivity.
Qed.

Lemma update_without_edits_witness :
  exists data,
    App.load_data sample_store = ok data
    /\ App.update_records data sample_store = (sample_store, Noticed (Success "记录已更新")).
Proof.
  exact (update_without_edits sample_data sample_store sample_data_stable eq_refl).
Defined.

(** * The charts of a diary *)

Lemma schema_cells (entries : list App.form) :
  Pd.column "Date" (diary entries) = ok (map (fun f => nth 0 (reloaded f) NaN) entries)
  /\ Pd.column "Duration" (diary entries) = ok (map (fun f => nth 3 (reloaded f) NaN) entries)
  /\ Pd.column "Severity" (diary entries) = ok (map (fun f => nth 4 (reloaded f) NaN) entries)
  /\ Pd.column "Location" (diary entries) = ok (map (fun f => nth 6 (reloaded f) NaN) entries).
Proof.
  unfold Pd.column, diary, Pd.frame_of_rows. cbn [columns rows].
  change (Pd.position "Date" App.schema) with (Some 0%nat).
  change (Pd.position "Duration" App.schema) with (Some 3%nat).
  change (Pd.position "Severity" App.schema) with (Some 4%nat).
  change (Pd.position "Location" App.schema) with (Some 6%nat).
  cbv beta iota. rewrite !map_map. repeat split; reflexivity.
Qed.

Lemma diary_converts (entries : list App.form) :
  Forall acceptable entries -> exists d1, convert_dates (diary entries) = ok d1.
Proof.
  intros H. unfold convert_dates. rewrite (proj1 (schema_cells entries)). cbv [bind ok].
  destruct (map_result_ok Pd.to_datetime (map (fun f => nth 0 (reloaded f) NaN) entries))
    as [stamps Hs].
  { apply Forall_map. eapply Forall_impl; [exact H|]. intros f Hf. cbv beta.
    destruct (acceptable_times f Hf) as (d & s & e & _ & _ & _ & -> & Hd & _).
    cbn [reloaded_row nth Pd.to_datetime]. rewrite (isoformat_parses d Hd).
    eexists; reflexivity. }
  cbv [ok] in Hs. rewrite Hs. eexists; reflexivity.
Qed.

Lemma diary_minutes (entries : list App.form) :
  Forall acceptable entries ->
  exists mins,
    map_result duration_minutes_cell (map (fun f => nth 3 (reloaded f) NaN) entries) = ok mins
    /\ Forall (fun m => 0 <= m) mins.
Proof.
  induction 1 as [|f entries Hf _ (mins & Hm & Hpos)].
  - exists []. split; [reflexivity | constructor].
  - destruct (acceptable_times f Hf)
      as (d & s & e & _ & _ & _ & Er & Hd & Hs & He & _ & _ & Hgt & _).
    exists ((DT.timestamp (DT.combine d e) - DT.timestamp (DT.combine d s)) / 60000000 :: mins).
    split.
    + cbn [map map_result]. rewrite Er. cbn [reloaded_row nth duration_minutes_cell].
      rewrite duration_minutes_calc. cbv [bind ok] in *. rewrite Hm. reflexivity.
    + constructor; [|exact Hpos]. apply Z.div_pos; [|lia].
      pose proof (same_day_order d s e Hd Hs He Hgt). lia.
Qed.

Lemma diary_locations (entries : list App.form) :
  Forall acceptable entries ->
  map_result split_location (map (fun f => nth 6 (reloaded f) NaN) entries)
  = ok (map (fun f => [App.f_location f]) entries).
Proof.
  induction 1 as [|f entries Hf _ IH]; [reflexivity|].
  cbn [map map_result]. cbv [ok bind] in *. rewrite IH.
  destruct (acceptable_times f Hf) as (d & s & e & _ & _ & _ & -> & H).
  destruct H as (_ & _ & _ & _ & _ & _ & _ & _ & Hloc).
  cbn [reloaded_row nth split_location].
  destruct Hloc as [<- | [<- | [<- | []]]]; reflexivity.
Qed.

Lemma concat_singletons {A B} (g : A -> B) (l : list A) :
  List.concat (map (fun a => [g a]) l) = map g l.
Proof. induction l as [|a l IH]; [reflexivity|]. cbn. rewrite IH. reflexivity. Qed.

Lemma occurrences_options (xs : list string) :
  Forall (fun x => In x location_options) xs ->
  (occurrences "左侧" xs + occurrences "右侧" xs + occurrences "双侧" xs)%nat = length xs.
Proof.
  unfold occurrences. induction 1 as [|x xs Hx _ IH]; [reflexivity|].
  cbn [List.filter length].
  destruct Hx as [<- | [<- | [<- | []]]];
    repeat match goal with
           | |- context [String.eqb ?a ?b] =>
               let v := eval vm_compute in (String.eqb a b) in
               change (String.eqb a b) with v
           end;
    cbn [length]; lia.
Qed.

Lemma count_of_value_counts (xs : list string) (c : string) :
  count_of (Pd.value_counts xs) c = occurrences c xs.
Proof.
  unfold count_of. rewrite value_counts_lookup. destruct (occurrences c xs); reflexivity.
Qed.

(** X22. No chart fails on a diary kept through the create form.  For the
    table of one or more acceptable entries, as it is loaded from the file,
    each of the six charts of app.py is drawn: the conversion of the dates
    succeeds, every label is parsed, every location is split.  In the
    duration chart every record is in one of the four bars, which add up to
    the number of records.  In the location chart the bar of a location
    counts the entries made with it, and the three bars add up to the number
    of records. *)
Theorem diary_charts_are_drawn (entries : list App.form) :
  Forall acceptable entries -> entries <> [] ->
  (forall selected, exists chart, App.charts selected (diary entries) = Rendered chart)
  /\ (forall selected, exists counts, Page.charts selected (diary entries) = Rendered counts)
  /\ (exists counts,
        App.charts DurationDistribution (diary entries) = Rendered (App.CountChart counts)
        /\ (count_of counts "0-30分钟" + count_of counts "30-60分钟"
            + count_of counts "60-120分钟" + count_of counts "120分钟以上")%nat
           = length entries)
  /\ (exists counts,
        App.charts LocationDistribution (diary entries) = Rendered (App.CountChart counts)
        /\ (forall l, count_of counts l = occurrences l (map App.f_location entries))
        /\ (count_of counts "左侧" + count_of counts "右侧" + count_of counts "双侧")%nat
           = length entries).
Proof.
  intros Hall Hne.
  pose proof (diary_well_formed entries Hall) as Hwf.
  destruct (diary_converts entries Hall) as [d1 H1].
  destruct (convert_dates_squared _ d1 Hwf H1) as (Hs1 & Hc1 & _ & _).
  destruct (convert_dates_column _ d1 Hwf H1) as (col & stamps & _ & Hts & _ & Hst).
  destruct (schema_cells entries) as (_ & Hdur & Hsev & Hloc).
  rewrite <- (column_converted_other "Duration" _ d1 Hwf H1) in Hdur by discriminate.
  rewrite <- (column_converted_other "Severity" _ d1 Hwf H1) in Hsev by discriminate.
  rewrite <- (column_converted_other "Location" _ d1 Hwf H1) in Hloc by discriminate.
  destruct (diary_minutes entries Hall) as (mins & Hmins & Hpos).
  assert (Pd.empty (diary entries) = false) as He.
  { unfold Pd.empty, diary, Pd.frame_of_rows. cbn [rows columns]. rewrite length_map.
    destruct entries; [congruence | reflexivity]. }
  destruct (duration_counts_value d1 _ mins Hdur Hmins) as (counts & Hcounts & Hin & _).
  assert (App.charts DurationDistribution (diary entries) = Rendered (App.CountChart counts))
    as Hduration.
  { unfold App.charts. rewrite He, H1. cbv [ok]. rewrite Hc1.
    change (existsb (String.eqb "Duration") (columns (diary entries))) with true.
    cbv iota. rewrite Hcounts. reflexivity. }
  assert (App.charts LocationDistribution (diary entries)
          = Rendered (App.CountChart (Pd.value_counts (map App.f_location entries))))
    as Hlocation.
  { unfold App.charts. rewrite He, H1. cbv [ok]. rewrite Hc1.
    change (existsb (String.eqb "Location") (columns (diary entries))) with true.
    cbv iota. unfold location_counts. rewrite Hloc. cbv [bind ok].
    pose proof (diary_locations entries Hall) as Hl. cbv [ok] in Hl. rewrite Hl.
    rewrite concat_singletons. reflexivity. }
  split; [|split; [|split]].
  - intros [| |]; [| eexists; exact Hduration | eexists; exact Hlocation].
    unfold App.charts. rewrite He, H1. eexists; reflexivity.
  - intros [| |]; unfold Page.charts; rewrite He, H1; cbv [ok].
    + unfold Page.month_chart. rewrite (chart_norm "Month" _ d1 Hs1), Hst. cbv [bind ok].
      destruct (stamps_dt Series.strftime_month col stamps Hts) as [cells Hcells].
      cbv [ok] in Hcells. rewrite Hcells. eexists; reflexivity.
    + unfold Page.weekday_chart. rewrite (chart_norm "Weekday" _ d1 Hs1), Hst. cbv [bind ok].
      destruct (stamps_dt Series.day_name col stamps Hts) as [cells Hcells].
      cbv [ok] in Hcells. rewrite Hcells. eexists; reflexivity.
    + unfold Page.severity_pie. rewrite Hsev. eexists; reflexivity.
  - exists counts. split; [exact Hduration|].
    unfold count_of.
    rewrite !Hin by (unfold duration_bin_labels; cbn [In]; auto 6).
    cbv [default from_option id].
    rewrite bins_partition by exact Hpos.
    rewrite (map_result_length _ _ _ Hmins), length_map. reflexivity.
  - eexists. split; [exact Hlocation|]. split; [intros l; apply count_of_value_counts|].
    rewrite !count_of_value_counts, occurrences_options, length_map; [reflexivity|].
    apply Forall_map. eapply Forall_impl; [exact Hall|]. intros f Hf. cbv beta.
    destruct (acceptable_times f Hf) as (d & s & e & _ & _ & _ & _ & H). apply H.
Qed.

Lemma diary_charts_are_drawn_witness :
  exists counts,
    App.charts DurationDistribution (diary [first_entry; second_entry])
    = Rendered (App.CountChart counts)
    /\ (count_of counts "0-30分钟" + count_of counts "30-60分钟"
        + count_of counts "60-120分钟" + count_of counts "120分钟以上")%nat
       = 2%nat.
Proof.
  exact (proj1 (proj2 (proj2 (diary_charts_are_drawn [first_entry; second_entry]
                                sample_entries_acceptable ltac:(discriminate))))).
Defined.

(** * The select box of the delete section *)

Lemma filter_label_none (i k : nat) (rs : list (list cell)) :
  (i < k)%nat ->
  List.filter (fun p => Z.eqb (Z.of_nat i) (fst p)) (zip (labels k (length rs)) rs) = [].
Proof.
  revert k; induction rs as [|r rs IH]; intros k Hik; [reflexivity|].
  cbn [length labels seq map zip zip_with List.filter fst].
  destruct (Z.eqb_spec (Z.of_nat i) (Z.of_nat k)); [lia|]. apply (IH (S k)). lia.
Qed.

Lemma filter_label_hit (i k : nat) (rs : list (list cell)) :
  (k <= i < k + length rs)%nat ->
  List.filter (fun p => Z.eqb (Z.of_nat i) (fst p)) (zip (labels k (length rs)) rs)
  = [(Z.of_nat i, nth (i - k) rs [])].
Proof.
  revert k; induction rs as [|r rs IH]; intros k Hik; [simpl in Hik; lia|].
  cbn [length labels seq map zip zip_with List.filter fst].
  destruct (Z.eqb_spec (Z.of_nat i) (Z.of_nat k)) as [Heq|Hne].
  - assert (i = k) as -> by lia. replace (k - k)%nat with O by lia.
    change (map Z.of_nat (seq (S k) (length rs))) with (labels (S k) (length rs)).
    rewrite filter_label_none by lia. reflexivity.
  - change (map Z.of_nat (seq (S k) (length rs))) with (labels (S k) (length rs)).
    rewrite (IH (S k)) by (cbn [length] in Hik; lia).
    replace (i - k)%nat with (S (i - S k)) by lia. reflexivity.
Qed.

Lemma loc_row (data : DataFrame) (i : nat) (c : string) :
  well_formed data -> (i < length (rows data))%nat ->
  Series.loc data (Z.of_nat i) c
  = match Pd.position c (columns data) with
    | Some _ => ok (Pd.at_column (columns data) (nth i (rows data) []) c)
    | None => raise KeyError
    end.
Proof.
  intros [Hidx _] Hi. unfold Series.loc, Pd.at_column.
  destruct (Pd.position c (columns data)) as [k|]; [|reflexivity].
  rewrite Hidx. change (Pd.range (length (rows data))) with (labels 0 (length (rows data))).
  rewrite filter_label_hit by lia. rewrite Nat.sub_0_r. reflexivity.
Qed.

Lemma map_labels {A} (g : nat -> A) (k n : nat) :
  map (fun x => g (Z.to_nat x)) (labels k n) = map g (seq k n).
Proof.
  unfold labels. rewrite map_map. apply map_ext. intros i. rewrite Nat2Z.id. reflexivity.
Qed.

Lemma map_nth_seq {A B} (g : A -> B) (d : A) (l : list A) :
  map (fun i => g (nth i l d)) (seq 0 (length l)) = map g l.
Proof.
  induction l as [|a l IH]; [reflexivity|].
  cbn [length seq map nth]. f_equal. rewrite <- seq_shift, map_map. exact IH.
Qed.

Lemma diary_label (entries : list App.form) (i : nat) :
  Forall acceptable entries -> (i < length entries)%nat ->
  Page.record_label (diary entries) (Z.of_nat i)
  = ok (entry_label (nth i entries (App.Form None None None 0 EmptyString EmptyString))).
Proof.
  intros Hall Hi. pose proof (diary_well_formed entries Hall) as Hwf.
  assert (i < length (rows (diary entries)))%nat as Hi'
    by (unfold diary, Pd.frame_of_rows; cbn [rows]; rewrite length_map; exact Hi).
  unfold Page.record_label. rewrite !(loc_row _ _ _ Hwf Hi').
  unfold diary, Pd.frame_of_rows. cbn [columns rows].
  change (Pd.position "Date" App.schema) with (Some 0%nat).
  change (Pd.position "Start Time" App.schema) with (Some 1%nat).
  change (Pd.position "End Time" App.schema) with (Some 2%nat).
  cbv beta iota.
  set (blank := App.Form None None None 0 EmptyString EmptyString).
  change (@nil cell) with (reloaded blank). rewrite map_nth.
  assert (acceptable (nth i entries blank)) as Hf.
  { rewrite Forall_forall in Hall. apply Hall, list_elem_of_In, nth_In, Hi. }
  destruct (acceptable_times _ Hf) as (d & s & e & Hfd & Hfs & Hfe & Er & _).
  rewrite Er. unfold entry_label. rewrite Hfd, Hfs, Hfe. reflexivity.
Qed.

Lemma text_of_loaded (c : cell) :
  renderable c -> from_file c = true -> exists t, Series.text c = ok t.
Proof.
  intros [t Ht] Hf. destruct c as [| | |[]| | |]; try discriminate Hf;
    try (eexists; reflexivity).
  exists t. exact Ht.
Qed.

(** X23. The select box of the delete section.  For a diary of one or more
    acceptable entries the box offers one choice per record, in the order
    of the records, labelled with the date and the two times of the entry.
    For a loaded table that is not empty and lacks one of the columns
    [Date], [Start Time] and [End Time], drawing the box fails with a
    [KeyError], so that the page of app.py stops before the charts. *)
Theorem delete_options_spec :
  (forall entries, Forall acceptable entries -> entries <> [] ->
     Page.delete_options (diary entries) = Rendered (map entry_label entries))
  /\ (forall st data c, App.load_data st = ok data -> Pd.empty data = false ->
        In c ["Date"; "Start Time"; "End Time"]%string ->
        existsb (String.eqb c) (columns data) = false ->
        Page.delete_options data = Raised KeyError).
Proof.
  split.
  - intros entries Hall Hne. unfold Page.delete_options.
    assert (Pd.empty (diary entries) = false) as ->.
    { unfold Pd.empty, diary, Pd.frame_of_rows. cbn [rows columns]. rewrite length_map.
      destruct entries; [congruence | reflexivity]. }
    set (blank := App.Form None None None 0 EmptyString EmptyString).
    rewrite (map_result_map _ (fun x => entry_label (nth (Z.to_nat x) entries blank))).
    + cbv [ok id of_result]. f_equal. unfold diary, Pd.frame_of_rows. cbn [index].
      rewrite length_map. change (Pd.range (length entries)) with (labels 0 (length entries)).
      rewrite (map_labels (fun i => entry_label (nth i entries blank))).
      apply map_nth_seq.
    + intros x Hx. unfold diary, Pd.frame_of_rows in Hx. cbn [index] in Hx.
      rewrite length_map in Hx. apply in_map_iff in Hx as (i & <- & Hi).
      apply in_seq in Hi. rewrite Nat2Z.id. apply diary_label; [exact Hall | lia].
  - intros st data c Hload He Hc Hmiss. unfold Page.delete_options. rewrite He.
    destruct (app_load_data_shape _ _ Hload) as [Hst Hwf].
    pose proof (load_data_from_file st data (or_introl Hload)) as Hfile.
    assert (exists n, length (rows data) = S n) as [n Hn].
    { unfold Pd.empty in He. destruct (rows data); [discriminate He | eexists; reflexivity]. }
    pose proof Hwf as [Hidx Hsq]. rewrite Hidx, Hn.
    change (Pd.range (S n)) with (0 :: map Z.of_nat (seq 1 n)).
    cbn [map_result]. unfold Page.record_label.
    change 0 with (Z.of_nat 0). rewrite !(loc_row data 0 _ Hwf) by lia.
    assert (forall c', exists t,
              Series.text (Pd.at_column (columns data) (nth 0 (rows data) []) c') = ok t)
      as Hfirst.
    { intros c'. unfold storable in Hst. rewrite Forall_forall in Hst, Hfile.
      assert (In (nth 0 (rows data) []) (rows data)) as Hin by (apply nth_In; lia).
      apply list_elem_of_In in Hin.
      apply text_of_loaded;
        [apply at_column_renderable, Hst, Hin | apply at_column_from_file, Hfile, Hin]. }
    pose proof (position_none _ _ Hmiss) as Hpos.
    destruct Hc as [<- | [<- | [<- | []]]].
    + rewrite Hpos. reflexivity.
    + destruct (Pd.position "Date" (columns data)); [|reflexivity].
      cbv [bind ok]. destruct (Hfirst "Date"%string) as [t Ht].
      cbv [ok] in Ht. rewrite Ht, Hpos. reflexivity.
    + destruct (Pd.position "Date" (columns data)); [|reflexivity].
      cbv [bind ok]. destruct (Hfirst "Date"%string) as [t Ht].
      cbv [ok] in Ht. rewrite Ht.
      destruct (Pd.position "Start Time" (columns data)); [|reflexivity].
      destruct (Hfirst "Start Time"%string) as [t' Ht'].
      cbv [ok] in Ht'. rewrite Ht', Hpos. reflexivity.
Qed.

Lemma delete_options_spec_witness :
  Page.delete_options (diary [first_entry; second_entry])
  = Rendered ["日期: 2024-01-12 开始时间: 2024-01-12 09:00 结束时间: 2024-01-12 10:30";
              "日期: 2024-01-05 开始时间: 2024-01-05 22:00 结束时间: 2024-01-05 22:20"]%string.
Proof.
  exact (proj1 delete_options_spec [first_entry; second_entry] sample_entries_acceptable
           ltac:(discriminate)).
Defined.

(** * A diary kept through the form of the older copy *)

Lemma same_day_label_any (d : date) (s e : time) :
  DT.valid_time s = true -> DT.valid_time e = true ->
  exists h m : Z,
    fst (calculate_duration (DT.combine d s) (DT.combine d e)) = duration_label h m
    /\ -24 <= h <= 23 /\ 0 <= m <= 59.
Proof.
  intros Hs He. pose proof (same_day_span d s e Hs He) as Hspan.
  cbv zeta in Hspan. rewrite label_value.
  set (us := DT.timestamp (DT.combine d e) - DT.timestamp (DT.combine d s)) in *.
  exists (us / 3600000000), (us mod 3600000000 / 60000000).
  split; [reflexivity|].
  pose proof (Z.mod_pos_bound us 3600000000 ltac:(lia)).
  split; split.
  - apply Z.div_le_lower_bound; lia.
  - apply Z.lt_succ_r. apply Z.div_lt_upper_bound; lia.
  - apply Z.div_pos; lia.
  - apply Z.lt_succ_r. apply Z.div_lt_upper_bound; lia.
Qed.

Lemma signed_labels_plain :
  forallb (fun i => forallb (fun m => plain_text (duration_label (Z.of_nat i - 24) (Z.of_nat m)))
                            (seq 0 60))
          (seq 0 48) = true.
Proof. vm_compute. reflexivity. Qed.

Lemma signed_label_plain (h m : Z) :
  -24 <= h <= 23 -> 0 <= m <= 59 -> plain_text (duration_label h m) = true.
Proof.
  intros Hh Hm. pose proof signed_labels_plain as H. rewrite forallb_forall in H.
  specialize (H (Z.to_nat (h + 24)) ltac:(apply in_seq; lia)). rewrite forallb_forall in H.
  specialize (H (Z.to_nat m) ltac:(apply in_seq; lia)).
  rewrite !Z2Nat.id in H by lia. replace (h + 24 - 24) with h in H by lia. exact H.
Qed.

Lemma high_text_plain (s : string) :
  starts_high s = true -> no_cr s = true -> plain_text s = true.
Proof.
  intros Hh Hcr. unfold plain_text. rewrite Hcr.
  destruct s as [|c t]; [discriminate Hh|]. cbn [starts_high] in Hh.
  apply orb_prop in Hh as [Hc | Hc]; apply Ascii.eqb_eq in Hc; subst c; reflexivity.
Qed.

Lemma no_cr_app (a b : string) : no_cr (a +:+ b) = no_cr a && no_cr b.
Proof. unfold no_cr. apply all_chars_app. Qed.

Lemma join_no_cr (parts : list string) :
  Forall (fun l => In l location_options) parts -> no_cr (Py.join ", " parts) = true.
Proof.
  induction 1 as [|l parts Hl Hparts IH]; [reflexivity|].
  assert (no_cr l = true) as Hcr by (destruct Hl as [<- | [<- | [<- | []]]]; reflexivity).
  destruct parts as [|l' parts]; [exact Hcr|].
  change (Py.join ", " (l :: l' :: parts)) with (l +:+ ", " +:+ Py.join ", " (l' :: parts)).
  rewrite !no_cr_app, Hcr, IH. reflexivity.
Qed.

Lemma join_starts_high (l : string) (parts : list string) :
  In l location_options -> starts_high (Py.join ", " (l :: parts)) = true.
Proof.
  intros Hl. destruct parts as [|l' parts].
  - destruct Hl as [<- | [<- | [<- | []]]]; reflexivity.
  - change (Py.join ", " (l :: l' :: parts)) with (l +:+ ", " +:+ Py.join ", " (l' :: parts)).
    destruct Hl as [<- | [<- | [<- | []]]]; rewrite append_cons; reflexivity.
Qed.

Lemma location_str_plain (location : list string) :
  Forall (fun l => In l location_options) location ->
  plain_text (AppCopy.location_str location) = true.
Proof.
  intros H. destruct location as [|l location]; [reflexivity|].
  unfold AppCopy.location_str. apply high_text_plain.
  - apply join_starts_high. apply Forall_cons in H. apply H.
  - apply join_no_cr, H.
Qed.

Lemma diary_copy_column (k : nat) (entries : list AppCopy.form) :
  Forall acceptable_copy entries -> (k < 7)%nat ->
  stable_column (map (fun f => nth k (reloaded_copy f) NaN) entries).
Proof.
  intros H Hk.
  destruct k as [|[|[|[|[|[|[|k]]]]]]]; try lia.
  - apply texts_column, Forall_map. eapply Forall_impl; [exact H|].
    intros f (Hd & _). eexists; split; [reflexivity | apply isoformat_plain, Hd].
  - apply texts_column, Forall_map. eapply Forall_impl; [exact H|].
    intros f (Hd & Hs & _). eexists; split; [reflexivity | apply strftime_plain; assumption].
  - apply texts_column, Forall_map. eapply Forall_impl; [exact H|].
    intros f (Hd & _ & He & _). eexists; split; [reflexivity | apply strftime_plain; assumption].
  - apply texts_column, Forall_map. eapply Forall_impl; [exact H|].
    intros f (_ & Hs & He & _). eexists; split; [reflexivity|].
    cbn [reloaded_copy nth].
    destruct (same_day_label_any (AppCopy.f_date f) _ _ Hs He) as (h & m & -> & Hh & Hm).
    apply signed_label_plain; assumption.
  - apply IntColumn, Forall_map. eapply Forall_impl; [exact H|].
    intros f (_ & _ & _ & Hsev & _). eexists; split; [reflexivity | exact Hsev].
  - apply remarks_column, Forall_map. eapply Forall_impl; [exact H|].
    intros f (_ & _ & _ & _ & Hrem & _). cbn [reloaded_copy nth].
    destruct Hrem as [-> | Hrem]; [left; reflexivity|].
    destruct (AppCopy.f_remarks f) as [|c r]; [left; reflexivity|].
    right. eexists; split; [reflexivity | exact Hrem].
  - apply texts_column, Forall_map. eapply Forall_impl; [exact H|].
    intros f (_ & _ & _ & _ & _ & Hloc & _). eexists; split; [reflexivity|].
    apply location_str_plain, Hloc.
Qed.

Lemma diary_copy_well_formed (entries : list AppCopy.form) : well_formed (diary_copy entries).
Proof.
  split; [reflexivity|]. unfold diary_copy, Pd.frame_of_rows; cbn [rows columns].
  apply Forall_map, Forall_forall. intros f _. reflexivity.
Qed.

Lemma diary_copy_stable (entries : list AppCopy.form) :
  Forall acceptable_copy entries -> stable (diary_copy entries).
Proof.
  intros H. split; [apply diary_copy_well_formed|].
  split; [split; [cbn; lia | each_cell ltac:(exact eq_refl)]|].
  split; [each_cell ltac:(cbv beta; discriminate)|].
  split; [reflexivity|].
  intros k Hk. unfold column_cells, diary_copy, Pd.frame_of_rows. cbn [rows columns] in *.
  rewrite map_map. apply diary_copy_column; [exact H | exact Hk].
Qed.

Lemma reindex_copy_same (row : list cell) :
  length row = 7%nat -> Pd.reindex_row AppCopy.schema AppCopy.schema row = row.
Proof.
  destruct row as [|a [|b [|c [|d [|e [|f [|g [|h row]]]]]]]]; try discriminate.
  reflexivity.
Qed.

Lemma concat_copy_same (data : DataFrame) (row : list cell) :
  well_formed data -> columns data = AppCopy.schema -> length row = 7%nat ->
  Pd.concat data (Pd.frame_of_rows AppCopy.schema [row])
  = Pd.frame_of_rows AppCopy.schema (rows data ++ [row]).
Proof.
  intros [_ Hw] Hc Hr. unfold Pd.concat. rewrite Hc in *. cbn [columns rows Pd.frame_of_rows].
  change (AppCopy.schema ++ List.filter _ AppCopy.schema) with AppCopy.schema.
  rewrite (map_id_on (Pd.reindex_row AppCopy.schema AppCopy.schema)
             (fun r => length r = 7%nat)) by (exact reindex_copy_same || exact Hw).
  cbn [map]. rewrite reindex_copy_same by exact Hr. reflexivity.
Qed.

Lemma to_csv_entered_copy (rs : list (list cell)) (f : AppCopy.form) :
  Pd.to_csv (Pd.frame_of_rows AppCopy.schema (rs ++ [entered_row_copy f]))
  = Pd.to_csv (Pd.frame_of_rows AppCopy.schema (rs ++ [reloaded_copy f])).
Proof.
  unfold Pd.to_csv. cbn [rows columns Pd.frame_of_rows].
  rewrite !map_result_app.
  assert (map_result Pd.render (entered_row_copy f) = map_result Pd.render (reloaded_copy f))
    as E by (unfold entered_row_copy, reloaded_copy; cbn [map_result];
             destruct (AppCopy.f_remarks f); reflexivity).
  cbn [map_result]. rewrite E. reflexivity.
Qed.

Lemma diary_copy_step (st : store) (entries : list AppCopy.form) (f : AppCopy.form) :
  Forall acceptable_copy entries -> acceptable_copy f ->
  AppCopy.load_data st = ok (diary_copy entries) ->
  exists content,
    AppCopy.submit st f = (Some content, Noticed (Success "记录已添加"))
    /\ AppCopy.load_data (Some content) = ok (diary_copy (entries ++ [f])).
Proof.
  intros Hall Hf Hload.
  destruct (copy_submit_appends st (diary_copy entries) f Hload) as (content & Hsub & Hcsv).
  exists content. split; [exact Hsub|].
  cbv zeta in Hcsv.
  change (AppCopy.new_record _ _ _ _ f)
    with (Pd.frame_of_rows AppCopy.schema [entered_row_copy f]) in Hcsv.
  rewrite concat_copy_same in Hcsv by (reflexivity || apply diary_copy_well_formed).
  cbn [rows diary_copy Pd.frame_of_rows] in Hcsv.
  change (Frame AppCopy.schema
                (Pd.range (length (map reloaded_copy entries ++ [entered_row_copy f])))
                (map reloaded_copy entries ++ [entered_row_copy f]))
    with (Pd.frame_of_rows AppCopy.schema (map reloaded_copy entries ++ [entered_row_copy f]))
    in Hcsv.
  rewrite to_csv_entered_copy in Hcsv.
  assert (diary_copy (entries ++ [f])
          = Pd.frame_of_rows AppCopy.schema (map reloaded_copy entries ++ [reloaded_copy f]))
    as Ed by (unfold diary_copy; rewrite map_app; reflexivity).
  rewrite <- Ed in Hcsv.
  destruct (stable_round_trip (diary_copy (entries ++ [f]))) as (content' & Hw & Hr).
  { apply diary_copy_stable, Forall_app. split; [exact Hall|].
    apply List.Forall_cons; [exact Hf | apply List.Forall_nil]. }
  rewrite Hw in Hcsv. injection Hcsv as ->.
  unfold AppCopy.load_data, read_csv. rewrite Hr. reflexivity.
Qed.

Lemma ok_inj {A} (a b : A) : ok a = ok b -> a = b.
Proof. intros [= ->]. reflexivity. Qed.

Lemma copy_diary_loaded (entries : list AppCopy.form) :
  Forall acceptable_copy entries ->
  AppCopy.load_data (submit_all_copy None entries) = ok (diary_copy entries).
Proof.
  induction entries as [|f l IH] using rev_ind; intros H; [reflexivity|].
  apply Forall_app in H as [Hall Hf]. apply Forall_cons in Hf as [Hf _].
  destruct (diary_copy_step _ l f Hall Hf (IH Hall)) as (content & Hsub & Hre).
  unfold submit_all_copy in *. rewrite fold_left_app. cbn [fold_left].
  rewrite Hsub. exact Hre.
Qed.

Lemma older_diary_acceptable : Forall acceptable_copy [older_entry; overnight_entry].
Proof.
  repeat (apply List.Forall_cons;
          [unfold acceptable_copy; cbn; repeat split; try reflexivity;
           try (left; reflexivity); try (right; reflexivity);
           repeat (apply List.Forall_cons; [cbn; tauto|]); apply List.Forall_nil|]).
  apply List.Forall_nil.
Qed.

(** X24. A diary kept through the form of the older copy is read back as it
    was entered, whatever the order of the two times.  Starting without a
    file, after any sequence of entries with a valid date, valid times in
    whole minutes, a severity in the 64-bit range, an empty or plain remark
    and a selection among the three locations, every submission has been
    accepted and the file is loaded as one record per entry, in the order
    of entry; where the end is before the start, the record is there with
    its negative label. *)
Theorem copy_diary_is_read_back (entries : list AppCopy.form) :
  Forall acceptable_copy entries ->
  AppCopy.load_data (submit_all_copy None entries) = ok (diary_copy entries)
  /\ forall before f after, entries = before ++ f :: after ->
       snd (AppCopy.submit (submit_all_copy None before) f) = Noticed (Success "记录已添加").
Proof.
  intros H. split; [apply copy_diary_loaded, H|].
  intros before f after ->. apply Forall_app in H as [Hb Hf].
  apply Forall_cons in Hf as [Hf _].
  destruct (diary_copy_step _ before f Hb Hf (copy_diary_loaded before Hb)) as (content & Hsub & _).
  rewrite Hsub. reflexivity.
Qed.

Lemma copy_diary_is_read_back_witness :
  AppCopy.load_data (submit_all_copy None [older_entry; overnight_entry])
  = ok (diary_copy [older_entry; overnight_entry]).
Proof.
  exact (proj1 (copy_diary_is_read_back [older_entry; overnight_entry] older_diary_acceptable)).
Defined.

(** * The page of the older copy on its own diary *)

Lemma set_nth_printable (k : nat) (c : cell) (row : list cell) :
  printable c = true -> Forall (fun c => printable c = true) row ->
  Forall (fun c => printable c = true) (Pd.set_nth k c row).
Proof.
  intros Hc H. revert k. induction H as [|x row Hx Hrow IH]; intros k;
    [destruct k; constructor|].
  destruct k; cbn [Pd.set_nth]; constructor; try assumption. apply IH.
Qed.

Lemma set_column_printable (c : string) (vals : list cell) (df : DataFrame) :
  Forall (Forall (fun c => printable c = true)) (rows df) ->
  Forall (fun c => printable c = true) vals ->
  Forall (Forall (fun c => printable c = true)) (rows (Pd.set_column c vals df)).
Proof.
  intros Hrows Hvals. unfold Pd.set_column.
  destruct (Pd.position c (columns df)) as [k|]; cbn [rows]; apply Forall_map.
  - revert vals Hvals. induction Hrows as [|row rs Hrow _ IH]; intros vals Hvals;
      [constructor|].
    destruct Hvals as [|v vals Hv Hvals]; [constructor|].
    cbn [zip zip_with]. constructor; [|apply IH, Hvals].
    cbn [fst snd]. apply set_nth_printable; assumption.
  - revert vals Hvals. induction Hrows as [|row rs Hrow _ IH]; intros vals Hvals;
      [constructor|].
    destruct Hvals as [|v vals Hv Hvals]; [constructor|].
    cbn [zip zip_with]. constructor; [|apply IH, Hvals].
    cbn [fst snd]. apply Forall_app. split; [exact Hrow|]. constructor; [exact Hv | constructor].
Qed.

Lemma present_set_column (c name : string) (vals : list cell) (df : DataFrame) :
  existsb (String.eqb c) (columns df) = true ->
  existsb (String.eqb c) (columns (Pd.set_column name vals df)) = true.
Proof.
  intros H. unfold Pd.set_column. destruct (Pd.position name (columns df)); cbn [columns].
  - exact H.
  - rewrite existsb_app, H. reflexivity.
Qed.

Lemma column_printable (c : string) (df : DataFrame) (col : list cell) :
  Forall (Forall (fun c => printable c = true)) (rows df) ->
  Pd.column c df = ok col -> Forall (fun c => printable c = true) col.
Proof.
  intros Hrows. unfold Pd.column. destruct (Pd.position c (columns df)) as [k|]; [|discriminate].
  intros [= <-]. apply Forall_map. eapply Forall_impl; [exact Hrows|].
  intros row Hrow. cbv beta.
  destruct (nth_in_or_default k row NaN) as [Hin | ->]; [|reflexivity].
  rewrite List.Forall_forall in Hrow. apply Hrow, Hin.
Qed.

Lemma to_datetime_printable (col stamps : list cell) :
  map_result Pd.to_datetime col = ok stamps ->
  Forall (fun c => printable c = true) col -> Forall (fun c => printable c = true) stamps.
Proof.
  intros H%map_result_Forall2. induction H as [|c c' col stamps Hc _ IH]; intros Hcol;
    [constructor|].
  apply Forall_cons in Hcol as [Hr Hcol]. constructor; [|apply IH, Hcol].
  destruct c as [| | | |s| |x]; cbn [Pd.to_datetime] in Hc; try discriminate Hc.
  - injection Hc as <-. reflexivity.
  - destruct (Pd.parse_iso_date s); [|discriminate Hc]. injection Hc as <-. reflexivity.
  - injection Hc as <-. reflexivity.
  - injection Hc as <-. exact Hr.
Qed.

Lemma dt_printable (f : datetime -> string) (stamps cells : list cell) :
  map_result (Series.dt f) stamps = ok cells -> Forall (fun c => printable c = true) cells.
Proof.
  intros H%map_result_Forall2. induction H as [|c c' stamps cells Hc _ IH]; constructor;
    [|exact IH].
  destruct c; cbn [Series.dt] in Hc; try discriminate Hc; injection Hc as <-; reflexivity.
Qed.

Lemma to_csv_str_runs (df : DataFrame) :
  Forall (Forall (fun c => printable c = true)) (rows df) ->
  exists csv, Series.to_csv_str df = ok csv.
Proof.
  intros H. unfold Series.to_csv_str.
  destruct (map_result_ok (map_result Pd.render) (rows df)) as [body Hbody].
  { eapply Forall_impl; [exact H|]. intros row Hrow. apply map_result_ok.
    eapply Forall_impl; [exact Hrow|]. intros c Hc. cbv beta in *. unfold printable in Hc.
    destruct (Pd.render c) as [e|s]; [discriminate Hc | eexists; reflexivity]. }
  cbv [ok] in Hbody. rewrite Hbody. eexists; reflexivity.
Qed.

(** The page of the older copy is drawn to the end when the dates are
    converted, the labels of the durations are parsed and every cell can be
    printed. *)
Lemma draw_runs (data d1 : DataFrame) (durations : list cell) (mins : list Z) :
  well_formed data -> Forall (Forall (fun c => printable c = true)) (rows data) ->
  convert_dates data = ok d1 ->
  Pd.column "Duration" data = ok durations ->
  map_result duration_minutes_cell durations = ok mins ->
  existsb (String.eqb "Severity") (columns data) = true ->
  exists p, PageCopy.draw data = ok p.
Proof.
  intros Hwf Hren H1 Hcd Hmins Hsev.
  destruct (convert_dates_squared data d1 Hwf H1) as (Hs1 & Hc1 & _ & _).
  destruct (convert_dates_column data d1 Hwf H1) as (col & stamps & Hcol & Hts & Hd1 & Hst).
  assert (Forall (Forall (fun c => printable c = true)) (rows d1)) as Hren1.
  { rewrite Hd1. apply set_column_printable; [exact Hren|].
    eapply to_datetime_printable; [exact Hts|]. eapply column_printable; eassumption. }
  rewrite <- (column_converted_other "Duration" _ d1 Hwf H1) in Hcd by discriminate.
  unfold PageCopy.draw. rewrite H1. cbv [bind ok].
  unfold Page.month_chart. rewrite (chart_norm "Month" _ d1 Hs1), Hst. cbv [bind ok].
  destruct (stamps_dt Series.strftime_month col stamps Hts) as [months Hm].
  pose proof Hm as Hm'. cbv [ok] in Hm'. rewrite Hm'. cbn [fst snd].
  assert (length months = length (rows d1)) as Hlm
    by (rewrite (map_result_length _ _ _ Hm); eapply column_length, Hst).
  pose proof (set_column_squared "Month" months d1 Hs1 Hlm) as Hs2.
  pose proof (set_column_length "Month" months d1 Hs1 Hlm) as Hl2.
  pose proof (set_column_printable "Month" months d1 Hren1 (dt_printable _ _ _ Hm)) as Hren2.
  assert (Pd.column "Date" (Pd.set_column "Month" months d1) = ok stamps) as Hst2
    by (rewrite column_set_other by (assumption || discriminate); exact Hst).
  assert (Pd.column "Duration" (Pd.set_column "Month" months d1) = ok durations) as Hcd2
    by (rewrite column_set_other by (assumption || discriminate); exact Hcd).
  assert (existsb (String.eqb "Severity") (columns (Pd.set_column "Month" months d1)) = true)
    as Hsev2.
  { apply present_set_column. rewrite Hc1. exact Hsev. }
  set (d2 := Pd.set_column "Month" months d1) in *.
  unfold Page.weekday_chart. rewrite (chart_norm "Weekday" _ d2 Hs2), Hst2. cbv [bind ok].
  destruct (stamps_dt Series.day_name col stamps Hts) as [days Hd].
  pose proof Hd as Hd'. cbv [ok] in Hd'. rewrite Hd'. cbn [fst snd].
  assert (length days = length (rows d2)) as Hld
    by (rewrite Hl2, (map_result_length _ _ _ Hd); eapply column_length, Hst).
  pose proof (set_column_squared "Weekday" days d2 Hs2 Hld) as Hs3.
  pose proof (set_column_length "Weekday" days d2 Hs2 Hld) as Hl3.
  pose proof (set_column_printable "Weekday" days d2 Hren2 (dt_printable _ _ _ Hd)) as Hren3.
  assert (Pd.column "Duration" (Pd.set_column "Weekday" days d2) = ok durations) as Hcd3
    by (rewrite column_set_other by (assumption || discriminate); exact Hcd2).
  assert (existsb (String.eqb "Severity") (columns (Pd.set_column "Weekday" days d2)) = true)
    as Hsev3.
  { apply present_set_column. exact Hsev2. }
  set (d3 := Pd.set_column "Weekday" days d2) in *.
  unfold PageCopy.duration_chart. rewrite Hcd3. cbv [bind ok].
  pose proof Hmins as Hmins'. cbv [ok] in Hmins'. rewrite Hmins'. cbn [fst snd].
  assert (length (map CInt mins) = length (rows d3)) as Hlmin.
  { rewrite length_map, (map_result_length _ _ _ Hmins). eapply column_length, Hcd3. }
  pose proof (set_column_squared "Duration Minutes" _ d3 Hs3 Hlmin) as Hs4.
  pose proof (set_column_length "Duration Minutes" _ d3 Hs3 Hlmin) as Hl4.
  assert (Forall (fun c => printable c = true) (map CInt mins)) as Hrmin
    by (apply Forall_map, Forall_forall; intros m _; reflexivity).
  pose proof (set_column_printable "Duration Minutes" _ d3 Hren3 Hrmin) as Hren4.
  assert (existsb (String.eqb "Severity")
            (columns (Pd.set_column "Duration Minutes" (map CInt mins) d3)) = true) as Hsev4.
  { apply present_set_column. exact Hsev3. }
  set (d4 := Pd.set_column "Duration Minutes" (map CInt mins) d3) in *.
  set (bins := map Series.category (map (Pd.cut duration_bins duration_bin_labels) mins)).
  assert (length bins = length (rows d4)) as Hlb.
  { unfold bins. rewrite !length_map, Hl4. rewrite length_map in Hlmin. exact Hlmin. }
  assert (Forall (fun c => printable c = true) bins) as Hrb.
  { unfold bins. apply Forall_map, Forall_forall. intros o _. destruct o; reflexivity. }
  pose proof (set_column_printable "Duration Bin" _ d4 Hren4 Hrb) as Hren5.
  assert (existsb (String.eqb "Severity") (columns (Pd.set_column "Duration Bin" bins d4)) = true)
    as Hsev5.
  { apply present_set_column. exact Hsev4. }
  set (d5 := Pd.set_column "Duration Bin" bins d4) in *.
  unfold Page.severity_pie.
  rewrite (column_present "Severity" d5 Hsev5). cbv [ok].
  destruct (to_csv_str_runs d5 Hren5) as [csv Hcsv]. cbv [ok] in Hcsv. rewrite Hcsv.
  eexists; reflexivity.
Qed.

Lemma bins_partition_signed (mins : list Z) :
  (length (List.filter (in_bin "0-30分钟") mins)
   + length (List.filter (in_bin "30-60分钟") mins)
   + length (List.filter (in_bin "60-120分钟") mins)
   + length (List.filter (in_bin "120分钟以上") mins))%nat
  = length (List.filter (fun m => 0 <=? m) mins).
Proof.
  induction mins as [|m mins IH]; [reflexivity|].
  cbn [List.filter]. destruct (in_bin_values m) as (-> & -> & -> & ->).
  destruct (Z.leb_spec 0 m), (Z.ltb_spec m 30), (Z.leb_spec 30 m), (Z.ltb_spec m 60),
    (Z.leb_spec 60 m), (Z.ltb_spec m 120), (Z.leb_spec 120 m); try lia; cbn [andb length]; lia.
Qed.

Lemma copy_schema_cells (entries : list AppCopy.form) :
  Pd.column "Date" (diary_copy entries) = ok (map (fun f => nth 0 (reloaded_copy f) NaN) entries)
  /\ Pd.column "Duration" (diary_copy entries)
     = ok (map (fun f => nth 3 (reloaded_copy f) NaN) entries).
Proof.
  unfold Pd.column, diary_copy, Pd.frame_of_rows. cbn [columns rows].
  change (Pd.position "Date" AppCopy.schema) with (Some 0%nat).
  change (Pd.position "Duration" AppCopy.schema) with (Some 3%nat).
  cbv beta iota. rewrite !map_map. split; reflexivity.
Qed.

Lemma copy_diary_converts (entries : list AppCopy.form) :
  Forall acceptable_copy entries -> exists d1, convert_dates (diary_copy entries) = ok d1.
Proof.
  intros H. unfold convert_dates. rewrite (proj1 (copy_schema_cells entries)). cbv [bind ok].
  destruct (map_result_ok Pd.to_datetime (map (fun f => nth 0 (reloaded_copy f) NaN) entries))
    as [stamps Hs].
  { apply Forall_map. eapply Forall_impl; [exact H|]. intros f (Hd & _). cbv beta.
    cbn [reloaded_copy nth Pd.to_datetime]. rewrite (isoformat_parses _ Hd).
    eexists; reflexivity. }
  cbv [ok] in Hs. rewrite Hs. eexists; reflexivity.
Qed.

Lemma copy_diary_minutes (entries : list AppCopy.form) :
  Forall acceptable_copy entries ->
  exists mins,
    map_result duration_minutes_cell (map (fun f => nth 3 (reloaded_copy f) NaN) entries)
    = ok mins
    /\ length (List.filter (fun m => 0 <=? m) mins) = length (List.filter in_order entries).
Proof.
  induction 1 as [|f entries Hf _ (mins & Hm & Hcount)].
  - exists []. split; reflexivity.
  - destruct Hf as (Hd & Hs & He & _).
    set (s := DT.combine (AppCopy.f_date f) (AppCopy.f_start f)).
    set (e := DT.combine (AppCopy.f_date f) (AppCopy.f_end f)).
    exists ((DT.timestamp e - DT.timestamp s) / 60000000 :: mins). split.
    + cbn [map map_result].
      change (nth 3 (reloaded_copy f) NaN) with (CStr (fst (calculate_duration s e))).
      cbn [duration_minutes_cell]. rewrite duration_minutes_calc. cbv [bind ok] in *. rewrite Hm. reflexivity.
    + cbn [List.filter]. unfold in_order at 1. fold s e.
      assert (DT.valid s = true) as Hvs
        by (unfold DT.valid, s, DT.combine; cbn; rewrite Hd, Hs; reflexivity).
      assert (DT.valid e = true) as Hve
        by (unfold DT.valid, e, DT.combine; cbn; rewrite Hd, He; reflexivity).
      pose proof (lt_timestamp e s Hve Hvs) as Hlt. unfold DT.lt in Hlt.
      destruct (DT.gt s e).
      * assert (DT.timestamp e < DT.timestamp s) as Hneg by (apply Hlt; reflexivity).
        destruct (Z.leb_spec 0 ((DT.timestamp e - DT.timestamp s) / 60000000)) as [Hge|_];
          [|exact Hcount].
        exfalso. assert ((DT.timestamp e - DT.timestamp s) / 60000000 < 0)
          by (apply Z.div_lt_upper_bound; lia). lia.
      * assert (~ DT.timestamp e < DT.timestamp s) as Hpos
          by (intros Hx; apply Hlt in Hx; discriminate Hx).
        destruct (Z.leb_spec 0 ((DT.timestamp e - DT.timestamp s) / 60000000)) as [_|Hneg].
        -- cbn [negb length]. rewrite Hcount. reflexivity.
        -- exfalso. assert (0 <= (DT.timestamp e - DT.timestamp s) / 60000000)
             by (apply Z.div_pos; lia). lia.
Qed.

Lemma copy_diary_printable (entries : list AppCopy.form) :
  Forall (Forall (fun c => printable c = true)) (rows (diary_copy entries)).
Proof.
  unfold diary_copy, Pd.frame_of_rows. cbn [rows]. apply Forall_map, Forall_forall.
  intros f _. unfold reloaded_copy, remark_cell.
  repeat (apply List.Forall_cons; [try reflexivity|]); [|apply List.Forall_nil].
  destruct (AppCopy.f_remarks f); reflexivity.
Qed.

(** X25. The older copy draws its whole page on its own diary, and the
    entries that end before they start are in no bar of its duration chart.
    Starting without a file, after one or more entries with a valid date,
    valid times in whole minutes and in any order, a severity in the 64-bit
    range, an empty or plain remark and a selection among the three
    locations, no step of the page fails: the five charts are drawn and the
    download is made.  The four bars of the duration chart add up to the
    number of entries whose start is not after their end; the negative
    duration of the others falls in none of the bins. *)
Theorem copy_diary_page_is_drawn (entries : list AppCopy.form) :
  Forall acceptable_copy entries -> entries <> [] ->
  exists p,
    PageCopy.render (submit_all_copy None entries) = Rendered p
    /\ bars (PageCopy.by_duration p) = length (List.filter in_order entries).
Proof.
  intros Hall Hne.
  pose proof (diary_copy_well_formed entries) as Hwf.
  destruct (copy_diary_converts entries Hall) as [d1 H1].
  destruct (copy_schema_cells entries) as [_ Hdur].
  destruct (copy_diary_minutes entries Hall) as (mins & Hmins & Hcount).
  destruct (draw_runs (diary_copy entries) d1 _ mins Hwf (copy_diary_printable entries)
              H1 Hdur Hmins eq_refl) as [p Hp].
  exists p. split.
  - unfold PageCopy.render. rewrite (copy_diary_loaded entries Hall). cbv [ok].
    assert (Pd.empty (diary_copy entries) = false) as ->.
    { unfold Pd.empty, diary_copy, Pd.frame_of_rows. cbn [rows columns]. rewrite length_map.
      destruct entries; [congruence | reflexivity]. }
    cbv [ok] in Hp. rewrite Hp. reflexivity.
  - destruct (draw_steps _ p Hwf Hp)
      as (d1' & stamps & months & days & durations & mins' & severity
          & H1' & _ & _ & _ & Hcd & Hmins' & _ & _ & _ & _ & Hby & _).
    rewrite H1 in H1'. injection H1' as <-.
    rewrite (column_converted_other "Duration" _ d1 Hwf H1) in Hcd by discriminate.
    rewrite Hdur in Hcd. apply ok_inj in Hcd. subst durations.
    rewrite Hmins in Hmins'. apply ok_inj in Hmins'. subst mins'.
    rewrite <- (column_converted_other "Duration" _ d1 Hwf H1) in Hdur by discriminate.
    destruct (duration_counts_value d1 _ mins Hdur Hmins) as (counts & Hcounts & Hin & _).
    assert (counts = PageCopy.by_duration p) as <-.
    { unfold duration_counts in Hcounts. rewrite Hdur in Hcounts. cbv [bind ok] in Hcounts.
      cbv [ok] in Hmins. rewrite Hmins in Hcounts. rewrite Hby.
      injection Hcounts as <-. reflexivity. }
    unfold bars, count_of.
    rewrite !Hin by (unfold duration_bin_labels; cbn [In]; auto 6).
    cbv [default from_option id].
    rewrite bins_partition_signed. exact Hcount.
Qed.

Lemma copy_diary_page_is_drawn_witness :
  exists p,
    PageCopy.render (submit_all_copy None [older_entry; overnight_entry]) = Rendered p
    /\ bars (PageCopy.by_duration p) = 1%nat.
Proof.
  destruct (copy_diary_page_is_drawn [older_entry; overnight_entry] older_diary_acceptable
              ltac:(discriminate)) as (p & Hp & Hbars).
  exists p. split; [exact Hp|]. rewrite Hbars. reflexivity.
Defined.
